(** * DreamLine: the daily-action scheduling and progress-accounting engine

    A shallow embedding of [backend/server.py]: the day resolver
    ([effective_day]), the rollover engine ([reschedule_incomplete_actions]),
    the fresh-action engine ([ensure_fresh_actions_for_today]) with its action
    generator, the progress aggregator ([calculate_streak],
    [generate_weekly_summary]) and the check-in route ([check_in]).

    Conventions of the embedding
    - a Python [str] is the list of its code points ([list N]);
    - a [date] is its proleptic Gregorian ordinal ([date.toordinal()]), so
      that [d - timedelta(days=k)] is [d - k] and [(d1 - d2).days] is
      [d1 - d2]; a [datetime] is a number of microseconds since the Unix
      epoch (the range limits of Python's [date] are not modelled);
    - the tables are lists of rows in the scan order of the store; a query
      without ORDER BY returns the matching rows in that order;
    - [uuid.uuid4()] is a supply of identifiers handed to each engine;
    - the text-generation client is an oracle that answers or raises;
    - the engines read plans whose focus areas are JSON objects of strings
      ([FocusArea.t]); the goal routes handle what [json.loads] returns as a
      value of [JSON], of any shape;
    - of the constraints of the store, the refusal of anything but a string
      in a text column that is NOT NULL is modelled where a route writes
      such a value from JSON; the limits of PostgreSQL on the values
      themselves (the widths of the columns, NUL characters, numbers that
      are not finite in a JSONB column) and the keys between the tables are
      not: the store takes every string and every JSON value. *)

From Stdlib Require Import ZArith NArith Lia Ascii String SpecFloat.
From stdpp Require Import base decidable option numbers list sorting countable gmap.

Local Open Scope Z_scope.

(** ** Python strings *)

Abbreviation pystr := (list N).

(** An ASCII literal as a Python string. *)
Definition lit (s : string) : pystr :=
  List.map N_of_ascii (list_ascii_of_string s).

(** [str.isspace] on one code point (CPython's [_PyUnicode_IsWhitespace]). *)
Definition isspace (c : N) : bool :=
  (((9 <=? c) && (c <=? 13)) || ((28 <=? c) && (c <=? 32))
   || (c =? 133) || (c =? 160) || (c =? 5760)
   || ((8192 <=? c) && (c <=? 8202))
   || (c =? 8232) || (c =? 8233) || (c =? 8239) || (c =? 8287)
   || (c =? 12288))%N.

(** The line boundaries of [str.splitlines] ([_PyUnicode_IsLinebreak]). *)
Definition islinebreak (c : N) : bool :=
  (((10 <=? c) && (c <=? 13)) || ((28 <=? c) && (c <=? 30))
   || (c =? 133) || (c =? 8232) || (c =? 8233))%N.

Fixpoint lstrip (s : pystr) : pystr :=
  match s with
  | [] => []
  | c :: s' => if isspace c then lstrip s' else s
  end.

Definition rstrip (s : pystr) : pystr := rev (lstrip (rev s)).

(** [s.strip()] *)
Definition strip (s : pystr) : pystr := rstrip (lstrip s).

(** The first element of [s.splitlines()], when there is one: the text before
    the first line boundary.  The empty string has no line. *)
Fixpoint until_linebreak (s : pystr) : pystr :=
  match s with
  | [] => []
  | c :: s' => if islinebreak c then [] else c :: until_linebreak s'
  end.

Definition splitlines_head (s : pystr) : option pystr :=
  match s with
  | [] => None
  | _ => Some (until_linebreak s)
  end.

(** Truthiness of a string, and [a or b] on strings. *)
Definition truthy (s : pystr) : bool :=
  match s with [] => false | _ => true end.

Definition str_or (a b : pystr) : pystr := if truthy a then a else b.

(** [d.get(k) or b]: a missing key reads as [None], which is falsy. *)
Definition get_or (a : option pystr) (b : pystr) : pystr :=
  match a with
  | Some s => str_or s b
  | None => b
  end.

(** [d.get(k, b)]: the default is used only when the key is missing. *)
Definition get_default (a : option pystr) (b : pystr) : pystr :=
  match a with
  | Some s => s
  | None => b
  end.

(** [str(n)] for an integer. *)
Fixpoint digits_pos (fuel : nat) (n : N) (acc : pystr) : pystr :=
  match fuel with
  | O => acc
  | S fuel' =>
      let acc' := (48 + n mod 10)%N :: acc in
      if (n <? 10)%N then acc' else digits_pos fuel' (n / 10)%N acc'
  end.

Definition str_of_int (z : Z) : pystr :=
  match z with
  | Z0 => [48%N]
  | Zpos p => digits_pos (Pos.to_nat p) (Npos p) []
  | Zneg p => 45%N :: digits_pos (Pos.to_nat p) (Npos p) []
  end.

(** ** Configuration and clock *)

Record Config := {
  (** [ZoneInfo(LOCAL_TIMEZONE)]: the UTC offset, in microseconds, that the
      zone applies at a given instant. *)
  LOCAL_TZ : Z -> Z;
  DAY_ROLLOVER_HOUR : Z;
  AI_MAX_CONCURRENCY : Z
}.

Definition us_per_hour : Z := 3600000000.
Definition us_per_day : Z := 24 * us_per_hour.

(** Ordinal of 1970-01-01. *)
Definition epoch_ordinal : Z := 719163.

(** [now_utc.astimezone(LOCAL_TZ)], as local wall-clock microseconds. *)
Definition astimezone (cfg : Config) (now_utc : Z) : Z :=
  now_utc + LOCAL_TZ cfg now_utc.

Definition local_date (local : Z) : Z := local / us_per_day + epoch_ordinal.
Definition local_hour (local : Z) : Z := (local mod us_per_day) / us_per_hour.
Definition local_minute (local : Z) : Z :=
  (local mod us_per_hour) / 60000000.

Definition effective_day (cfg : Config) (now_utc : Z) : Z :=
  let local := astimezone cfg now_utc in
  let d := local_date local in
  if local_hour local <? DAY_ROLLOVER_HOUR cfg then d - 1 else d.

(** [date.weekday()]: Monday is 0. Ordinal 1 (0001-01-01) is a Monday. *)
Definition weekday (d : Z) : Z := (d + 6) mod 7.

(** ** Exceptions *)

Inductive Exception :=
  | ValueError
  | IndexError
  | APIError
  | HTTPException (status_code : Z) (detail : pystr)
  | AttributeError
  | TypeError
  | KeyError
  | DBAPIError.

(** The outcome of a call: it returns, raises, or never returns. *)
Inductive outcome (A : Type) :=
  | Returns (a : A)
  | Raises (e : Exception)
  | Blocks.
Arguments Returns {A} a.
Arguments Raises {A} e.
Arguments Blocks {A}.

#[global] Instance outcome_bind : MBind outcome := fun A B k m =>
  match m with
  | Returns a => k a
  | Raises e => Raises e
  | Blocks => Blocks
  end.

#[global] Instance outcome_ret : MRet outcome := fun A a => Returns a.

(** [try: body except Exception: handler] *)
Definition try_except {A} (body : outcome A) (handler : Exception -> outcome A)
  : outcome A :=
  match body with
  | Raises e => handler e
  | other => other
  end.

(** [l[0]] *)
Definition first_item {A} (l : list A) : outcome A :=
  match l with
  | x :: _ => Returns x
  | [] => Raises IndexError
  end.

(** ** Tables *)

Module FocusArea.
(** One entry of [Plan.focus_areas]: a JSON object whose values are strings
    (and a list of strings for [outcomes]); a key may be missing. *)
Record t := {
  name : option pystr;
  description : option pystr;
  success_looks_like : option pystr;
  outcomes : option (list pystr);
  monthly_direction : option pystr;
  weekly_focus : option pystr;
  daily_action : option pystr
}.
End FocusArea.

Module Plan.
Record t := {
  id : pystr;
  user_id : pystr;
  goal_id : pystr;
  focus_areas : list FocusArea.t;
  timeline : pystr;
  status : pystr;
  created_at : Z
}.
End Plan.

Module DailyAction.
Record t := {
  id : pystr;
  user_id : pystr;
  plan_id : pystr;
  focus_area : pystr;
  action : pystr;
  day : Z;
  completed : bool;
  completed_at : option Z;
  rescheduled_from : option Z
}.
End DailyAction.

(** The part of the session's database the engine reads and writes. *)
Record Db := {
  plans : list Plan.t;
  daily_actions : list DailyAction.t
}.

(** [db.add_all(rows); await db.commit()] *)
Definition add_all (db : Db) (rows : list DailyAction.t) : Db :=
  {| plans := plans db; daily_actions := daily_actions db ++ rows |}.

(** ** Rollover engine *)

(** The row selected by both carried-row queries of the rollover. *)
Definition is_carried (user_id : pystr) (today yesterday : Z)
    (a : DailyAction.t) : Prop :=
  DailyAction.user_id a = user_id ∧ DailyAction.day a = today
  ∧ DailyAction.rescheduled_from a = Some yesterday.

Definition is_incomplete (user_id : pystr) (yesterday : Z)
    (a : DailyAction.t) : Prop :=
  DailyAction.user_id a = user_id ∧ DailyAction.day a = yesterday
  ∧ DailyAction.completed a = false.

#[global] Instance is_carried_dec u t y a : Decision (is_carried u t y a).
Proof. unfold is_carried. apply _. Defined.

#[global] Instance is_incomplete_dec u y a : Decision (is_incomplete u y a).
Proof. unfold is_incomplete. apply _. Defined.

Definition carry_key (a : DailyAction.t) : pystr * pystr * pystr :=
  (DailyAction.plan_id a, DailyAction.focus_area a, DailyAction.action a).

Definition carried_copy (today yesterday : Z) (new_id : pystr)
    (a : DailyAction.t) : DailyAction.t :=
  {| DailyAction.id := new_id;
     DailyAction.user_id := DailyAction.user_id a;
     DailyAction.plan_id := DailyAction.plan_id a;
     DailyAction.focus_area := DailyAction.focus_area a;
     DailyAction.action := DailyAction.action a;
     DailyAction.day := today;
     DailyAction.completed := false;
     DailyAction.completed_at := None;
     DailyAction.rescheduled_from := Some yesterday |}.

(** [scalar_one_or_none()] of the [limit(1)] query on the ids, tested for
    truth: a row was found and its id is not the empty string. *)
Definition already_carried (user_id : pystr) (today yesterday : Z)
    (db : Db) : bool :=
  match head (filter (is_carried user_id today yesterday) (daily_actions db)) with
  | Some a => truthy (DailyAction.id a)
  | None => false
  end.

Definition reschedule_incomplete_actions (cfg : Config) (now : Z)
    (uuid4 : nat -> pystr) (db : Db) (user_id : pystr) : Db :=
  let today := effective_day cfg now in
  let yesterday := today - 1 in
  if already_carried user_id today yesterday db then db else
  let rows := filter (is_incomplete user_id yesterday) (daily_actions db) in
  match rows with
  | [] => db
  | _ =>
    let existing_keys : gset (pystr * pystr * pystr) :=
      list_to_set
        (carry_key <$> filter (is_carried user_id today yesterday)
                              (daily_actions db)) in
    let to_add :=
      imap (fun i a => carried_copy today yesterday (uuid4 i) a)
           (filter (fun a => carry_key a ∉ existing_keys) rows) in
    match to_add with
    | [] => db
    | _ => add_all db to_add
    end
  end.

(** ** Action generator *)

Definition get_timeline_context (timeline : pystr) : pystr :=
  if decide (timeline = lit "1_month") then
    lit "They want to achieve this in 1 month. Break it into weekly milestones."
  else if decide (timeline = lit "3_months") then
    lit "They have 3 months. Create sustainable monthly phases."
  else if decide (timeline = lit "6_months") then
    lit "They have 6 months. Build gradually with clear monthly themes."
  else if decide (timeline = lit "1_year") then
    lit "They have a year. Create quarterly milestones with monthly focuses."
  else if decide (timeline = lit "new_year") then
    lit "New Year's resolution. Start in January with quarterly check-ins."
  else lit "Create a balanced plan based on goal complexity.".

Definition default_action : pystr := lit "Take one small step today.".

(** The five phrasings of the fallback; [8211] is the en dash of "15-30". *)
Definition fallback_variants (name base : pystr) : list pystr :=
  [ lit "Do a 15" ++ [8211%N] ++ lit "30 min micro-step toward: " ++ base;
    lit "Make it real: produce a tiny deliverable toward: " ++ base;
    lit "Remove one blocker for: " ++ base
      ++ lit " (list 3 sub-steps, then do the first)";
    lit "Ship something small today for: " ++ base;
    lit "Review + adjust: what did you learn about " ++ name
      ++ lit "? Then choose the next tiny step." ].

Definition fallback_next_action (focus_area : FocusArea.t) (day_index : Z)
  : pystr :=
  let name := strip (get_or (FocusArea.name focus_area) (lit "Focus")) in
  let weekly := strip (get_or (FocusArea.weekly_focus focus_area) []) in
  let monthly := strip (get_or (FocusArea.monthly_direction focus_area) []) in
  let base :=
    str_or weekly
      (str_or monthly (lit "Move this forward with a small concrete step.")) in
  let variants := fallback_variants name base in
  nth (Z.to_nat (day_index mod Z.of_nat (length variants))) variants [].

(** What the prompt of one generation request is built from. *)
Record Request := {
  req_timeline_context : pystr;
  req_name : pystr;
  req_monthly_direction : pystr;
  req_weekly_focus : pystr;
  req_success_looks_like : pystr;
  req_outcomes : list pystr;
  req_yesterday : list (pystr * bool);
  req_day_index : Z
}.

(** The answer of the text-generation service to one request: the [content]
    of each returned choice ([None] for a null content), or a failure. *)
Inductive Reply :=
  | Choices (contents : list (option pystr))
  | Failure (e : Exception).

(** The configured client: [client i] is how the service answers the request
    of the i-th task of a batch (two equal requests may be answered
    differently). *)
Definition Client := nat -> Request -> Reply.

Definition chat_completions_create (create : Request -> Reply) (r : Request)
  : outcome (list (option pystr)) :=
  match create r with
  | Choices cs => Returns cs
  | Failure e => Raises e
  end.

Definition generate_next_action_with_ai
    (openai_client : option (Request -> Reply)) (plan : Plan.t)
    (focus_area : FocusArea.t) (yesterday_actions : list DailyAction.t)
    (day_index : Z) : outcome pystr :=
  match openai_client with
  | None => Returns (fallback_next_action focus_area day_index)
  | Some create =>
    let name := get_default (FocusArea.name focus_area) (lit "Focus") in
    let monthly := get_default (FocusArea.monthly_direction focus_area) [] in
    let weekly := get_default (FocusArea.weekly_focus focus_area) [] in
    let success := get_default (FocusArea.success_looks_like focus_area) [] in
    let outcomes := default [] (FocusArea.outcomes focus_area) in
    let y_items :=
      (fun a => (DailyAction.action a, DailyAction.completed a))
        <$> filter (fun a => DailyAction.focus_area a = name) yesterday_actions in
    let timeline_context := get_timeline_context (Plan.timeline plan) in
    let prompt :=
      {| req_timeline_context := timeline_context;
         req_name := name;
         req_monthly_direction := monthly;
         req_weekly_focus := weekly;
         req_success_looks_like := success;
         req_outcomes := outcomes;
         req_yesterday := y_items;
         req_day_index := day_index |} in
    try_except
      (choices ← chat_completions_create create prompt;
       content ← first_item choices;
       let out := strip (get_or content []) in
       if truthy out then
         line ← first_item (option_list (splitlines_head out));
         Returns (strip line)
       else Returns (fallback_next_action focus_area day_index))
      (fun _ => Returns (fallback_next_action focus_area day_index))
  end.

(** ** Fresh-action engine *)

(** [asyncio.Semaphore(value)] *)
Definition Semaphore (value : Z) : outcome Z :=
  if value <? 0 then Raises ValueError else Returns value.

(** [await asyncio.gather] of the tasks with [return_exceptions=True]: the
    results in task order once every task is over; a task that never
    finishes keeps the caller waiting. *)
Fixpoint gather (tasks : list (outcome pystr))
  : outcome (list (Exception + pystr)) :=
  match tasks with
  | [] => Returns []
  | t :: tasks' =>
    match t with
    | Blocks => Blocks
    | Returns s => results ← gather tasks'; Returns (inr s :: results)
    | Raises e => results ← gather tasks'; Returns (inl e :: results)
    end
  end.

(** The inner [gen_one].  Under [async with semaphore] a task holds one of the
    permits while its call is in progress and gives it back afterwards, so it
    waits forever exactly when the semaphore has no permit at all (the module
    [Fanout] below spells the interleaving out; [fanout_progress] and
    [fanout_without_permit] are the two halves of this "exactly"). *)
Definition gen_one (semaphore : Z) (openai_client : option (Request -> Reply))
    (plan : Plan.t) (area : FocusArea.t) (day_index : Z)
    (y_list : list DailyAction.t) : outcome pystr :=
  match openai_client with
  | None => Returns (fallback_next_action area day_index)
  | Some _ =>
    if semaphore =? 0 then Blocks
    else generate_next_action_with_ai openai_client plan area y_list day_index
  end.

Definition fresh_row (user_id : pystr) (today : Z)
    (meta : pystr * pystr * pystr) (result : Exception + pystr)
  : DailyAction.t :=
  let '(plan_id, focus_name, action_id) := meta in
  let action_text :=
    match result with
    | inl _ => default_action
    | inr s => strip (str_or s default_action)
    end in
  {| DailyAction.id := action_id;
     DailyAction.user_id := user_id;
     DailyAction.plan_id := plan_id;
     DailyAction.focus_area := focus_name;
     DailyAction.action := action_text;
     DailyAction.day := today;
     DailyAction.completed := false;
     DailyAction.completed_at := None;
     DailyAction.rescheduled_from := None |}.

Definition is_fresh_today (user_id : pystr) (today : Z) (plan_ids : list pystr)
    (a : DailyAction.t) : Prop :=
  DailyAction.user_id a = user_id ∧ DailyAction.day a = today
  ∧ DailyAction.rescheduled_from a = None
  ∧ DailyAction.plan_id a ∈ plan_ids.

#[global] Instance is_fresh_today_dec u t ps a :
  Decision (is_fresh_today u t ps a).
Proof. unfold is_fresh_today. apply _. Defined.

Definition is_active_plan (user_id : pystr) (p : Plan.t) : Prop :=
  Plan.user_id p = user_id ∧ Plan.status p = lit "active".

#[global] Instance is_active_plan_dec u p : Decision (is_active_plan u p).
Proof. unfold is_active_plan. apply _. Defined.

(** The (plan, focus area) pairs of the two nested loops, in loop order. *)
Definition pairs_to_generate (plans_to_generate : list Plan.t)
  : list (Plan.t * FocusArea.t) :=
  plan ← plans_to_generate;
  (fun area => (plan, area)) <$> Plan.focus_areas plan.

Definition ensure_fresh_actions_for_today (cfg : Config) (now : Z)
    (openai_client : option Client) (uuid4 : nat -> pystr)
    (db : Db) (user_id : pystr) : outcome Db :=
  let today := effective_day cfg now in
  let yesterday := today - 1 in
  let plans := filter (is_active_plan user_id) (plans db) in
  match plans with
  | [] => Returns db
  | _ =>
    let plan_ids := Plan.id <$> plans in
    let existing_fresh_plan_ids : gset pystr :=
      list_to_set
        (DailyAction.plan_id
           <$> filter (is_fresh_today user_id today plan_ids)
                      (daily_actions db)) in
    let plans_to_generate :=
      filter (fun p => Plan.id p ∉ existing_fresh_plan_ids) plans in
    match plans_to_generate with
    | [] => Returns db
    | _ =>
      let plans_to_generate_ids := Plan.id <$> plans_to_generate in
      let y_actions :=
        filter (fun a => DailyAction.user_id a = user_id
                         ∧ DailyAction.plan_id a ∈ plans_to_generate_ids
                         ∧ DailyAction.day a = yesterday)
               (daily_actions db) in
      let y_by_plan : gmap pystr (list DailyAction.t) :=
        foldl (fun m a =>
                 <[DailyAction.plan_id a :=
                     default [] (m !! DailyAction.plan_id a) ++ [a]]> m)
              ∅ y_actions in
      let first_day_by_plan : gmap pystr Z :=
        foldl (fun m a =>
                 <[DailyAction.plan_id a :=
                     match m !! DailyAction.plan_id a with
                     | Some d => Z.min d (DailyAction.day a)
                     | None => DailyAction.day a
                     end]> m)
              ∅
              (filter (fun a => DailyAction.user_id a = user_id
                                ∧ DailyAction.plan_id a ∈ plans_to_generate_ids)
                      (daily_actions db)) in
      semaphore ← Semaphore (AI_MAX_CONCURRENCY cfg);
      let jobs :=
        imap (fun i '(plan, area) =>
                let day_index :=
                  match first_day_by_plan !! Plan.id plan with
                  | Some first_day => today - first_day
                  | None => 0
                  end in
                let y_list := default [] (y_by_plan !! Plan.id plan) in
                let focus_name :=
                  get_default (FocusArea.name area) (lit "Focus") in
                let action_id := uuid4 i in
                ((Plan.id plan, focus_name, action_id),
                 match openai_client with
                 | Some client =>
                     gen_one semaphore (Some (client i)) plan area day_index
                             y_list
                 | None => Returns (fallback_next_action area day_index)
                 end))
             (pairs_to_generate plans_to_generate) in
      let task_meta := fst <$> jobs in
      let tasks := snd <$> jobs in
      results ← gather tasks;
      let new_rows :=
        (fun mr => fresh_row user_id today (fst mr) (snd mr))
          <$> zip task_meta results in
      Returns (add_all db new_rows)
    end
  end.

(** ** Python floats (IEEE 754 binary64) *)

Module PyFloat.
Definition prec : Z := 53.
Definition emax : Z := 1024.

Abbreviation float := spec_float.

(** [float(n)] for an integer, rounded to nearest even. *)
Definition of_int (n : Z) : float := binary_normalize prec emax n 0 false.

(** [a / b] on integers with [b] not zero (both below 2^53 in magnitude, as
    row counts are). *)
Definition int_truediv (a b : Z) : float :=
  SFdiv prec emax (of_int a) (of_int b).

(** [x * n] for a float and an integer. *)
Definition mul_int (x : float) (n : Z) : float :=
  SFmul prec emax x (of_int n).

(** [x >= n] and [x > n] for a float and an integer. *)
Definition ge_int (x : float) (n : Z) : bool := SFleb (of_int n) x.
Definition gt_int (x : float) (n : Z) : bool := SFltb (of_int n) x.

(** Nearest integer to [num / den] for [den > 0], ties to even. *)
Definition round_half_even (num den : Z) : Z :=
  let q := num / den in
  let r := num mod den in
  match 2 * r ?= den with
  | Lt => q
  | Gt => q + 1
  | Eq => if Z.even q then q else q + 1
  end.

(** [round(x, 1)]: the exact value of [x] is rounded to one decimal, ties
    to even, and the decimal read back as the nearest float. *)
Definition round1 (x : float) : float :=
  match x with
  | S754_finite s m e =>
    let n :=
      if 0 <=? e then 10 * Zpos m * 2 ^ e
      else round_half_even (10 * Zpos m) (2 ^ (- e)) in
    match n with
    | Zpos p => SFdiv prec emax (S754_finite s p 0) (of_int 10)
    | _ => S754_zero s
    end
  | _ => x
  end.
End PyFloat.

(** ** Progress aggregator *)

Record StreakResponse := {
  current_streak : Z;
  longest_streak : Z;
  total_completed : Z;
  message : pystr
}.

Definition is_completed_of (user_id : pystr) (a : DailyAction.t) : Prop :=
  DailyAction.user_id a = user_id ∧ DailyAction.completed a = true.

#[global] Instance is_completed_of_dec u a : Decision (is_completed_of u a).
Proof. unfold is_completed_of. apply _. Defined.

(** The [for i, d in enumerate(unique_days)] loop, entered at index [i]. *)
Fixpoint streak_from (today i : Z) (unique_days : list Z) : Z :=
  match unique_days with
  | [] => 0
  | d :: rest =>
    if d =? today - i then 1 + streak_from today (i + 1) rest else 0
  end.

(** The [for i in range(len(unique_days) - 1)] loop, with its two
    accumulators. *)
Fixpoint longest_from (unique_days : list Z) (longest run : Z) : Z :=
  match unique_days with
  | d :: ((d' :: _) as rest) =>
    if d - d' =? 1
    then longest_from rest (Z.max longest (run + 1)) (run + 1)
    else longest_from rest longest 1
  | _ => longest
  end.

Definition streak_message (current_streak : Z) : pystr :=
  if current_streak =? 0 then
    lit "Tomorrow is a fresh start! " ++ [127793%N]
  else if current_streak =? 1 then
    lit "One day at a time! Keep going " ++ [127775%N]
  else if current_streak <? 7 then
    str_of_int current_streak
      ++ lit " days of small steps! You're building something beautiful "
      ++ [127800%N]
  else if current_streak <? 30 then
    str_of_int current_streak
      ++ lit " days of showing up! This is becoming who you are "
      ++ [128171%N]
  else
    str_of_int current_streak
      ++ lit " days of gentle progress! You're amazing " ++ [127752%N].

(** The days fetched by the query: completed rows of the user, latest day
    first, at most 2000 of them. *)
Definition completed_days (db : Db) (user_id : pystr) : list Z :=
  take 2000
    (merge_sort Z.ge
       (DailyAction.day <$> filter (is_completed_of user_id) (daily_actions db))).

Definition calculate_streak (cfg : Config) (now : Z) (db : Db)
    (user_id : pystr) : StreakResponse :=
  let days := completed_days db user_id in
  match days with
  | [] =>
    {| current_streak := 0;
       longest_streak := 0;
       total_completed := 0;
       message := lit "Start your first action to begin your journey!" |}
  | _ =>
    let unique_days := merge_sort Z.ge (elements (list_to_set days : gset Z)) in
    let total_completed := Z.of_nat (length days) in
    let today := effective_day cfg now in
    let current_streak := streak_from today 0 unique_days in
    let longest := longest_from unique_days 1 1 in
    let longest := Z.max longest current_streak in
    {| current_streak := current_streak;
       longest_streak := longest;
       total_completed := total_completed;
       message := streak_message current_streak |}
  end.

Record AreaProgress := {
  area_name : pystr;
  area_completed : Z;
  area_total : Z;
  area_rate : PyFloat.float
}.

Record WeeklySummary := {
  week_start : Z;
  week_end : Z;
  total_actions : Z;
  completed_actions : Z;
  completion_rate : PyFloat.float;
  focus_areas_progress : list AreaProgress;
  wins : list pystr;
  momentum_message : pystr
}.

Definition in_week (user_id : pystr) (week_start week_end : Z)
    (a : DailyAction.t) : Prop :=
  DailyAction.user_id a = user_id ∧ week_start <= DailyAction.day a
  ∧ DailyAction.day a <= week_end.

#[global] Instance in_week_dec u s e a : Decision (in_week u s e a).
Proof. unfold in_week. apply _. Defined.

(** One round of the [progress] loop.  The dict keeps its keys in insertion
    order; an entry is (total, completed). *)
Fixpoint progress_step (progress : list (pystr * (Z * Z)))
    (focus_area : pystr) (completed : bool) : list (pystr * (Z * Z)) :=
  match progress with
  | [] => [(focus_area, (1, if completed then 1 else 0))]
  | (k, (total, done)) :: rest =>
    if decide (k = focus_area)
    then (k, (total + 1, if completed then done + 1 else done)) :: rest
    else (k, (total, done)) :: progress_step rest focus_area completed
  end.

(** [(completed / total * 100) if total else 0.0]; the per-area rate has the
    integer [0] in the else branch, which no area reaches as an area has at
    least one action. *)
Definition rate_of (completed total : Z) : PyFloat.float :=
  if total =? 0 then S754_zero false
  else PyFloat.mul_int (PyFloat.int_truediv completed total) 100.

Definition momentum_of (completion_rate : PyFloat.float) (completed : Z)
  : pystr :=
  if PyFloat.ge_int completion_rate 80 then
    lit "Incredible momentum this week! " ++ str_of_int completed
      ++ lit " actions completed " ++ [8212%N] ++ lit " you're moving "
      ++ [128640%N]
  else if PyFloat.ge_int completion_rate 60 then
    lit "Solid week! " ++ str_of_int completed
      ++ lit " actions done. Keep stacking wins " ++ [127775%N]
  else if PyFloat.ge_int completion_rate 40 then
    lit "You showed up " ++ str_of_int completed
      ++ lit " times this week. That counts " ++ [127793%N]
  else if PyFloat.gt_int completion_rate 0 then
    str_of_int completed
      ++ lit " small steps this week. Progress > perfection " ++ [128154%N]
  else lit "New week, fresh start! Your goals are waiting " ++ [127749%N].

(** The dates [week_start] and [week_end] stand for their ISO renderings. *)
Definition generate_weekly_summary (cfg : Config) (now : Z) (db : Db)
    (user_id : pystr) : WeeklySummary :=
  let today := effective_day cfg now in
  let week_start := today - weekday today in
  let week_end := week_start + 6 in
  let actions :=
    filter (in_week user_id week_start week_end) (daily_actions db) in
  let total := Z.of_nat (length actions) in
  let completed :=
    Z.of_nat (length (filter (fun a => DailyAction.completed a = true) actions)) in
  let completion_rate := rate_of completed total in
  let progress :=
    foldl (fun p a =>
             progress_step p (DailyAction.focus_area a) (DailyAction.completed a))
          [] actions in
  let focus_areas_progress :=
    (fun '(name, (total, done)) =>
       {| area_name := name;
          area_completed := done;
          area_total := total;
          area_rate := PyFloat.round1 (rate_of done total) |})
      <$> progress in
  let wins :=
    take 5
      ((fun a => DailyAction.focus_area a ++ lit ": " ++ DailyAction.action a)
         <$> filter (fun a => DailyAction.completed a = true) actions) in
  {| week_start := week_start;
     week_end := week_end;
     total_actions := total;
     completed_actions := completed;
     completion_rate := PyFloat.round1 completion_rate;
     focus_areas_progress := focus_areas_progress;
     wins := wins;
     momentum_message := momentum_of completion_rate completed |}.

(** ** Check-in *)

Record CheckInRequest := {
  action_id : pystr;
  req_completed : bool
}.

Definition is_target (request : CheckInRequest) (user_id : pystr)
    (a : DailyAction.t) : Prop :=
  DailyAction.id a = action_id request ∧ DailyAction.user_id a = user_id.

#[global] Instance is_target_dec r u a : Decision (is_target r u a).
Proof. unfold is_target. apply _. Defined.

(** The [values(...)] of the UPDATE applied to one matching row. *)
Definition set_completion (now : Z) (completed : bool) (a : DailyAction.t)
  : DailyAction.t :=
  {| DailyAction.id := DailyAction.id a;
     DailyAction.user_id := DailyAction.user_id a;
     DailyAction.plan_id := DailyAction.plan_id a;
     DailyAction.focus_area := DailyAction.focus_area a;
     DailyAction.action := DailyAction.action a;
     DailyAction.day := DailyAction.day a;
     DailyAction.completed := completed;
     DailyAction.completed_at := if completed then Some now else None;
     DailyAction.rescheduled_from := DailyAction.rescheduled_from a |}.

(** The route commits the UPDATE and then answers: the store after the
    request, with the response or the 404. *)
Definition check_in (now : Z) (request : CheckInRequest) (user_id : pystr)
    (db : Db) : Db * outcome bool :=
  let rowcount :=
    length (filter (is_target request user_id) (daily_actions db)) in
  let db' :=
    {| plans := plans db;
       daily_actions :=
         (fun a => if decide (is_target request user_id a)
                   then set_completion now (req_completed request) a
                   else a) <$> daily_actions db |} in
  (db', if decide (rowcount = 0%nat)
        then Raises (HTTPException 404 (lit "Action not found"))
        else Returns true).

(** ** The fan-out of the fresh-action engine, task by task

    Between the creation of the tasks and the return of [asyncio.gather] the
    event loop interleaves the tasks.  A task of the configured client runs
    [async with semaphore: return await generate_next_action_with_ai(...)]:
    it takes a permit, has its call in progress, and gives the permit back
    when the call is over.  Without a client each task only delivers its
    fallback text.  [calls] lists what the call of each task resolves to. *)

Module Fanout.
Inductive status :=
  | Pending
  | InFlight
  | Done (result : Exception + pystr).

Record pool := {
  permits : Z;
  statuses : list status
}.

Definition is_in_flight (s : status) : bool :=
  match s with InFlight => true | _ => false end.

Definition is_done (s : status) : bool :=
  match s with Done _ => true | _ => false end.

(** Number of generator calls in progress. *)
Definition in_flight (p : pool) : nat :=
  length (filter (fun s => is_in_flight s) (statuses p)).

Definition all_done (p : pool) : Prop :=
  Forall (fun s => is_done s) (statuses p).

(** What [gather] collects for a call that is over. *)
Definition settle (call : outcome pystr) : option (Exception + pystr) :=
  match call with
  | Returns s => Some (inr s)
  | Raises e => Some (inl e)
  | Blocks => None
  end.

Definition results (p : pool) : list (Exception + pystr) :=
  omap (fun s => match s with Done r => Some r | _ => None end) (statuses p).

(** [semaphore = asyncio.Semaphore(AI_MAX_CONCURRENCY)] and the creation of
    one task per (plan, focus area) pair. *)
Definition start (cfg : Config) (calls : list (outcome pystr))
  : outcome pool :=
  semaphore ← Semaphore (AI_MAX_CONCURRENCY cfg);
  Returns {| permits := semaphore;
             statuses := replicate (length calls) Pending |}.

Inductive step (has_client : bool) (calls : list (outcome pystr))
  : pool -> pool -> Prop :=
  | step_fallback p i r :
      has_client = false ->
      statuses p !! i = Some Pending ->
      calls !! i ≫= settle = Some r ->
      step has_client calls p
        {| permits := permits p;
           statuses := <[i := Done r]> (statuses p) |}
  | step_acquire p i :
      has_client = true ->
      statuses p !! i = Some Pending ->
      0 < permits p ->
      step has_client calls p
        {| permits := permits p - 1;
           statuses := <[i := InFlight]> (statuses p) |}
  | step_release p i r :
      statuses p !! i = Some InFlight ->
      calls !! i ≫= settle = Some r ->
      step has_client calls p
        {| permits := permits p + 1;
           statuses := <[i := Done r]> (statuses p) |}.

(** The engine around the pool: it waits in [gather], then inserts. *)
Inductive phase :=
  | Gathering (p : pool)
  | Committed (db : Db).

Inductive engine_step (has_client : bool) (calls : list (outcome pystr))
    (user_id : pystr) (today : Z) (task_meta : list (pystr * pystr * pystr))
    (db : Db) : phase -> phase -> Prop :=
  | engine_wait p p' :
      step has_client calls p p' ->
      engine_step has_client calls user_id today task_meta db
        (Gathering p) (Gathering p')
  | engine_commit p :
      all_done p ->
      engine_step has_client calls user_id today task_meta db
        (Gathering p)
        (Committed
           (add_all db
              ((fun mr => fresh_row user_id today (fst mr) (snd mr))
                 <$> zip task_meta (results p)))).
End Fanout.

(** ** Goal analysis *)

(** [s.find(c)] and [s.rfind(c)] for a one-character [c]: the index of the
    first and of the last occurrence, -1 without one. *)
Fixpoint find_from (c : N) (s : pystr) (i : Z) : Z :=
  match s with
  | [] => -1
  | x :: s' => if (x =? c)%N then i else find_from c s' (i + 1)
  end.

Definition find (c : N) (s : pystr) : Z := find_from c s 0.

Fixpoint rfind_from (c : N) (s : pystr) (i last : Z) : Z :=
  match s with
  | [] => last
  | x :: s' => rfind_from c s' (i + 1) (if (x =? c)%N then i else last)
  end.

Definition rfind (c : N) (s : pystr) : Z := rfind_from c s 0 (-1).

(** [s[start:stop]] for indices that are not negative. *)
Definition slice (s : pystr) (start stop : Z) : pystr :=
  take (Z.to_nat (stop - start)) (drop (Z.to_nat start) s).

(** A value read by [json.loads]: [None], a [bool], an [int], a [float], a
    [str], a [list] or a [dict].  A dict keeps its members in insertion
    order, each key once; reading a key takes its first member. *)
#[warnings="-register-all"]
Inductive JSON :=
  | JNull
  | JBool (b : bool)
  | JInt (n : Z)
  | JFloat (x : PyFloat.float)
  | JStr (s : pystr)
  | JArr (items : list JSON)
  | JObj (members : list (pystr * JSON)).

(** [bool(v)] *)
Definition json_truthy (v : JSON) : bool :=
  match v with
  | JNull => false
  | JBool b => b
  | JInt n => negb (n =? 0)
  | JFloat (S754_zero _) => false
  | JFloat _ => true
  | JStr s => truthy s
  | JArr [] => false
  | JArr _ => true
  | JObj [] => false
  | JObj _ => true
  end.

(** [a or b] *)
Definition json_or (a b : JSON) : JSON := if json_truthy a then a else b.

Fixpoint members_get (members : list (pystr * JSON)) (key : pystr)
  : option JSON :=
  match members with
  | [] => None
  | (k, v) :: rest => if decide (k = key) then Some v else members_get rest key
  end.

(** [v.get(key)]: [None] for a missing key; only a dict has the method. *)
Definition json_get (v : JSON) (key : pystr) : outcome JSON :=
  match v with
  | JObj members => Returns (default JNull (members_get members key))
  | _ => Raises AttributeError
  end.

(** [v.get(key, fallback)] *)
Definition json_get_default (v : JSON) (key : pystr) (fallback : JSON)
  : outcome JSON :=
  match v with
  | JObj members => Returns (default fallback (members_get members key))
  | _ => Raises AttributeError
  end.

(** [v[key]] for a string [key] *)
Definition json_getitem (v : JSON) (key : pystr) : outcome JSON :=
  match v with
  | JObj members =>
    match members_get members key with
    | Some x => Returns x
    | None => Raises KeyError
    end
  | _ => Raises TypeError
  end.

(** The items that [for x in v] goes through: the elements of a list, the
    characters of a string, the keys of a dict. *)
Definition json_iter (v : JSON) : outcome (list JSON) :=
  match v with
  | JArr items => Returns items
  | JStr s => Returns ((fun c => JStr [c]) <$> s)
  | JObj members => Returns ((fun m => JStr m.1) <$> members)
  | _ => Raises TypeError
  end.

(** An analysis is what [json.loads] made of the answer. *)
Abbreviation Analysis := JSON.

(** [{"focus_areas": []}] *)
Definition empty_analysis : Analysis := JObj [(lit "focus_areas", JArr [])].

(** [loads] stands for [json.loads]: [None] when it raises.  The braces are
    code points 123 and 125. *)
Definition extract_json_object (loads : pystr -> option Analysis)
    (text : pystr) : Analysis :=
  let start := find 123 text in
  let end_ := rfind 125 text + 1 in
  if (start =? -1) || (end_ <=? start) then empty_analysis
  else
    match loads (slice text start end_) with
    | Some parsed => parsed
    | None => empty_analysis
    end.

Definition fallback_area (name description success_looks_like : pystr)
    (outcomes : list pystr) (monthly_direction weekly_focus daily_action : pystr)
  : JSON :=
  JObj [ (lit "name", JStr name);
         (lit "description", JStr description);
         (lit "success_looks_like", JStr success_looks_like);
         (lit "outcomes", JArr (JStr <$> outcomes));
         (lit "monthly_direction", JStr monthly_direction);
         (lit "weekly_focus", JStr weekly_focus);
         (lit "daily_action", JStr daily_action) ].

Definition fallback_focus_areas (text timeline : pystr) : Analysis :=
  JObj
    [ (lit "focus_areas",
       JArr
         [ fallback_area (lit "Clarity")
             (lit "Turn your dump into a few clear priorities you can actually act on.")
             (lit "You can explain your top 3 goals and your next step for each.")
             [lit "Pick your top 3 priorities"; lit "Define a next step for each"]
             (lit "Clarify what matters most and remove distractions.")
             (lit "Choose one priority to focus on this week.")
             (lit "Write your top 3 goals as bullets and circle the #1 (5"
                ++ [8211%N] ++ lit "10 min).");
           fallback_area (lit "Momentum")
             (lit "Build consistency with tiny daily actions (no guilt, just progress).")
             (lit "You complete at least 1 small action per day most days.")
             [lit "Set a 15-minute daily habit"; lit "Track daily check-ins"]
             (lit "Make progress feel easy and repeatable.")
             (lit "Do the smallest version of the work daily.")
             (lit "Set a 15-minute timer and do the smallest next step for your #1 goal.") ]) ].

(** What the prompt of the analysis is built from. *)
Record GoalPrompt := {
  gp_text : pystr;
  gp_timeline_context : pystr
}.

(** The parsed answer is returned as it is once the value under its
    "focus_areas" key is truthy: nothing checks that it is a list of
    objects. *)
Definition analyze_goal_with_ai (openai_client : option (GoalPrompt -> Reply))
    (loads : pystr -> option Analysis) (text : pystr) (images : list pystr)
    (timeline : pystr) : outcome Analysis :=
  let timeline_context := get_timeline_context timeline in
  let prompt :=
    {| gp_text := text; gp_timeline_context := timeline_context |} in
  match openai_client with
  | None => Returns (fallback_focus_areas text timeline)
  | Some create =>
    try_except
      (choices ← match create prompt with
                 | Choices cs => Returns cs
                 | Failure e => Raises e
                 end;
       content ← first_item choices;
       let parsed := extract_json_object loads (get_or content []) in
       focus_areas ← json_get parsed (lit "focus_areas");
       if json_truthy focus_areas then Returns parsed
       else Returns (fallback_focus_areas text timeline))
      (fun _ => Returns (fallback_focus_areas text timeline))
  end.

(** ** Routes *)

Module Goal.
Record t := {
  id : pystr;
  user_id : pystr;
  raw_input : pystr;
  images : list pystr;
  timeline : pystr;
  created_at : Z
}.
End Goal.

Module RawPlan.
(** A row of the plans table as POST /goals/dump writes it: the JSONB column
    [focus_areas] takes any value of the analysis. *)
Record t := {
  id : pystr;
  user_id : pystr;
  goal_id : pystr;
  focus_areas : JSON;
  timeline : pystr;
  status : pystr;
  created_at : Z
}.
End RawPlan.

(** The tables that POST /goals/dump writes to. *)
Record Site := {
  goals : list Goal.t;
  raw_plans : list RawPlan.t;
  site_actions : list DailyAction.t
}.

(** The focus area that the engine reads in a JSON object whose values are
    strings (a list of strings for [outcomes]); other values have no place
    in [FocusArea.t]. *)
Definition text_member (members : list (pystr * JSON)) (key : string)
  : option (option pystr) :=
  match members_get members (lit key) with
  | None => Some None
  | Some (JStr s) => Some (Some s)
  | Some _ => None
  end.

Definition text_of_json (v : JSON) : option pystr :=
  match v with
  | JStr s => Some s
  | _ => None
  end.

Definition text_list_member (members : list (pystr * JSON)) (key : string)
  : option (option (list pystr)) :=
  match members_get members (lit key) with
  | None => Some None
  | Some (JArr items) => Some <$> mapM text_of_json items
  | Some _ => None
  end.

Definition focus_area_of_json (v : JSON) : option FocusArea.t :=
  match v with
  | JObj members =>
    name ← text_member members "name";
    description ← text_member members "description";
    success_looks_like ← text_member members "success_looks_like";
    outcomes ← text_list_member members "outcomes";
    monthly_direction ← text_member members "monthly_direction";
    weekly_focus ← text_member members "weekly_focus";
    daily_action ← text_member members "daily_action";
    Some {| FocusArea.name := name;
            FocusArea.description := description;
            FocusArea.success_looks_like := success_looks_like;
            FocusArea.outcomes := outcomes;
            FocusArea.monthly_direction := monthly_direction;
            FocusArea.weekly_focus := weekly_focus;
            FocusArea.daily_action := daily_action |}
  | _ => None
  end.

Definition plan_of_raw (p : RawPlan.t) : option Plan.t :=
  match RawPlan.focus_areas p with
  | JArr items =>
    focus_areas ← mapM focus_area_of_json items;
    Some {| Plan.id := RawPlan.id p;
            Plan.user_id := RawPlan.user_id p;
            Plan.goal_id := RawPlan.goal_id p;
            Plan.focus_areas := focus_areas;
            Plan.timeline := RawPlan.timeline p;
            Plan.status := RawPlan.status p;
            Plan.created_at := RawPlan.created_at p |}
  | _ => None
  end.

(** The store of the engine within a site: the actions, and the plans whose
    focus areas are objects of strings as the engine reads them. *)
Definition site_db (site : Site) : Db :=
  {| plans := omap plan_of_raw (raw_plans site);
     daily_actions := site_actions site |}.

Record GoalDumpRequest := {
  dump_text : pystr;
  dump_images : option (list pystr);
  dump_timeline : pystr
}.

Record GoalDumpResponse := {
  resp_goal_id : pystr;
  resp_plan_id : pystr;
  resp_focus_areas : JSON
}.

(** The focus areas that the route keeps: those of the analysis, the
    built-in ones when the analysis has none. *)
Definition dump_focus_areas (openai_client : option (GoalPrompt -> Reply))
    (loads : pystr -> option Analysis) (request : GoalDumpRequest)
  : outcome JSON :=
  analysis ← analyze_goal_with_ai openai_client loads (dump_text request)
               (default [] (dump_images request)) (dump_timeline request);
  found ← json_get analysis (lit "focus_areas");
  let focus_areas := json_or found (JArr []) in
  if json_truthy focus_areas then Returns focus_areas
  else json_getitem
         (fallback_focus_areas (dump_text request) (dump_timeline request))
         (lit "focus_areas").

(** One round of the loop over the focus areas: the two values read from
    the area for the columns [focus_area] and [action]. *)
Definition first_action_values (area : JSON) : outcome (JSON * JSON) :=
  name ← json_get_default area (lit "name") (JStr (lit "Focus"));
  action ← json_get_default area (lit "daily_action") (JStr default_action);
  Returns (name, action).

(** What the commit makes of a value bound to a text column that is NOT
    NULL: it takes a string and refuses anything else with an exception of
    SQLAlchemy's [DBAPIError] family ([IntegrityError] for [None], the
    driver's type error for a number, a boolean, a list or a dict). *)
Definition text_column (v : JSON) : outcome pystr :=
  match v with
  | JStr s => Returns s
  | _ => Raises DBAPIError
  end.

(** The row of a first action when the commit flushes it. *)
Definition first_action (user_id plan_id : pystr) (today : Z) (new_id : pystr)
    (values : JSON * JSON) : outcome DailyAction.t :=
  focus_area ← text_column values.1;
  action ← text_column values.2;
  Returns
    {| DailyAction.id := new_id;
       DailyAction.user_id := user_id;
       DailyAction.plan_id := plan_id;
       DailyAction.focus_area := focus_area;
       DailyAction.action := action;
       DailyAction.day := today;
       DailyAction.completed := false;
       DailyAction.completed_at := None;
       DailyAction.rescheduled_from := None |}.

(** The loop [for area in focus_areas] with its [db.add], then the commit:
    the rows reach the store only if the loop ends and the commit takes all
    of them.  The ids are drawn from index 2 on. *)
Definition first_actions (user_id plan_id : pystr) (today : Z)
    (uuid4 : nat -> pystr) (focus_areas : JSON)
  : outcome (list DailyAction.t) :=
  areas ← json_iter focus_areas;
  pending ← mapM first_action_values areas;
  mapM (fun iv => first_action user_id plan_id today (uuid4 (2 + iv.1)%nat) iv.2)
       (imap (fun i values => (i, values)) pending).

(** POST /goals/dump: the site after the request, with the response or the
    exception.  The route commits three times: the goal, then the plan, then
    the first actions.  [goal_now] and [plan_now] are the times of the store
    when the goal and the plan are inserted ([server_default=func.now()]),
    [now] the time at which the route reads the logical day; the ids are
    drawn in the order goal, plan, actions. *)
Definition dump_goal (cfg : Config) (goal_now plan_now now : Z)
    (openai_client : option (GoalPrompt -> Reply))
    (loads : pystr -> option Analysis) (uuid4 : nat -> pystr)
    (request : GoalDumpRequest) (user_id : pystr) (site : Site)
  : Site * outcome GoalDumpResponse :=
  let goal :=
    {| Goal.id := uuid4 0%nat;
       Goal.user_id := user_id;
       Goal.raw_input := dump_text request;
       Goal.images := default [] (dump_images request);
       Goal.timeline := dump_timeline request;
       Goal.created_at := goal_now |} in
  let site1 :=
    {| goals := goals site ++ [goal];
       raw_plans := raw_plans site;
       site_actions := site_actions site |} in
  match dump_focus_areas openai_client loads request with
  | Returns focus_areas =>
    let plan :=
      {| RawPlan.id := uuid4 1%nat;
         RawPlan.user_id := user_id;
         RawPlan.goal_id := Goal.id goal;
         RawPlan.focus_areas := focus_areas;
         RawPlan.timeline := dump_timeline request;
         RawPlan.status := lit "active";
         RawPlan.created_at := plan_now |} in
    let site2 :=
      {| goals := goals site1;
         raw_plans := raw_plans site1 ++ [plan];
         site_actions := site_actions site1 |} in
    let today := effective_day cfg now in
    match first_actions user_id (RawPlan.id plan) today uuid4 focus_areas with
    | Returns actions =>
      ({| goals := goals site2;
          raw_plans := raw_plans site2;
          site_actions := site_actions site2 ++ actions |},
       Returns {| resp_goal_id := Goal.id goal;
                  resp_plan_id := RawPlan.id plan;
                  resp_focus_areas := focus_areas |})
    | Raises e => (site2, Raises e)
    | Blocks => (site2, Blocks)
    end
  | Raises e => (site1, Raises e)
  | Blocks => (site1, Blocks)
  end.

Definition later_plan (p q : Plan.t) : Prop :=
  Plan.created_at q <= Plan.created_at p.

#[global] Instance later_plan_dec p q : Decision (later_plan p q).
Proof. unfold later_plan. apply _. Defined.

(** GET /plans/current: the latest active plan of the user, if any (among
    plans created at the same time the store is free to pick; the sort picks
    one). *)
Definition get_current_plan (db : Db) (user_id : pystr) : option Plan.t :=
  head (merge_sort later_plan (filter (is_active_plan user_id) (plans db))).

(** GET /plans: the plans of the user, latest first, at most 100. *)
Definition list_plans (db : Db) (user_id : pystr) : list Plan.t :=
  take 100
    (merge_sort later_plan
       (filter (fun p => Plan.user_id p = user_id) (plans db))).

(** GET /daily/today.  The route reads the clock three times: for the day of
    its answer ([now]), in the rollover ([now_rollover]) and in the
    fresh-action engine ([now_fresh]).  The rows stand for their JSON
    renderings. *)
Definition today_actions (cfg : Config) (now now_rollover now_fresh : Z)
    (openai_client : option Client) (uuid4_rollover uuid4_fresh : nat -> pystr)
    (db : Db) (user_id : pystr) : outcome (Db * list DailyAction.t) :=
  let today := effective_day cfg now in
  let db1 :=
    reschedule_incomplete_actions cfg now_rollover uuid4_rollover db user_id in
  db2 ← ensure_fresh_actions_for_today cfg now_fresh openai_client uuid4_fresh
          db1 user_id;
  let actions :=
    filter (fun a => DailyAction.user_id a = user_id
                     ∧ DailyAction.day a = today)
           (daily_actions db2) in
  Returns (db2, actions).

Definition earlier_action (a b : DailyAction.t) : Prop :=
  DailyAction.day a <= DailyAction.day b.

#[global] Instance earlier_action_dec a b : Decision (earlier_action a b).
Proof. unfold earlier_action. apply _. Defined.

Record ProgressResponse := {
  progress_total_actions : Z;
  progress_completed_actions : Z;
  progress_completion_rate : PyFloat.float;
  progress_actions : list DailyAction.t
}.

(** GET /progress: the actions of the last 30 logical days, oldest first
    (among actions of one day the store is free to pick an order; the sort
    picks one).  The rows stand for their JSON renderings. *)
Definition progress_report (cfg : Config) (now : Z) (db : Db)
    (user_id : pystr) : ProgressResponse :=
  let cutoff := effective_day cfg now - 30 in
  let actions :=
    merge_sort earlier_action
      (filter (fun a => DailyAction.user_id a = user_id
                        ∧ cutoff <= DailyAction.day a)
              (daily_actions db)) in
  let total := Z.of_nat (length actions) in
  let completed :=
    Z.of_nat (length (filter (fun a => DailyAction.completed a = true) actions)) in
  let completion_rate := rate_of completed total in
  {| progress_total_actions := total;
     progress_completed_actions := completed;
     progress_completion_rate := PyFloat.round1 completion_rate;
     progress_actions := actions |}.

Definition archive (p : Plan.t) : Plan.t :=
  {| Plan.id := Plan.id p;
     Plan.user_id := Plan.user_id p;
     Plan.goal_id := Plan.goal_id p;
     Plan.focus_areas := Plan.focus_areas p;
     Plan.timeline := Plan.timeline p;
     Plan.status := lit "archived";
     Plan.created_at := Plan.created_at p |}.

(** POST /plans/start-fresh *)
Definition start_fresh (db : Db) (user_id : pystr) : Db :=
  {| plans :=
       (fun p => if decide (Plan.user_id p = user_id
                            ∧ Plan.status p <> lit "archived")
                 then archive p else p) <$> plans db;
     daily_actions :=
       filter (fun a => DailyAction.user_id a <> user_id) (daily_actions db) |}.

(** ** Middleware *)

(** [s.split(c)] for a one-character separator. *)
Fixpoint split (c : N) (s : pystr) : list pystr :=
  match s with
  | [] => [[]]
  | x :: s' =>
    if (x =? c)%N then [] :: split c s'
    else
      match split c s' with
      | piece :: pieces => (x :: piece) :: pieces
      | [] => [[x]]
      end
  end.

(** The comma is code point 44, the star 42. *)
Definition parse_cors_origins (value : option pystr) : list pystr :=
  match value with
  | None => [[42%N]]
  | Some value =>
    if truthy value then
      let value := strip value in
      if decide (value = [42%N]) then [[42%N]]
      else
        strip <$> filter (fun v => truthy (strip v) = true) (split 44 value)
    else [[42%N]]
  end.

(** ** Vocabulary of the properties *)

(** A run of [n] consecutive days, counted backwards from some day, all in
    the list. *)
Definition has_run (l : list Z) (n : Z) : Prop :=
  exists d, forall j, 0 <= j < n -> d - j ∈ l.

(** What the [progress] dict of the weekly summary holds after its loop has
    seen [seen]: one entry per focus area met, with the number of actions of
    the area and the number of completed ones. *)
Definition counted (progress : list (pystr * (Z * Z)))
    (seen : list DailyAction.t) : Prop :=
  NoDup progress.*1
  /\ (forall a, a ∈ seen -> DailyAction.focus_area a ∈ progress.*1)
  /\ (forall k t d, (k, (t, d)) ∈ progress ->
        1 <= t
        /\ t = Z.of_nat (length (filter
                 (fun a => DailyAction.focus_area a = k) seen))
        /\ d = Z.of_nat (length (filter
                 (fun a => DailyAction.focus_area a = k
                           /\ DailyAction.completed a = true) seen))).

(** A focus area for which POST /goals/dump can store a first action: an
    object whose "name" and "daily_action", where present, are strings. *)
Definition storable_area (area : JSON) : Prop :=
  exists members name action,
    area = JObj members
    /\ default (JStr (lit "Focus")) (members_get members (lit "name"))
       = JStr name
    /\ default (JStr default_action)
         (members_get members (lit "daily_action"))
       = JStr action.

Definition storable_areas (focus_areas : JSON) : Prop :=
  exists areas, focus_areas = JArr areas /\ Forall storable_area areas.

(** The string starts with a character that is not white space. *)
Definition solid_head (s : pystr) : bool :=
  match s with
  | c :: _ => negb (isspace c)
  | [] => false
  end.

(** The user has a completed action dated [d]. *)
Definition completed_on (db : Db) (user_id : pystr) (d : Z) : Prop :=
  exists a, a ∈ daily_actions db /\ DailyAction.user_id a = user_id
            /\ DailyAction.completed a = true /\ DailyAction.day a = d.

(** [n] is the number of consecutive days, from [today] backwards, on each
    of which the user has a completed action: the days [today], ...,
    [today - (n - 1)] have one, the day [today - n] has none. *)
Definition consecutive_days (db : Db) (user_id : pystr) (today n : Z) : Prop :=
  0 <= n
  /\ (forall i, 0 <= i < n -> completed_on db user_id (today - i))
  /\ ~ completed_on db user_id (today - n).

(** The current streak is the count of consecutive completed calendar days
    starting at today. *)
Definition streak_counts_consecutive_days (cfg : Config) (now : Z) (db : Db)
    (user_id : pystr) : Prop :=
  consecutive_days db user_id (effective_day cfg now)
    (current_streak (calculate_streak cfg now db user_id)).

(** Row [a] has a carried copy for [today] in the store [db']: a row of the
    same user dated [today], rescheduled from the day before, not completed,
    with the plan, focus area and text of [a]. *)
Definition carried_forward (db' : Db) (today : Z) (a : DailyAction.t) : Prop :=
  exists c, c ∈ daily_actions db'
    /\ DailyAction.user_id c = DailyAction.user_id a
    /\ DailyAction.day c = today
    /\ DailyAction.rescheduled_from c = Some (today - 1)
    /\ DailyAction.completed c = false
    /\ DailyAction.plan_id c = DailyAction.plan_id a
    /\ DailyAction.focus_area c = DailyAction.focus_area a
    /\ DailyAction.action c = DailyAction.action a.

(** After the rollover every incomplete action of the day before has its
    carried copy. *)
Definition no_loss_carry_forward (cfg : Config) (now : Z)
    (uuid4 : nat -> pystr) (db : Db) (user_id : pystr) : Prop :=
  let today := effective_day cfg now in
  forall a, a ∈ daily_actions db -> is_incomplete user_id (today - 1) a ->
    carried_forward (reschedule_incomplete_actions cfg now uuid4 db user_id)
                    today a.

(** No two rows of the store agree on user, plan, focus area, day, origin and
    text. *)
Definition no_duplicate_rows (db : Db) : Prop :=
  forall i j a b,
    daily_actions db !! i = Some a -> daily_actions db !! j = Some b ->
    DailyAction.user_id a = DailyAction.user_id b ->
    DailyAction.plan_id a = DailyAction.plan_id b ->
    DailyAction.focus_area a = DailyAction.focus_area b ->
    DailyAction.day a = DailyAction.day b ->
    DailyAction.rescheduled_from a = DailyAction.rescheduled_from b ->
    DailyAction.action a = DailyAction.action b ->
    i = j.

(** The active plans of the user without a fresh action for [today]. *)
Definition plans_lacking_fresh (db : Db) (user_id : pystr) (today : Z)
  : list Plan.t :=
  let plans := filter (is_active_plan user_id) (plans db) in
  let existing_fresh_plan_ids : gset pystr :=
    list_to_set
      (DailyAction.plan_id
         <$> filter (is_fresh_today user_id today (Plan.id <$> plans))
                    (daily_actions db)) in
  filter (fun p => Plan.id p ∉ existing_fresh_plan_ids) plans.

(** An answer of the service that yields no action text: a failure, no
    choice at all, or a first choice that is null, empty or white space. *)
Definition unusable (reply : Reply) : Prop :=
  match reply with
  | Failure _ => True
  | Choices [] => True
  | Choices (content :: _) => strip (get_or content []) = []
  end.

(** The row of a (plan, focus area) pair: who it belongs to, and its text. *)
Definition row_of_pair (client : option (Request -> Reply)) (user_id : pystr)
    (today : Z) (new_id : pystr) (plan : Plan.t) (area : FocusArea.t)
    (r : DailyAction.t) : Prop :=
  DailyAction.id r = new_id
  /\ DailyAction.user_id r = user_id
  /\ DailyAction.plan_id r = Plan.id plan
  /\ DailyAction.focus_area r = get_default (FocusArea.name area) (lit "Focus")
  /\ DailyAction.day r = today
  /\ DailyAction.completed r = false
  /\ DailyAction.completed_at r = None
  /\ DailyAction.rescheduled_from r = None
  /\ DailyAction.action r <> []
  /\ exists day_index,
       (forall create, client = Some create ->
          forall request, unusable (create request)) ->
       DailyAction.action r = fallback_next_action area day_index.

(** What holds of the pool at every moment of the fan-out: the calls in
    progress and the free permits add up to the limit, and a finished task
    carries what its call resolved to. *)
Definition pool_invariant (cfg : Config) (calls : list (outcome pystr))
    (p : Fanout.pool) : Prop :=
  Z.of_nat (Fanout.in_flight p) + Fanout.permits p = AI_MAX_CONCURRENCY cfg
  /\ 0 <= Fanout.permits p
  /\ Forall2 (fun s call =>
                forall r, s = Fanout.Done r -> Fanout.settle call = Some r)
             (Fanout.statuses p) calls.

(** What is left to do for a task: take a permit and finish the call, or
    finish the call. *)
Definition remaining_steps (s : Fanout.status) : nat :=
  match s with
  | Fanout.Pending => 2
  | Fanout.InFlight => 1
  | Fanout.Done _ => 0
  end.

(** ** Sample data *)

Module Sample.
(** Central Standard Time all year round, day change at 5 am. *)
Definition cfg : Config :=
  {| LOCAL_TZ := fun _ => -6 * us_per_hour;
     DAY_ROLLOVER_HOUR := 5;
     AI_MAX_CONCURRENCY := 4 |}.

(** 1970-01-01 10:59:30 UTC is 04:59:30 in the zone, 11:00 UTC is 05:00,
    12:00 UTC is 06:00. *)
Definition at_0459 : Z := 39570000000.
Definition at_0500 : Z := 11 * us_per_hour.
Definition at_0600 : Z := 12 * us_per_hour.

(** The logical day at [at_0600] (a Thursday) and the day before. *)
Definition today : Z := 719163.
Definition yesterday : Z := 719162.

Definition user : pystr := lit "u1".

Definition row (id plan focus action : string) (day : Z) (completed : bool)
    (rescheduled_from : option Z) : DailyAction.t :=
  {| DailyAction.id := lit id;
     DailyAction.user_id := user;
     DailyAction.plan_id := lit plan;
     DailyAction.focus_area := lit focus;
     DailyAction.action := lit action;
     DailyAction.day := day;
     DailyAction.completed := completed;
     DailyAction.completed_at := None;
     DailyAction.rescheduled_from := rescheduled_from |}.

Definition uuids (i : nat) : pystr := lit "id-" ++ str_of_int (Z.of_nat i).

(** A store with one completed action of the user. *)
Definition checked_db : Db :=
  {| plans := [];
     daily_actions :=
       [ {| DailyAction.id := lit "a1";
            DailyAction.user_id := user;
            DailyAction.plan_id := lit "p1";
            DailyAction.focus_area := lit "Fitness";
            DailyAction.action := lit "Run";
            DailyAction.day := today;
            DailyAction.completed := true;
            DailyAction.completed_at := Some at_0500;
            DailyAction.rescheduled_from := None |};
         row "a2" "p1" "Career" "Read" today false None ] |}.

Definition uncheck_a1 : CheckInRequest :=
  {| action_id := lit "a1"; req_completed := false |}.

(** Yesterday left two actions open and one done; nothing is carried
    yet. *)
Definition rollover_db : Db :=
  {| plans := [];
     daily_actions :=
       [ row "a1" "p1" "Fitness" "Run" yesterday false None;
         row "a2" "p1" "Career" "Read" yesterday true None;
         row "a3" "p1" "Career" "Write" yesterday false None ] |}.

(** The store after the rollover of "Run", once the user has un-checked
    yesterday's "Read". *)
Definition unchecked_db : Db :=
  {| plans := [];
     daily_actions :=
       [ row "a1" "p1" "Fitness" "Run" yesterday false None;
         row "a2" "p1" "Career" "Read" yesterday false None;
         row "c1" "p1" "Fitness" "Run" today false (Some yesterday) ] |}.

(** Yesterday holds the same open action twice: carried from the day
    before, and generated again. *)
Definition twin_db : Db :=
  {| plans := [];
     daily_actions :=
       [ row "a1" "p1" "Fitness" "Run" yesterday false (Some (yesterday - 1));
         row "a2" "p1" "Fitness" "Run" yesterday false None ] |}.

Definition area (name : string) (weekly monthly : option string)
  : FocusArea.t :=
  {| FocusArea.name := Some (lit name);
     FocusArea.description := None;
     FocusArea.success_looks_like := None;
     FocusArea.outcomes := None;
     FocusArea.monthly_direction := lit <$> monthly;
     FocusArea.weekly_focus := lit <$> weekly;
     FocusArea.daily_action := None |}.

Definition plan1 : Plan.t :=
  {| Plan.id := lit "p1";
     Plan.user_id := user;
     Plan.goal_id := lit "g1";
     Plan.focus_areas :=
       [ area "Fitness" (Some "Run three times"%string) None;
         area "Career" None (Some "Ship the portfolio"%string) ];
     Plan.timeline := lit "3_months";
     Plan.status := lit "active";
     Plan.created_at := 0 |}.

(** The scenario of the specification after the rollover: yesterday one
    "Fitness" action done and one left open, the open one carried. *)
Definition fresh_db : Db :=
  {| plans := [plan1];
     daily_actions :=
       [ row "a1" "p1" "Fitness" "Stretch" yesterday true None;
         row "a2" "p1" "Fitness" "Run" yesterday false None;
         row "c1" "p1" "Fitness" "Run" today false (Some yesterday) ] |}.

(** A service that fails on the first task and answers the others with
    two lines. *)
Definition flaky_client : Client :=
  fun i _ =>
    match i with
    | O => Failure APIError
    | _ => Choices [Some (lit "  Walk 20 minutes " ++ [10%N] ++ lit "then rest")]
    end.

(** A limit of two calls at a time, and a batch of three tasks. *)
Definition cfg2 : Config :=
  {| LOCAL_TZ := fun _ => -6 * us_per_hour;
     DAY_ROLLOVER_HOUR := 5;
     AI_MAX_CONCURRENCY := 2 |}.

Definition three_calls : list (outcome pystr) :=
  [Returns (lit "Walk"); Raises APIError; Returns (lit "Read")].

Definition two_in_flight : Fanout.pool :=
  {| Fanout.permits := 0;
     Fanout.statuses := [Fanout.InFlight; Fanout.InFlight; Fanout.Pending] |}.

(** Completed actions today, yesterday and on three days of the week
    before; one action of today is still open. *)
Definition streak_db : Db :=
  {| plans := [];
     daily_actions :=
       [ row "s1" "p1" "Fitness" "Run" (today - 8) true None;
         row "s2" "p1" "Fitness" "Run" (today - 7) true None;
         row "s3" "p1" "Fitness" "Run" (today - 6) true None;
         row "s4" "p1" "Fitness" "Run" yesterday true None;
         row "s5" "p1" "Career" "Read" yesterday true None;
         row "s6" "p1" "Fitness" "Run" today true None;
         row "s7" "p1" "Career" "Read" today false None ] |}.

(** Ten actions of the user in the week of [today] (Monday 719160 to
    Sunday 719166), six of them completed; one older completed action and
    one action of somebody else. *)
Definition week_db : Db :=
  {| plans := [];
     daily_actions :=
       [ row "w0" "p1" "Fitness" "Stretch" (today - 4) true None;
         row "w1" "p1" "Fitness" "Run" (today - 3) true None;
         row "w2" "p1" "Career" "Read" (today - 3) false None;
         row "w3" "p1" "Fitness" "Run" (today - 2) true None;
         row "w4" "p1" "Career" "Read" (today - 2) true
             (Some (today - 3));
         row "w5" "p1" "Career" "Write" (today - 2) false None;
         row "w6" "p1" "Fitness" "Swim" yesterday true None;
         row "w7" "p1" "Career" "Write" yesterday true
             (Some (today - 2));
         row "w8" "p1" "Career" "Call" yesterday false None;
         {| DailyAction.id := lit "x1";
            DailyAction.user_id := lit "u2";
            DailyAction.plan_id := lit "p9";
            DailyAction.focus_area := lit "Music";
            DailyAction.action := lit "Scales";
            DailyAction.day := today;
            DailyAction.completed := true;
            DailyAction.completed_at := None;
            DailyAction.rescheduled_from := None |};
         row "w9" "p1" "Fitness" "Run" today true None;
         row "w10" "p1" "Career" "Call" today false (Some yesterday) ] |}.
End Sample.

(** ** More sample data *)

Module More.
(** Limits that the environment can set: none, and a negative one. *)
Definition cfg_zero : Config :=
  {| LOCAL_TZ := fun _ => -6 * us_per_hour;
     DAY_ROLLOVER_HOUR := 5;
     AI_MAX_CONCURRENCY := 0 |}.

Definition cfg_negative : Config :=
  {| LOCAL_TZ := fun _ => -6 * us_per_hour;
     DAY_ROLLOVER_HOUR := 5;
     AI_MAX_CONCURRENCY := -1 |}.

(** A service that always answers one line. *)
Definition steady_client : Client :=
  fun _ _ => Choices [Some (lit "Walk 20 minutes")].

Definition dump_request : GoalDumpRequest :=
  {| dump_text := lit "Run a marathon and change jobs";
     dump_images := None;
     dump_timeline := lit "6_months" |}.

Definition empty_site : Site :=
  {| goals := []; raw_plans := []; site_actions := [] |}.

(** A service whose JSON answer has strings where focus-area objects are
    expected, and the reader that parses it. *)
Definition loose_client : GoalPrompt -> Reply :=
  fun _ => Choices [Some (lit "{focus_areas: [Health, Career]}")].

Definition loose_loads : pystr -> option JSON :=
  fun _ =>
    Some (JObj [(lit "focus_areas",
                 JArr [JStr (lit "Health"); JStr (lit "Career")])]).

(** The store after the user [u1] has archived everything, beside the data
    of a user [u2]. *)
Definition other_row : DailyAction.t :=
  {| DailyAction.id := lit "x1";
     DailyAction.user_id := lit "u2";
     DailyAction.plan_id := lit "p9";
     DailyAction.focus_area := lit "Music";
     DailyAction.action := lit "Scales";
     DailyAction.day := Sample.today;
     DailyAction.completed := true;
     DailyAction.completed_at := None;
     DailyAction.rescheduled_from := None |}.

Definition shared_db : Db :=
  {| plans := [Sample.plan1];
     daily_actions :=
       [ Sample.row "a1" "p1" "Fitness" "Stretch" Sample.yesterday true None;
         other_row;
         Sample.row "a2" "p1" "Fitness" "Run" Sample.today false None ] |}.

(** Completed actions today and yesterday, and one dated tomorrow (a row
    written before the rollover hour of the deployment was raised, say). *)
Definition future_db : Db :=
  {| plans := [];
     daily_actions :=
       [ Sample.row "f1" "p1" "Fitness" "Run" Sample.yesterday true None;
         Sample.row "f2" "p1" "Fitness" "Run" Sample.today true None;
         Sample.row "f3" "p1" "Fitness" "Run" (Sample.today + 1) true None ] |}.

(** One completed action yesterday and 2000 completed actions today. *)
Definition crowded_db : Db :=
  {| plans := [];
     daily_actions :=
       Sample.row "y1" "p1" "Fitness" "Run" Sample.yesterday true None
         :: replicate 2000
              (Sample.row "t1" "p1" "Fitness" "Run" Sample.today true None) |}.
End More.

(** * Properties *)

(** ** Strings *)

Lemma islinebreak_isspace c : islinebreak c = true -> isspace c = true.
Proof.
  unfold islinebreak, isspace.
  rewrite ?orb_true_iff, ?andb_true_iff, ?N.leb_le, ?N.eqb_eq. lia.
Qed.

Lemma lstrip_suffix s : exists pre, s = pre ++ lstrip s.
Proof.
  induction s as [|c s [pre IH]]; simpl.
  - by exists [].
  - destruct (isspace c).
    + exists (c :: pre). simpl. by f_equal.
    + by exists [].
Qed.

Lemma lstrip_solid s : lstrip s <> [] -> solid_head (lstrip s) = true.
Proof.
  induction s as [|c s IH]; simpl; [done|].
  destruct (isspace c) eqn:E; [done|]. intros _. simpl. by rewrite E.
Qed.

Lemma solid_head_lstrip s x : solid_head s = true -> lstrip (s ++ x) = s ++ x.
Proof.
  destruct s as [|c s]; simpl; [done|].
  by destruct (isspace c).
Qed.

Lemma solid_head_app s x : solid_head s = true -> solid_head (s ++ x) = true.
Proof. by destruct s. Qed.

Lemma solid_head_nonempty s : solid_head s = true -> s <> [].
Proof. by destruct s. Qed.

(** A string that neither starts nor ends with white space is its own
    [strip]. *)
Lemma strip_solid s :
  solid_head s = true -> solid_head (rev s) = true -> strip s = s.
Proof.
  intros H1 H2. unfold strip, rstrip.
  rewrite <- (app_nil_r s) at 1. rewrite solid_head_lstrip by done.
  rewrite app_nil_r. rewrite <- (app_nil_r (rev s)) at 1.
  rewrite solid_head_lstrip by done. rewrite app_nil_r.
  apply rev_involutive.
Qed.

(** A non-empty [strip] starts and ends with a solid character. *)
Lemma strip_result_solid s :
  strip s <> [] ->
  solid_head (strip s) = true /\ solid_head (rev (strip s)) = true.
Proof.
  unfold strip, rstrip. intros Hne.
  set (t := lstrip s) in *. set (u := lstrip (rev t)) in *.
  assert (Hu : u <> []) by (intros E; apply Hne; by rewrite E).
  split.
  - destruct (lstrip_suffix (rev t)) as [pre Hpre]. fold u in Hpre.
    assert (Ht : t = rev u ++ rev pre).
    { rewrite <- rev_app_distr, <- Hpre. symmetry. apply rev_involutive. }
    assert (Hts : solid_head t = true).
    { apply lstrip_solid. fold t. rewrite Ht. intros E.
      apply app_eq_nil in E as [E _]. apply Hne. done. }
    rewrite Ht in Hts. destruct (rev u) eqn:E; [done|]. done.
  - rewrite rev_involutive. by apply lstrip_solid.
Qed.

Lemma strip_strip s : strip (strip s) = strip s.
Proof.
  destruct (decide (strip s = [])) as [E|Hne].
  - rewrite E. reflexivity.
  - destruct (strip_result_solid s Hne). by apply strip_solid.
Qed.

Lemma lstrip_snoc_solid x c : isspace c = false -> lstrip (x ++ [c]) <> [].
Proof.
  intros Hc. induction x as [|d x IH]; simpl.
  - by rewrite Hc.
  - by destruct (isspace d).
Qed.

Lemma until_linebreak_solid s :
  solid_head s = true ->
  exists c w, until_linebreak s = c :: w /\ isspace c = false.
Proof.
  destruct s as [|c s]; simpl; [done|]. intros Hc.
  apply negb_true_iff in Hc.
  destruct (islinebreak c) eqn:E.
  - apply islinebreak_isspace in E. congruence.
  - eauto.
Qed.

(** The first line of a stripped, non-empty answer keeps a non-empty
    [strip]. *)
Lemma strip_first_line_nonempty s :
  solid_head s = true -> strip (until_linebreak s) <> [].
Proof.
  intros Hs. destruct (until_linebreak_solid s Hs) as (c & w & -> & Hc).
  unfold strip, rstrip. simpl lstrip. rewrite Hc.
  intros E. apply (f_equal (@rev N)) in E. rewrite rev_involutive in E.
  simpl in E. by apply lstrip_snoc_solid in E.
Qed.

Lemma solid_tail_app x s :
  solid_head (rev s) = true -> solid_head (rev (x ++ s)) = true.
Proof. intros H. rewrite rev_app_distr. by apply solid_head_app. Qed.

Lemma str_or_strip_solid a b :
  solid_head (rev b) = true ->
  solid_head (rev (str_or (strip a) b)) = true.
Proof.
  intros Hb. unfold str_or. destruct (truthy (strip a)) eqn:E; [|done].
  apply strip_result_solid. by destruct (strip a).
Qed.

(** ** Action generator *)

Lemma fallback_variants_solid name base v :
  solid_head (rev base) = true ->
  v ∈ fallback_variants name base ->
  solid_head v = true /\ solid_head (rev v) = true.
Proof.
  intros Hb Hv. unfold fallback_variants in Hv.
  repeat (apply elem_of_cons in Hv as [-> | Hv]);
    [ .. | by apply elem_of_nil in Hv ];
    (split; [ by apply solid_head_app | ]);
    repeat first [ by apply Hb
                 | by (apply solid_tail_app; vm_compute)
                 | apply solid_tail_app ].
Qed.

(** The fallback text is never empty and [strip] leaves it as it is. *)
Lemma fallback_next_action_solid area day_index :
  solid_head (fallback_next_action area day_index) = true
  /\ solid_head (rev (fallback_next_action area day_index)) = true.
Proof.
  unfold fallback_next_action.
  set (name := strip _).
  set (base := str_or _ _).
  apply (fallback_variants_solid name base).
  - subst base. apply str_or_strip_solid, str_or_strip_solid. by vm_compute.
  - assert (H : 0 <= day_index mod 5 < 5) by (apply Z.mod_pos_bound; lia).
    change (Z.of_nat (length (fallback_variants name base))) with 5.
    apply list_elem_of_In, nth_In.
    change (length (fallback_variants name base)) with 5%nat. lia.
Qed.

Lemma fallback_next_action_nonempty area day_index :
  fallback_next_action area day_index <> [].
Proof.
  apply solid_head_nonempty, fallback_next_action_solid.
Qed.

Lemma strip_fallback_next_action area day_index :
  strip (fallback_next_action area day_index)
  = fallback_next_action area day_index.
Proof. apply strip_solid; apply fallback_next_action_solid. Qed.

(** With or without a client, whatever the service answers, the generator
    returns a non-empty text that [strip] leaves unchanged. *)
Lemma generate_next_action_with_ai_returns client plan area y_list day_index :
  exists text,
    generate_next_action_with_ai client plan area y_list day_index
    = Returns text
    /\ text <> [] /\ strip text = text.
Proof.
  pose proof (fallback_next_action_nonempty area day_index) as Hne.
  pose proof (strip_fallback_next_action area day_index) as Hst.
  unfold generate_next_action_with_ai.
  destruct client as [create|]; [|eauto].
  unfold chat_completions_create.
  destruct (create _) as [[|content choices]|e]; simpl; eauto.
  set (out := strip (get_or content [])).
  destruct (truthy out) eqn:Eo; simpl; [|eauto].
  assert (Hout : out <> []) by (by destruct out).
  destruct (strip_result_solid _ Hout) as [Hh _]. fold out in Hh.
  unfold splitlines_head. destruct out as [|c w] eqn:Eout; [done|].
  simpl option_list. cbn [first_item mbind outcome_bind].
  eexists. split; [reflexivity|]. split.
  - by apply (strip_first_line_nonempty (c :: w)).
  - apply strip_strip.
Qed.

(** ** Day resolver *)

Lemma effective_day_before cfg now :
  local_hour (astimezone cfg now) < DAY_ROLLOVER_HOUR cfg ->
  effective_day cfg now = local_date (astimezone cfg now) - 1.
Proof.
  intros H. unfold effective_day. cbv zeta.
  destruct (Z.ltb_spec (local_hour (astimezone cfg now)) (DAY_ROLLOVER_HOUR cfg));
    [done | lia].
Qed.

Lemma effective_day_from cfg now :
  DAY_ROLLOVER_HOUR cfg <= local_hour (astimezone cfg now) ->
  effective_day cfg now = local_date (astimezone cfg now).
Proof.
  intros H. unfold effective_day. cbv zeta.
  destruct (Z.ltb_spec (local_hour (astimezone cfg now)) (DAY_ROLLOVER_HOUR cfg));
    [lia | done].
Qed.

(** C8. With the rollover hour at 5, an instant whose local time is 04:59
    resolves to the previous calendar date and one whose local time is 05:00
    to the current date; for every configuration and instant, one day is
    subtracted from the local date exactly when the local hour is below the
    rollover hour, and nothing is subtracted otherwise. *)
Theorem effective_day_rollover_boundary (cfg : Config) (now : Z) :
  DAY_ROLLOVER_HOUR cfg = 5 ->
  let local := astimezone cfg now in
  (local_hour local = 4 /\ local_minute local = 59 ->
     effective_day cfg now = local_date local - 1)
  /\ (local_hour local = 5 /\ local_minute local = 0 ->
      effective_day cfg now = local_date local)
  /\ (forall cfg' now',
        let local' := astimezone cfg' now' in
        (effective_day cfg' now' = local_date local' - 1
           <-> local_hour local' < DAY_ROLLOVER_HOUR cfg')
        /\ (effective_day cfg' now' = local_date local'
            <-> DAY_ROLLOVER_HOUR cfg' <= local_hour local')).
Proof.
  intros H5 local. repeat split.
  - intros [H4 _]. apply effective_day_before. fold local. lia.
  - intros [H4 _]. apply effective_day_from. fold local. lia.
  - intros E.
    destruct (Z.lt_ge_cases (local_hour (astimezone cfg' now'))
                            (DAY_ROLLOVER_HOUR cfg')) as [Hlt|Hge]; [done|].
    rewrite effective_day_from in E by done. lia.
  - apply effective_day_before.
  - intros E.
    destruct (Z.lt_ge_cases (local_hour (astimezone cfg' now'))
                            (DAY_ROLLOVER_HOUR cfg')) as [Hlt|Hge]; [|done].
    rewrite effective_day_before in E by done. lia.
  - apply effective_day_from.
Qed.

(** In the sample zone 04:59:30 on 1970-01-01 still belongs to 1969-12-31. *)
Lemma effective_day_rollover_boundary_witness :
  effective_day Sample.cfg Sample.at_0459 = Sample.yesterday
  /\ effective_day Sample.cfg Sample.at_0500 = Sample.today.
Proof.
  split.
  - destruct (effective_day_rollover_boundary Sample.cfg Sample.at_0459)
      as (H & _ & _); [reflexivity|].
    rewrite H; [reflexivity|]. split; reflexivity.
  - destruct (effective_day_rollover_boundary Sample.cfg Sample.at_0500)
      as (_ & H & _); [reflexivity|].
    rewrite H; [reflexivity|]. split; reflexivity.
Defined.

(** ** Check-in *)

(** C10. A check-in on an existing action of the caller answers with success
    and leaves at the same place a row whose [completed] is the submitted
    flag and whose [completed_at] is the current time for [true] and null for
    [false], every other field being kept; a row that is not the target (a
    different id or a different owner) is left as it was, and the plans are
    not touched. *)
Theorem check_in_sets_completion (now : Z) (request : CheckInRequest)
    (user_id : pystr) (db : Db) (i : nat) (a : DailyAction.t) :
  daily_actions db !! i = Some a ->
  let out := check_in now request user_id db in
  plans out.1 = plans db
  /\ length (daily_actions out.1) = length (daily_actions db)
  /\ (is_target request user_id a ->
      out.2 = Returns true
      /\ exists a',
          daily_actions out.1 !! i = Some a'
          /\ DailyAction.completed a' = req_completed request
          /\ DailyAction.completed_at a'
             = (if req_completed request then Some now else None)
          /\ DailyAction.id a' = DailyAction.id a
          /\ DailyAction.user_id a' = DailyAction.user_id a
          /\ DailyAction.plan_id a' = DailyAction.plan_id a
          /\ DailyAction.focus_area a' = DailyAction.focus_area a
          /\ DailyAction.action a' = DailyAction.action a
          /\ DailyAction.day a' = DailyAction.day a
          /\ DailyAction.rescheduled_from a' = DailyAction.rescheduled_from a)
  /\ (~ is_target request user_id a -> daily_actions out.1 !! i = Some a).
Proof.
  intros Hi out. subst out. unfold check_in. cbn [fst snd plans daily_actions].
  split; [done|]. split; [by rewrite length_fmap|]. split.
  - intros Ht. split.
    + destruct (decide (length _ = 0%nat)) as [E|]; [|done].
      apply length_zero_iff_nil in E.
      assert (Hin : a ∈ filter (is_target request user_id) (daily_actions db)).
      { apply list_elem_of_filter. split; [done|].
        by apply list_elem_of_lookup_2 in Hi. }
      rewrite E in Hin. by apply elem_of_nil in Hin.
    + rewrite list_lookup_fmap, Hi. simpl.
      rewrite decide_True by done. eexists. split; [reflexivity|].
      by repeat split.
  - intros Hn. rewrite list_lookup_fmap, Hi. simpl.
    by rewrite decide_False.
Qed.

(** Un-checking the completed action of the sample store clears its
    timestamp and leaves the other row alone. *)
Lemma check_in_sets_completion_witness :
  let out := check_in Sample.at_0600 Sample.uncheck_a1 Sample.user
                      Sample.checked_db in
  out.2 = Returns true
  /\ (exists a', daily_actions out.1 !! 0%nat = Some a'
               /\ DailyAction.completed a' = false
               /\ DailyAction.completed_at a' = None
               /\ DailyAction.action a' = lit "Run")
  /\ daily_actions out.1 !! 1%nat
     = Some (Sample.row "a2" "p1" "Career" "Read" Sample.today false None).
Proof.
  intros out. split; [|split].
  - destruct (check_in_sets_completion Sample.at_0600 Sample.uncheck_a1
                Sample.user Sample.checked_db 0 _ eq_refl)
      as (_ & _ & H & _).
    destruct H as [Hr _]; [split; reflexivity|]. exact Hr.
  - destruct (check_in_sets_completion Sample.at_0600 Sample.uncheck_a1
                Sample.user Sample.checked_db 0 _ eq_refl)
      as (_ & _ & H & _).
    destruct H as (_ & a' & Hl & Hc & Hat & _ & _ & _ & _ & Hact & _);
      [split; reflexivity|].
    exists a'. repeat split; assumption.
  - destruct (check_in_sets_completion Sample.at_0600 Sample.uncheck_a1
                Sample.user Sample.checked_db 1 _ eq_refl)
      as (_ & _ & _ & H).
    apply H. intros [E _]. vm_compute in E. discriminate E.
Defined.

(** ** Streaks *)

Lemma completed_days_elem db user_id d :
  d ∈ completed_days db user_id -> completed_on db user_id d.
Proof.
  unfold completed_days. intros H.
  apply (subseteq_take 2000) in H.
  rewrite merge_sort_Permutation in H.
  apply list_elem_of_fmap in H as (a & -> & Ha).
  apply list_elem_of_filter in Ha as [[Hu Hc] Hin].
  by exists a.
Qed.

Lemma streak_from_nonneg today i l : 0 <= streak_from today i l.
Proof.
  revert i. induction l as [|d l IH]; intros i; simpl; [lia|].
  destruct (d =? today - i); [|lia]. specialize (IH (i + 1)). lia.
Qed.

(** The days counted by the loop are in the list, one per index. *)
Lemma streak_from_elem today l :
  forall i j, 0 <= j < streak_from today i l -> today - i - j ∈ l.
Proof.
  induction l as [|d l IH]; intros i j Hj; simpl in Hj; [lia|].
  destruct (Z.eqb_spec d (today - i)) as [->|]; [|lia].
  destruct (decide (j = 0)) as [->|Hne].
  - replace (today - i - 0) with (today - i) by lia. left.
  - right. replace (today - i - j) with (today - (i + 1) - (j - 1)) by lia.
    apply IH. lia.
Qed.

(** On a strictly decreasing list that does not go beyond [today - i], the
    loop stops at the first missing day. *)
Lemma streak_from_maximal today l :
  StronglySorted Z.ge l -> NoDup l ->
  forall i, (forall d, d ∈ l -> d <= today - i) ->
            today - i - streak_from today i l ∉ l.
Proof.
  induction 1 as [|d l Hs IH Hd]; intros Hnd i Hle; simpl.
  - apply not_elem_of_nil.
  - apply NoDup_cons in Hnd as [Hd' Hnd].
    rewrite Forall_forall in Hd.
    destruct (Z.eqb_spec d (today - i)) as [->|Hne].
    + pose proof (streak_from_nonneg today (i + 1) l).
      intros [E|Hin]%elem_of_cons; [lia|].
      replace (today - i - (1 + streak_from today (i + 1) l))
        with (today - (i + 1) - streak_from today (i + 1) l) in Hin by lia.
      revert Hin. apply IH; [done|].
      intros d Hin. specialize (Hd d Hin).
      assert (d <> today - i) by (intros ->; done). lia.
    + replace (today - i - 0) with (today - i) by lia.
      assert (d <= today - i) by (apply Hle; left).
      intros [E|Hin]%elem_of_cons; [lia|].
      specialize (Hd _ Hin). lia.
Qed.

Lemma unique_days_elem (days : list Z) d :
  d ∈ merge_sort Z.ge (elements (list_to_set days : gset Z)) <-> d ∈ days.
Proof.
  rewrite merge_sort_Permutation, elem_of_elements.
  apply elem_of_list_to_set.
Qed.

Lemma unique_days_sorted (days : list Z) :
  StronglySorted Z.ge (merge_sort Z.ge (elements (list_to_set days : gset Z)))
  /\ NoDup (merge_sort Z.ge (elements (list_to_set days : gset Z))).
Proof.
  split.
  - apply StronglySorted_merge_sort.
    + intros x y z; lia.
    + intros x y; lia.
  - rewrite merge_sort_Permutation. apply NoDup_elements.
Qed.

Lemma sorted_head_is_max (l : list Z) x :
  StronglySorted Z.ge l -> x ∈ l -> (forall y, y ∈ l -> y <= x) ->
  exists rest, l = x :: rest.
Proof.
  intros Hs Hx Hmax. destruct l as [|h rest]; [by apply elem_of_nil in Hx|].
  apply StronglySorted_inv in Hs as [_ Hall].
  rewrite Forall_forall in Hall.
  assert (h <= x) by (apply Hmax; left).
  apply elem_of_cons in Hx as [->|Hx]; [by eexists|].
  specialize (Hall x Hx). assert (h = x) as -> by lia. by eexists.
Qed.

Lemma completed_days_whole db user_id d :
  (length (filter (is_completed_of user_id) (daily_actions db)) <= 2000)%nat ->
  completed_on db user_id d -> d ∈ completed_days db user_id.
Proof.
  intros Hlen (a & Ha & Hu & Hc & Hd). unfold completed_days.
  rewrite take_ge.
  - rewrite merge_sort_Permutation. apply list_elem_of_fmap.
    exists a. split; [done|]. by apply list_elem_of_filter.
  - rewrite (Permutation_length (merge_sort_Permutation Z.ge _)).
    by rewrite length_fmap.
Qed.

Lemma consecutive_days_unique db user_id today n m :
  consecutive_days db user_id today n -> consecutive_days db user_id today m ->
  n = m.
Proof.
  intros (Hn & Hrun & Hstop) (Hm & Hrun' & Hstop').
  destruct (Z.lt_trichotomy n m) as [Hlt|[->|Hgt]]; [|done|].
  - destruct Hstop. apply Hrun'. lia.
  - destruct Hstop'. apply Hrun. lia.
Qed.

(** The claim C6 as written fails where it says what the current streak
    counts: in the sample store the user has completed actions today and
    yesterday, but a completed action dated tomorrow heads the sorted days,
    so the loop stops at once and the current streak is 0. *)
Lemma current_streak_stopped_by_later_day :
  ~ streak_counts_consecutive_days Sample.cfg Sample.at_0600 More.future_db
      Sample.user.
Proof.
  intros (_ & _ & Hstop). apply Hstop.
  exists (Sample.row "f2" "p1" "Fitness" "Run" Sample.today true None).
  split; [right; left|]. by vm_compute.
Qed.

(** Nor does the current streak count the days that lie beyond the 2000
    rows fetched: with 2000 completed actions today and one yesterday, it is
    1 although both days have a completed action. *)
Lemma current_streak_stopped_by_window :
  ~ streak_counts_consecutive_days Sample.cfg Sample.at_0600 More.crowded_db
      Sample.user.
Proof.
  intros (_ & _ & Hstop). apply Hstop.
  exists (Sample.row "y1" "p1" "Fitness" "Run" Sample.yesterday true None).
  split; [left|]. by vm_compute.
Qed.

(** C6 (amended). For every history the longest streak is never below the
    current one; the current streak is 0 whenever the user completed nothing
    today and nothing yesterday; without any completion the answer is the
    zero state with the default message; and each day counted by the current
    streak has a completed action.  When the user has no completed action
    dated after today and at most 2000 completed actions, the current streak
    is exactly the number of consecutive completed days from today
    backwards. *)
Theorem calculate_streak_monotone (cfg : Config) (now : Z) (db : Db)
    (user_id : pystr) :
  let r := calculate_streak cfg now db user_id in
  let today := effective_day cfg now in
  current_streak r <= longest_streak r
  /\ (~ completed_on db user_id today /\ ~ completed_on db user_id (today - 1)
      -> current_streak r = 0)
  /\ ((forall d, ~ completed_on db user_id d) ->
      r = {| current_streak := 0;
             longest_streak := 0;
             total_completed := 0;
             message := lit "Start your first action to begin your journey!" |})
  /\ (forall i, 0 <= i < current_streak r -> completed_on db user_id (today - i))
  /\ (0 < current_streak r ->
      today - current_streak r ∉ completed_days db user_id)
  /\ ((forall a, a ∈ daily_actions db -> is_completed_of user_id a ->
                 DailyAction.day a <= today) ->
      (length (filter (is_completed_of user_id) (daily_actions db))
       <= 2000)%nat ->
      streak_counts_consecutive_days cfg now db user_id
      /\ forall n, consecutive_days db user_id today n -> current_streak r = n).
Proof.
  intros r today.
  assert (Hsound : forall i, 0 <= i < current_streak r ->
                             completed_on db user_id (today - i)).
  { subst r. unfold calculate_streak.
    pose proof (completed_days_elem db user_id) as Hel.
    destruct (completed_days db user_id) as [|d0 days'] eqn:Edays.
    { simpl. intros i Hi. lia. }
    cbv zeta. cbn [current_streak]. fold today. intros i Hi.
    apply Hel, unique_days_elem.
    replace (today - i) with (today - 0 - i) by lia.
    by apply streak_from_elem. }
  assert (Hstop : 0 < current_streak r ->
                  today - current_streak r ∉ completed_days db user_id).
  { subst r. unfold calculate_streak.
    destruct (completed_days db user_id) as [|d0 days'] eqn:Edays.
    { simpl. lia. }
    set (days := d0 :: days') in *.
    cbv zeta. cbn [current_streak]. fold today.
    set (unique_days := merge_sort Z.ge (elements (list_to_set days : gset Z))).
    intros Hpos.
    destruct (unique_days_sorted days) as [Hs Hnd]. fold unique_days in Hs, Hnd.
    intros Hbad. apply unique_days_elem in Hbad. fold unique_days in Hbad.
    revert Hbad.
    replace (today - streak_from today 0 unique_days)
      with (today - 0 - streak_from today 0 unique_days) by lia.
    apply streak_from_maximal; [done..|].
    intros d Hd. destruct unique_days as [|u rest]; [by apply elem_of_nil in Hd|].
    simpl in Hpos. destruct (Z.eqb_spec u (today - 0)) as [->|]; [|lia].
    apply elem_of_cons in Hd as [->|Hd]; [lia|].
    apply StronglySorted_inv in Hs as [_ Hall].
    rewrite Forall_forall in Hall. specialize (Hall _ Hd). lia. }
  assert (Hnonneg : 0 <= current_streak r).
  { subst r. unfold calculate_streak.
    destruct (completed_days db user_id); [done|].
    cbv zeta. cbn [current_streak]. apply streak_from_nonneg. }
  assert (Hstart :
    (forall a, a ∈ daily_actions db -> is_completed_of user_id a ->
               DailyAction.day a <= today) ->
    (length (filter (is_completed_of user_id) (daily_actions db))
     <= 2000)%nat ->
    completed_on db user_id today -> 0 < current_streak r).
  { intros Hpast Hwindow Hon.
    pose proof (completed_days_whole db user_id _ Hwindow Hon) as Hin.
    subst r. unfold calculate_streak.
    pose proof (completed_days_elem db user_id) as Hel.
    destruct (completed_days db user_id) as [|d0 days'] eqn:Edays;
      [by apply elem_of_nil in Hin|].
    cbv zeta. cbn [current_streak]. fold today.
    destruct (sorted_head_is_max
                (merge_sort Z.ge
                   (elements (list_to_set (d0 :: days') : gset Z)))
                today) as [rest ->].
    - apply unique_days_sorted.
    - by apply unique_days_elem.
    - intros y Hy. apply (proj1 (unique_days_elem _ y)) in Hy.
      destruct (Hel y Hy) as (a & Ha & Hu & Hc & <-).
      by apply Hpast.
    - simpl. rewrite Z.sub_0_r, Z.eqb_refl.
      pose proof (streak_from_nonneg today (0 + 1) rest). lia. }
  split; [|split; [|split; [|split; [|split]]]].
  - subst r. unfold calculate_streak.
    destruct (completed_days db user_id); [done|].
    cbv zeta. cbn [current_streak longest_streak]. lia.
  - intros [Hn _].
    destruct (decide (current_streak r = 0)) as [|Hne]; [done|].
    exfalso. apply Hn. replace today with (today - 0) by lia.
    apply Hsound. lia.
  - intros Hnone. subst r. unfold calculate_streak.
    pose proof (completed_days_elem db user_id) as Hel.
    destruct (completed_days db user_id) as [|d0 days'] eqn:Edays; [done|].
    exfalso. apply (Hnone d0), Hel. left.
  - exact Hsound.
  - exact Hstop.
  - intros Hpast Hwindow.
    assert (Hcount : consecutive_days db user_id today (current_streak r)).
    { split; [done|]. split; [done|]. intros Hon.
      pose proof (completed_days_whole db user_id _ Hwindow Hon) as Hin.
      destruct (decide (current_streak r = 0)) as [E|Hne].
      - rewrite E, Z.sub_0_r in Hon. specialize (Hstart Hpast Hwindow Hon). lia.
      - apply Hstop; [lia|done]. }
    split; [exact Hcount|].
    intros n Hn. by apply (consecutive_days_unique db user_id today).
Qed.

(** In the sample store the streak is 2 days long: today and yesterday have
    a completed action, the day before has none. *)
Lemma calculate_streak_monotone_witness :
  current_streak
    (calculate_streak Sample.cfg Sample.at_0600 Sample.streak_db Sample.user)
  <= longest_streak
       (calculate_streak Sample.cfg Sample.at_0600 Sample.streak_db Sample.user)
  /\ completed_on Sample.streak_db Sample.user Sample.yesterday
  /\ (Sample.today - 2
      ∉ completed_days Sample.streak_db Sample.user)
  /\ consecutive_days Sample.streak_db Sample.user Sample.today 2.
Proof.
  destruct (calculate_streak_monotone Sample.cfg Sample.at_0600
              Sample.streak_db Sample.user) as (H1 & _ & _ & H4 & H5 & H6).
  split; [exact H1|]. split; [|split].
  - apply (H4 1). vm_compute. split; [discriminate | reflexivity].
  - apply H5. vm_compute. reflexivity.
  - apply H6.
    + intros a Ha _. vm_compute in Ha.
      repeat (apply elem_of_cons in Ha as [-> | Ha]);
        try (vm_compute; discriminate).
      by apply elem_of_nil in Ha.
    + vm_compute. lia.
Defined.

(** ** Weekly summary *)

Lemma weekday_range d : 0 <= weekday d < 7.
Proof. unfold weekday. apply Z.mod_pos_bound. lia. Qed.

Lemma weekday_week_start d : weekday (d - weekday d) = 0.
Proof.
  unfold weekday.
  replace (d - (d + 6) mod 7 + 6) with ((d + 6) - (d + 6) mod 7) by lia.
  rewrite Zminus_mod_idemp_r. replace (d + 6 - (d + 6)) with 0 by lia.
  reflexivity.
Qed.

(** C7. The summary covers the Monday-to-Sunday week that contains today,
    and counts exactly the user's actions dated in that week; with 10 such
    actions of which 6 are completed, the completion rate is 60.0 and the
    message is the one of the "Solid week" tier. *)
Theorem weekly_summary_solid_week (cfg : Config) (now : Z) (db : Db)
    (user_id : pystr) :
  let s := generate_weekly_summary cfg now db user_id in
  let today := effective_day cfg now in
  (weekday (week_start s) = 0 /\ week_end s = week_start s + 6
   /\ week_start s <= today <= week_end s)
  /\ total_actions s
     = Z.of_nat (length (filter
         (fun a => DailyAction.user_id a = user_id
                   /\ week_start s <= DailyAction.day a <= week_end s)
         (daily_actions db)))
  /\ completed_actions s
     = Z.of_nat (length (filter
         (fun a => (DailyAction.user_id a = user_id
                    /\ week_start s <= DailyAction.day a <= week_end s)
                   /\ DailyAction.completed a = true)
         (daily_actions db)))
  /\ (total_actions s = 10 -> completed_actions s = 6 ->
      completion_rate s = PyFloat.of_int 60
      /\ momentum_message s
         = lit "Solid week! 6 actions done. Keep stacking wins "
             ++ [127775%N]).
Proof.
  intros s today. subst s. unfold generate_weekly_summary.
  cbv zeta. fold today.
  cbn [week_start week_end total_actions completed_actions completion_rate
       momentum_message].
  pose proof (weekday_range today) as Hw.
  split; [|split; [|split]].
  - split; [apply weekday_week_start|]. lia.
  - reflexivity.
  - rewrite list_filter_filter. do 2 f_equal.
    apply list_filter_iff. intros a. unfold in_week. tauto.
  - intros -> ->. split; reflexivity.
Qed.

(** The sample week has 10 actions of the user, 6 of them completed. *)
Lemma weekly_summary_solid_week_witness :
  let s := generate_weekly_summary Sample.cfg Sample.at_0600 Sample.week_db
                                   Sample.user in
  week_start s = 719160
  /\ completion_rate s = PyFloat.of_int 60
  /\ momentum_message s
     = lit "Solid week! 6 actions done. Keep stacking wins " ++ [127775%N].
Proof.
  intros s. split; [reflexivity|].
  destruct (weekly_summary_solid_week Sample.cfg Sample.at_0600
              Sample.week_db Sample.user) as (_ & _ & _ & H).
  apply H; reflexivity.
Defined.

(** ** Rollover engine *)

Lemma add_all_nil db : add_all db [] = db.
Proof. destruct db. unfold add_all. simpl. by rewrite app_nil_r. Qed.

Lemma filter_none {A} (P : A -> Prop) `{forall x, Decision (P x)} (l : list A) :
  (forall x, x ∈ l -> ~ P x) -> filter P l = [].
Proof.
  intros Hn. induction l as [|x l IH]; [done|].
  rewrite filter_cons_False by (apply Hn; left).
  apply IH. intros y Hy. apply Hn. by right.
Qed.

Lemma carry_key_carried_copy today yesterday new_id a :
  carry_key (carried_copy today yesterday new_id a) = carry_key a.
Proof. reflexivity. Qed.

Lemma is_carried_carried_copy user_id today yesterday new_id a :
  DailyAction.user_id a = user_id ->
  is_carried user_id today yesterday (carried_copy today yesterday new_id a).
Proof. by intros <-. Qed.

(** The engine in one equation: behind the guard, the rows to add are the
    copies of yesterday's open rows whose key is not carried yet. *)
Lemma reschedule_incomplete_actions_eq cfg now uuid4 db user_id :
  let today := effective_day cfg now in
  let yesterday := today - 1 in
  let existing_keys : gset (pystr * pystr * pystr) :=
    list_to_set (carry_key <$> filter (is_carried user_id today yesterday)
                                      (daily_actions db)) in
  reschedule_incomplete_actions cfg now uuid4 db user_id
  = if already_carried user_id today yesterday db then db
    else add_all db
           (imap (fun i a => carried_copy today yesterday (uuid4 i) a)
              (filter (fun a => carry_key a ∉ existing_keys)
                 (filter (is_incomplete user_id yesterday) (daily_actions db)))).
Proof.
  intros today yesterday existing_keys.
  unfold reschedule_incomplete_actions. cbv zeta.
  fold today. fold yesterday. fold existing_keys.
  destruct (already_carried user_id today yesterday db); [done|].
  destruct (filter (is_incomplete user_id yesterday) (daily_actions db))
    as [|r rows]; [by rewrite add_all_nil|].
  destruct (imap _ _); [by rewrite add_all_nil|done].
Qed.

(** Once a rollover has run, every open row of yesterday has its key among
    the carried keys of today. *)
Lemma reschedule_covers_keys today uuid4 user_id (rows_db : list DailyAction.t) :
  let yesterday := today - 1 in
  let existing_keys : gset (pystr * pystr * pystr) :=
    list_to_set (carry_key <$> filter (is_carried user_id today yesterday)
                                      rows_db) in
  let to_add :=
    imap (fun i a => carried_copy today yesterday (uuid4 i) a)
      (filter (fun a => carry_key a ∉ existing_keys)
         (filter (is_incomplete user_id yesterday) rows_db)) in
  forall a, a ∈ filter (is_incomplete user_id yesterday) (rows_db ++ to_add) ->
    carry_key a
    ∈ (list_to_set (carry_key <$> filter (is_carried user_id today yesterday)
                                         (rows_db ++ to_add))
       : gset (pystr * pystr * pystr)).
Proof.
  intros yesterday existing_keys to_add a Ha.
  rewrite filter_app in Ha. apply elem_of_app in Ha as [Ha|Ha].
  - rewrite filter_app, fmap_app, list_to_set_app_L. fold existing_keys.
    destruct (decide (carry_key a ∈ existing_keys)) as [Hk|Hk];
      [by apply elem_of_union_l|].
    apply elem_of_union_r, elem_of_list_to_set, list_elem_of_fmap.
    assert (Hf : a ∈ filter (fun a => carry_key a ∉ existing_keys)
                   (filter (is_incomplete user_id yesterday) rows_db)).
    { by apply list_elem_of_filter. }
    apply list_elem_of_lookup in Hf as [i Hi].
    exists (carried_copy today yesterday (uuid4 i) a). split; [done|].
    apply list_elem_of_filter. split.
    + apply is_carried_carried_copy.
      apply list_elem_of_filter in Ha as [[Hu _] _]. done.
    + apply list_elem_of_lookup. exists i. subst to_add.
      by rewrite list_lookup_imap, Hi.
  - exfalso. apply list_elem_of_filter in Ha as [(_ & Hd & _) Hin].
    subst to_add. apply elem_of_lookup_imap in Hin as (i & b & -> & _).
    simpl in Hd. subst yesterday. lia.
Qed.

(** The guard: a carried row whose id is a non-empty string ends the call. *)
Lemma already_carried_true user_id today yesterday db :
  (exists a, a ∈ daily_actions db /\ is_carried user_id today yesterday a) ->
  (forall a, a ∈ daily_actions db -> DailyAction.id a <> []) ->
  already_carried user_id today yesterday db = true.
Proof.
  intros (a & Hin & Hc) Hids. unfold already_carried.
  destruct (filter _ _) as [|b l] eqn:E.
  - exfalso. eapply filter_nil_not_elem_of; eauto.
  - simpl. assert (Hb : b ∈ daily_actions db).
    { assert (H : b ∈ b :: l) by left. rewrite <- E in H.
      by apply list_elem_of_filter in H as [_ H]. }
    specialize (Hids _ Hb). by destruct (DailyAction.id b).
Qed.

(** C1. Two rollovers in a row for the same user and logical day leave the
    store of the first one: the second inserts nothing.  It stops at its
    guard as soon as a row dated today and rescheduled from yesterday exists
    (row ids being non-empty strings). *)
Theorem rollover_idempotent (cfg : Config) (now1 now2 : Z)
    (uuid4 uuid4' : nat -> pystr) (db : Db) (user_id : pystr) :
  effective_day cfg now1 = effective_day cfg now2 ->
  let today := effective_day cfg now1 in
  let once := reschedule_incomplete_actions cfg now1 uuid4 db user_id in
  reschedule_incomplete_actions cfg now2 uuid4' once user_id = once
  /\ ((exists a, a ∈ daily_actions once
                /\ is_carried user_id today (today - 1) a) ->
      (forall a, a ∈ daily_actions once -> DailyAction.id a <> []) ->
      already_carried user_id today (today - 1) once = true).
Proof.
  intros Hday today once. split; [|apply already_carried_true].
  rewrite (reschedule_incomplete_actions_eq cfg now2). cbv zeta.
  rewrite <- Hday. fold today.
  destruct (already_carried user_id today (today - 1) once) eqn:Eg; [done|].
  rewrite <- (add_all_nil once) at 3. f_equal.
  assert (Hnil : filter
            (fun a => carry_key a
               ∉ (list_to_set
                    (carry_key <$> filter (is_carried user_id today (today - 1))
                                          (daily_actions once))
                  : gset (pystr * pystr * pystr)))
            (filter (is_incomplete user_id (today - 1)) (daily_actions once))
          = []); [|by rewrite Hnil].
  apply filter_none. intros a Ha Hk. apply Hk. clear Hk.
  pose proof (reschedule_incomplete_actions_eq cfg now1 uuid4 db user_id)
    as Honce.
  cbv zeta in Honce. fold today in Honce. fold once in Honce.
  clearbody once.
  destruct (already_carried user_id today (today - 1) db) eqn:Eg1.
  - subst once. rewrite Eg1 in Eg. discriminate Eg.
  - subst once. revert Ha. cbn [add_all daily_actions].
    apply reschedule_covers_keys.
Qed.

(** Two views of the sample day, an hour apart: the second one stops at the
    guard. *)
Lemma rollover_idempotent_witness :
  let once := reschedule_incomplete_actions Sample.cfg Sample.at_0600
                Sample.uuids Sample.rollover_db Sample.user in
  length (daily_actions once) = 5%nat
  /\ reschedule_incomplete_actions Sample.cfg (Sample.at_0600 + us_per_hour)
       (fun _ => lit "other") once Sample.user
     = once
  /\ already_carried Sample.user Sample.today Sample.yesterday once = true.
Proof.
  intros once. split; [reflexivity|].
  destruct (rollover_idempotent Sample.cfg Sample.at_0600
              (Sample.at_0600 + us_per_hour) Sample.uuids
              (fun _ => lit "other") Sample.rollover_db Sample.user eq_refl)
    as [Hsame Hguard].
  split; [exact Hsame|].
  apply Hguard.
  - exists (Sample.row "id-0" "p1" "Fitness" "Run" Sample.today false
              (Some Sample.yesterday)).
    split; [|by vm_compute].
    vm_compute. do 3 right. left.
  - intros a Ha. vm_compute in Ha.
    repeat (apply elem_of_cons in Ha as [-> | Ha]); try done.
    by apply elem_of_nil in Ha.
Defined.

(** The claim C2 as written fails: in the sample store the rollover of the
    day has run already, so the guard ends the call and the action un-checked
    since then gets no copy. *)
Lemma carry_forward_lost_behind_guard :
  ~ no_loss_carry_forward Sample.cfg Sample.at_0600 Sample.uuids
      Sample.unchecked_db Sample.user.
Proof.
  intros H.
  assert (Hrow : Sample.row "a2" "p1" "Career" "Read" Sample.yesterday false None
                 ∈ daily_actions Sample.unchecked_db) by (right; left).
  apply H in Hrow as (c & Hin & _ & Hday & _ & _ & _ & _ & Hact);
    [vm_compute; by repeat split|].
  vm_compute in Hin.
  repeat (apply elem_of_cons in Hin as [-> | Hin]);
    try (vm_compute in Hact; discriminate Hact);
    try (vm_compute in Hday; discriminate Hday).
  by apply elem_of_nil in Hin.
Qed.

(** C2 (amended). When no row dated today and rescheduled from yesterday
    exists yet for the user, the rollover gives every incomplete action of
    yesterday a row for today with [rescheduled_from] yesterday, not
    completed, and with the same plan, focus area and text. *)
Theorem carry_forward_no_loss (cfg : Config) (now : Z) (uuid4 : nat -> pystr)
    (db : Db) (user_id : pystr) :
  let today := effective_day cfg now in
  (forall b, b ∈ daily_actions db -> ~ is_carried user_id today (today - 1) b) ->
  no_loss_carry_forward cfg now uuid4 db user_id.
Proof.
  intros today Hnone a Hin Hinc. fold today.
  rewrite reschedule_incomplete_actions_eq. cbv zeta. fold today.
  assert (Hf : filter (is_carried user_id today (today - 1)) (daily_actions db)
               = []) by (by apply filter_none).
  unfold already_carried. rewrite Hf. cbn [head].
  set (existing_keys := list_to_set _ : gset (pystr * pystr * pystr)).
  match goal with
  | |- context [imap _ ?rows] => assert (Ha : a ∈ rows)
  end.
  { apply list_elem_of_filter. split; [apply not_elem_of_empty|].
    by apply list_elem_of_filter. }
  apply list_elem_of_lookup in Ha as [i Hi].
  exists (carried_copy today (today - 1) (uuid4 i) a).
  split; [|by repeat split].
  apply elem_of_app. right. apply list_elem_of_lookup. exists i.
  by rewrite list_lookup_imap, Hi.
Qed.

(** In the sample store both open actions of yesterday are carried. *)
Lemma carry_forward_no_loss_witness :
  carried_forward
    (reschedule_incomplete_actions Sample.cfg Sample.at_0600 Sample.uuids
       Sample.rollover_db Sample.user)
    Sample.today
    (Sample.row "a3" "p1" "Career" "Write" Sample.yesterday false None).
Proof.
  apply (carry_forward_no_loss Sample.cfg Sample.at_0600 Sample.uuids
           Sample.rollover_db Sample.user).
  - intros b Hb (_ & Hd & _). vm_compute in Hb.
    repeat (apply elem_of_cons in Hb as [-> | Hb]);
      try (vm_compute in Hd; discriminate Hd).
    by apply elem_of_nil in Hb.
  - right. right. left.
  - vm_compute. by repeat split.
Defined.

(** The rollover never copies a row whose key is already carried. *)
Lemma rollover_skips_carried_keys cfg now uuid4 db user_id :
  let today := effective_day cfg now in
  exists to_add,
    daily_actions (reschedule_incomplete_actions cfg now uuid4 db user_id)
    = daily_actions db ++ to_add
    /\ forall c b, c ∈ to_add -> b ∈ daily_actions db ->
         is_carried user_id today (today - 1) b -> carry_key c <> carry_key b.
Proof.
  intros today. rewrite reschedule_incomplete_actions_eq. cbv zeta. fold today.
  destruct (already_carried user_id today (today - 1) db).
  - exists []. split; [by rewrite app_nil_r|].
    intros c b Hc. by apply elem_of_nil in Hc.
  - eexists. split; [reflexivity|]. intros c b Hc Hb Hcar E.
    apply elem_of_lookup_imap in Hc as (i & a & -> & Hi).
    apply list_elem_of_lookup_2, list_elem_of_filter in Hi as [Hk _].
    apply Hk. rewrite carry_key_carried_copy in E. rewrite E.
    apply elem_of_list_to_set, list_elem_of_fmap. exists b. split; [done|].
    by apply list_elem_of_filter.
Qed.

(** C3 on the code. Yesterday's two open rows with the same plan, focus area
    and text are both copied: the store had no duplicate before the rollover
    and has one after it. *)
Theorem rollover_duplicates_twin_rows :
  no_duplicate_rows Sample.twin_db
  /\ daily_actions
       (reschedule_incomplete_actions Sample.cfg Sample.at_0600 Sample.uuids
          Sample.twin_db Sample.user)
     = daily_actions Sample.twin_db
         ++ [ Sample.row "id-0" "p1" "Fitness" "Run" Sample.today false
                (Some Sample.yesterday);
              Sample.row "id-1" "p1" "Fitness" "Run" Sample.today false
                (Some Sample.yesterday) ]
  /\ ~ no_duplicate_rows
         (reschedule_incomplete_actions Sample.cfg Sample.at_0600 Sample.uuids
            Sample.twin_db Sample.user).
Proof.
  split; [|split].
  - intros i j a b Hi Hj _ _ _ _ Hr _.
    destruct i as [|[|i]], j as [|[|j]]; try done;
      vm_compute in Hi, Hj; simplify_eq; vm_compute in Hr; discriminate Hr.
  - reflexivity.
  - intros H. specialize (H 2%nat 3%nat _ _ eq_refl eq_refl).
    assert (E : 2%nat = 3%nat) by (apply H; reflexivity).
    discriminate E.
Qed.

(** ** Fresh-action engine *)

Lemma gather_lookup tasks results :
  gather tasks = Returns results ->
  length results = length tasks
  /\ forall i t, tasks !! i = Some t ->
       exists r, results !! i = Some r /\ Fanout.settle t = Some r.
Proof.
  revert results. induction tasks as [|t tasks IH]; intros results; simpl.
  - intros [= <-]. split; [done|]. intros i t Hi. by destruct i.
  - destruct t as [s|e|]; [| |done];
      (destruct (gather tasks) as [rs| |]; simpl; [|done..]);
      intros [= <-]; destruct (IH rs eq_refl) as [Hlen Hlk];
      (split; [simpl; by rewrite Hlen|]);
      intros [|i] t Hi; simpl in *; simplify_eq; eauto.
Qed.

Lemma gather_returns tasks :
  Forall (fun t => t <> Blocks) tasks -> exists results, gather tasks = Returns results.
Proof.
  induction 1 as [|t tasks Ht _ [rs IH]]; simpl; [eauto|].
  rewrite IH. destruct t; simpl; eauto. done.
Qed.

(** The three ways through the engine, with its tasks named. *)
Lemma ensure_fresh_actions_for_today_cases cfg now client uuid4 db user_id :
  let today := effective_day cfg now in
  let pairs := pairs_to_generate (plans_lacking_fresh db user_id today) in
  (plans_lacking_fresh db user_id today = []
   /\ ensure_fresh_actions_for_today cfg now client uuid4 db user_id
      = Returns db)
  \/ (plans_lacking_fresh db user_id today <> []
      /\ AI_MAX_CONCURRENCY cfg < 0
      /\ ensure_fresh_actions_for_today cfg now client uuid4 db user_id
         = Raises ValueError)
  \/ (plans_lacking_fresh db user_id today <> []
      /\ 0 <= AI_MAX_CONCURRENCY cfg
      /\ exists task_meta tasks,
          length task_meta = length pairs
          /\ length tasks = length pairs
          /\ (forall i plan area, pairs !! i = Some (plan, area) ->
                exists day_index y_list,
                  task_meta !! i
                  = Some (Plan.id plan,
                          get_default (FocusArea.name area) (lit "Focus"),
                          uuid4 i)
                  /\ tasks !! i
                     = Some (gen_one (AI_MAX_CONCURRENCY cfg)
                               ((fun c => c i) <$> client)
                               plan area day_index y_list))
          /\ ensure_fresh_actions_for_today cfg now client uuid4 db user_id
             = (results ← gather tasks;
                Returns (add_all db
                  ((fun mr => fresh_row user_id today (fst mr) (snd mr))
                     <$> zip task_meta results)))).
Proof.
  intros today pairs. subst pairs.
  unfold ensure_fresh_actions_for_today, plans_lacking_fresh.
  cbv zeta. fold today.
  destruct (filter (is_active_plan user_id) (plans db)) as [|p0 ps] eqn:Eplans.
  { left. by split. }
  set (plans := p0 :: ps) in *.
  set (existing := list_to_set _ : gset pystr).
  destruct (filter (fun p => Plan.id p ∉ existing) plans) as [|q0 qs] eqn:Eptg.
  { left. by split. }
  set (ptg := q0 :: qs) in *.
  right. unfold Semaphore.
  destruct (Z.ltb_spec (AI_MAX_CONCURRENCY cfg) 0) as [Hneg|Hpos].
  { left. by repeat split. }
  right. split; [done|]. split; [done|].
  cbn [mbind outcome_bind].
  match goal with
  | |- context [gather (snd <$> ?j)] => set (jobs := j)
  end.
  exists (fst <$> jobs), (snd <$> jobs).
  subst jobs. rewrite !length_fmap, !length_imap.
  split; [done|]. split; [done|]. split; [|done].
  intros i plan area Hi.
  rewrite !list_lookup_fmap, !list_lookup_imap, Hi.
  destruct client as [c|]; [by eexists _, _ | by eexists _, []].
Qed.

Lemma generate_next_action_with_ai_unusable create plan area y_list day_index :
  (forall request, unusable (create request)) ->
  generate_next_action_with_ai (Some create) plan area y_list day_index
  = Returns (fallback_next_action area day_index).
Proof.
  intros Hu. unfold generate_next_action_with_ai, chat_completions_create.
  match goal with |- context [create ?r] => specialize (Hu r) end.
  destruct (create _) as [[|content choices]|e]; simpl; [done| |done].
  simpl in Hu. by rewrite Hu.
Qed.

(** What a task of the engine delivers to [gather], when it delivers. *)
Lemma gen_one_settle semaphore client plan area day_index y_list r :
  Fanout.settle (gen_one semaphore client plan area day_index y_list) = Some r ->
  exists text,
    r = inr text /\ text <> [] /\ strip text = text
    /\ ((forall create, client = Some create ->
           forall request, unusable (create request)) ->
        text = fallback_next_action area day_index).
Proof.
  unfold gen_one. destruct client as [create|].
  - destruct (semaphore =? 0); [done|].
    destruct (generate_next_action_with_ai_returns (Some create) plan area
                y_list day_index) as (text & E & Hne & Hst).
    rewrite E. simpl. intros [= <-]. exists text. repeat split; try done.
    intros Hu. specialize (Hu create eq_refl).
    rewrite generate_next_action_with_ai_unusable in E by done.
    by injection E.
  - simpl. intros [= <-]. eexists. split; [done|].
    split; [apply fallback_next_action_nonempty|].
    split; [apply strip_fallback_next_action|done].
Qed.


Lemma fresh_row_action user_id today meta text :
  text <> [] -> strip text = text ->
  DailyAction.action (fresh_row user_id today meta (inr text)) = text.
Proof.
  intros Hne Hst. destruct meta as [[plan_id focus_name] action_id]. simpl.
  unfold str_or. by destruct text.
Qed.

(** Whenever the engine returns, it has appended one row per pair of the
    plans lacking a fresh action, in loop order. *)
Lemma ensure_fresh_actions_for_today_rows cfg now client uuid4 db user_id db1 :
  let today := effective_day cfg now in
  let pairs := pairs_to_generate (plans_lacking_fresh db user_id today) in
  ensure_fresh_actions_for_today cfg now client uuid4 db user_id = Returns db1 ->
  plans db1 = plans db
  /\ exists new_rows,
      daily_actions db1 = daily_actions db ++ new_rows
      /\ length new_rows = length pairs
      /\ forall i plan area, pairs !! i = Some (plan, area) ->
           exists r, new_rows !! i = Some r
             /\ row_of_pair ((fun c => c i) <$> client) user_id today
                            (uuid4 i) plan area r.
Proof.
  intros today pairs Hret.
  pose proof (ensure_fresh_actions_for_today_cases cfg now client uuid4 db
                user_id) as Hcases.
  cbv zeta in Hcases. fold today in Hcases. fold pairs in Hcases.
  destruct Hcases
    as [[Hnil E] | [(_ & _ & E) | (_ & _ & metas & tasks & Hlm & Hlt & Hlk & E)]];
    rewrite E in Hret.
  - injection Hret as <-. split; [done|]. exists [].
    subst pairs. rewrite Hnil. split; [by rewrite app_nil_r|].
    split; [done|]. intros i plan area Hi. by destruct i.
  - discriminate Hret.
  - destruct (gather tasks) as [results| |] eqn:Eg; simpl in Hret; [|done..].
    injection Hret as <-. split; [done|].
    destruct (gather_lookup _ _ Eg) as [Hlr Hres].
    eexists. split; [reflexivity|]. split.
    { rewrite length_fmap, length_zip_with. lia. }
    intros i plan area Hi.
    destruct (Hlk i plan area Hi) as (day_index & y_list & Hm & Ht).
    destruct (Hres i _ Ht) as (r & Hr & Hs).
    apply gen_one_settle in Hs as (text & -> & Hne & Hst & Hfb).
    exists (fresh_row user_id today
              (Plan.id plan, get_default (FocusArea.name area) (lit "Focus"),
               uuid4 i) (inr text)).
    split.
    { rewrite list_lookup_fmap, lookup_zip_with, Hm, Hr. done. }
    unfold row_of_pair. rewrite fresh_row_action by done.
    repeat split; try done. exists day_index. exact Hfb.
Qed.

Lemma elem_of_pairs_to_generate ps plan area :
  (plan, area) ∈ pairs_to_generate ps
  <-> plan ∈ ps /\ area ∈ Plan.focus_areas plan.
Proof.
  unfold pairs_to_generate. rewrite list_elem_of_bind. split.
  - intros (p & Hin & Hp). apply list_elem_of_fmap in Hin as (a & [= -> ->] & Ha).
    done.
  - intros [Hp Ha]. exists plan. split; [|done].
    apply list_elem_of_fmap. eauto.
Qed.

(** The plans the engine generates for: the active plans of the user under
    which no fresh row dated [today] exists. *)
Lemma plans_lacking_fresh_elem db user_id today p :
  p ∈ plans_lacking_fresh db user_id today
  <-> p ∈ plans db /\ is_active_plan user_id p
     /\ ~ exists a, a ∈ daily_actions db
            /\ DailyAction.user_id a = user_id
            /\ DailyAction.day a = today
            /\ DailyAction.rescheduled_from a = None
            /\ DailyAction.plan_id a = Plan.id p.
Proof.
  unfold plans_lacking_fresh. cbv zeta.
  rewrite list_elem_of_filter, not_elem_of_list_to_set, list_elem_of_filter.
  split.
  - intros (Hno & Hact & Hin). split; [done|]. split; [done|].
    intros (a & Ha & Hu & Hd & Hr & Hp). apply Hno.
    apply list_elem_of_fmap. exists a. split; [done|].
    apply list_elem_of_filter. split; [|done].
    repeat split; try done. rewrite Hp.
    apply list_elem_of_fmap. exists p. split; [done|].
    by apply list_elem_of_filter.
  - intros (Hin & Hact & Hno). split; [|done].
    intros (a & Hp & Ha)%list_elem_of_fmap.
    apply list_elem_of_filter in Ha as [(Hu & Hd & Hr & _) Ha].
    apply Hno. exists a. by repeat split.
Qed.




(** C4. When the engine has returned, a second run for the same user and
    logical day returns the same store: it inserts nothing.  And a run only
    inserts fresh rows under plans that had no fresh row for today. *)
Theorem fresh_actions_idempotent (cfg : Config) (now1 now2 : Z)
    (client1 client2 : option Client) (uuid4 uuid4' : nat -> pystr)
    (db db1 : Db) (user_id : pystr) :
  effective_day cfg now1 = effective_day cfg now2 ->
  ensure_fresh_actions_for_today cfg now1 client1 uuid4 db user_id
  = Returns db1 ->
  let today := effective_day cfg now1 in
  ensure_fresh_actions_for_today cfg now2 client2 uuid4' db1 user_id
  = Returns db1
  /\ exists new_rows,
      daily_actions db1 = daily_actions db ++ new_rows
      /\ forall r, r ∈ new_rows ->
           DailyAction.user_id r = user_id
           /\ DailyAction.day r = today
           /\ DailyAction.rescheduled_from r = None
           /\ ~ exists a, a ∈ daily_actions db
                  /\ DailyAction.user_id a = user_id
                  /\ DailyAction.day a = today
                  /\ DailyAction.rescheduled_from a = None
                  /\ DailyAction.plan_id a = DailyAction.plan_id r.
Proof.
  intros Hday Hret today.
  destruct (ensure_fresh_actions_for_today_rows cfg now1 client1 uuid4 db
              user_id db1 Hret) as (Hplans & new_rows & Hrows & Hlen & Hlk).
  fold today in Hlen, Hlk.
  set (pairs := pairs_to_generate (plans_lacking_fresh db user_id today)) in *.
  (* every pair has its row in the new store *)
  assert (Hrow : forall plan area, (plan, area) ∈ pairs ->
            exists r, r ∈ new_rows /\ DailyAction.user_id r = user_id
              /\ DailyAction.day r = today
              /\ DailyAction.rescheduled_from r = None
              /\ DailyAction.plan_id r = Plan.id plan).
  { intros plan area [i Hi]%list_elem_of_lookup.
    destruct (Hlk i plan area Hi) as (r & Hr & _ & Hu & Hp & _ & Hd & _ & _ & Hf & _).
    exists r. split; [by eapply list_elem_of_lookup_2|done]. }
  split.
  - (* the second run finds no pair to generate for *)
    assert (Hsub : forall p, p ∈ plans_lacking_fresh db1 user_id today ->
                             p ∈ plans_lacking_fresh db user_id today
                             /\ Plan.focus_areas p = []).
    { intros p Hp. apply plans_lacking_fresh_elem in Hp as (Hin & Hact & Hno).
      rewrite Hplans in Hin.
      assert (Hp : p ∈ plans_lacking_fresh db user_id today).
      { apply plans_lacking_fresh_elem. split; [done|]. split; [done|].
        intros (a & Ha & Hrest). apply Hno. exists a. split; [|done].
        rewrite Hrows. apply elem_of_app. by left. }
      split; [done|].
      destruct (Plan.focus_areas p) as [|area areas] eqn:Ea; [done|].
      exfalso. apply Hno.
      destruct (Hrow p area) as (r & Hr & Hu & Hd & Hf & Hpid).
      { apply elem_of_pairs_to_generate. split; [done|]. rewrite Ea. left. }
      exists r. split; [|done]. rewrite Hrows. apply elem_of_app. by right. }
    assert (Hnil : pairs_to_generate (plans_lacking_fresh db1 user_id today) = []).
    { destruct (pairs_to_generate (plans_lacking_fresh db1 user_id today))
        as [|[plan area] rest] eqn:E; [done|].
      assert (Hin : (plan, area) ∈ pairs_to_generate
                      (plans_lacking_fresh db1 user_id today))
        by (rewrite E; left).
      apply elem_of_pairs_to_generate in Hin as [Hp Ha].
      apply Hsub in Hp as [_ Hp]. rewrite Hp in Ha. by apply elem_of_nil in Ha. }
    pose proof (ensure_fresh_actions_for_today_cases cfg now2 client2 uuid4'
                  db1 user_id) as Hcases.
    cbv zeta in Hcases. rewrite <- Hday in Hcases. fold today in Hcases.
    rewrite Hnil in Hcases.
    destruct Hcases
      as [[_ E] | [(Hne & Hneg & _) | (_ & _ & metas & tasks & Hlm & Hlt & _ & E)]].
    + done.
    + (* a negative limit would have stopped the first run as well *)
      exfalso.
      assert (Hp : exists p, p ∈ plans_lacking_fresh db1 user_id today).
      { destruct (plans_lacking_fresh db1 user_id today) as [|p ps]; [done|].
        exists p. left. }
      destruct Hp as [p [Hp _]%Hsub].
      pose proof (ensure_fresh_actions_for_today_cases cfg now1 client1 uuid4
                    db user_id) as Hfirst.
      cbv zeta in Hfirst. fold today in Hfirst.
      destruct Hfirst as [[Hn _] | [(_ & _ & E) | (_ & Hpos & _)]].
      * rewrite Hn in Hp. by apply elem_of_nil in Hp.
      * rewrite E in Hret. discriminate Hret.
      * lia.
    + rewrite E. apply length_zero_iff_nil in Hlt, Hlm. subst tasks metas.
      simpl. by rewrite add_all_nil.
  - exists new_rows. split; [done|]. intros r [i Hi]%list_elem_of_lookup.
    assert (Hlt : (i < length pairs)%nat).
    { rewrite <- Hlen. by eapply lookup_lt_Some. }
    apply lookup_lt_is_Some in Hlt as [[plan area] Hpair].
    destruct (Hlk i plan area Hpair)
      as (r' & Hr' & _ & Hu & Hp & _ & Hd & _ & _ & Hf & _).
    rewrite Hi in Hr'. injection Hr' as <-.
    repeat split; try done. rewrite Hp.
    apply list_elem_of_lookup_2, elem_of_pairs_to_generate in Hpair as [Hpl _].
    by apply plans_lacking_fresh_elem in Hpl as (_ & _ & Hno).
Qed.

(** A second view of the sample day, with another service and other ids. *)
Lemma fresh_actions_idempotent_witness :
  exists db1,
    length (daily_actions db1) = 5%nat
    /\ ensure_fresh_actions_for_today Sample.cfg (Sample.at_0600 + us_per_hour)
         None (fun _ => lit "other") db1 Sample.user
       = Returns db1.
Proof.
  destruct (ensure_fresh_actions_for_today Sample.cfg Sample.at_0600
              (Some Sample.flaky_client) Sample.uuids Sample.fresh_db
              Sample.user) as [db1| |] eqn:E; [|discriminate E..].
  exists db1. split.
  - vm_compute in E. injection E as <-. reflexivity.
  - apply (fresh_actions_idempotent Sample.cfg Sample.at_0600
             (Sample.at_0600 + us_per_hour) (Some Sample.flaky_client) None
             Sample.uuids (fun _ => lit "other") Sample.fresh_db db1
             Sample.user); [reflexivity|exact E].
Defined.

(** ** Bounded fan-out *)

Lemma in_flight_insert (l : list Fanout.status) i s s' :
  l !! i = Some s ->
  (length (filter (fun s => Fanout.is_in_flight s) (<[i:=s']> l))
   + (if Fanout.is_in_flight s then 1 else 0)
   = length (filter (fun s => Fanout.is_in_flight s) l)
     + (if Fanout.is_in_flight s' then 1 else 0))%nat.
Proof.
  revert i. induction l as [|x l IH]; intros i Hi; [done|].
  destruct i as [|i]; simpl in Hi.
  - injection Hi as ->. simpl. rewrite !filter_cons.
    destruct s, s'; simpl; lia.
  - specialize (IH i Hi). simpl. rewrite !filter_cons.
    destruct (decide (Fanout.is_in_flight x)); simpl; lia.
Qed.

Lemma pool_invariant_start cfg calls p0 :
  Fanout.start cfg calls = Returns p0 -> pool_invariant cfg calls p0.
Proof.
  unfold Fanout.start, Semaphore.
  destruct (Z.ltb_spec (AI_MAX_CONCURRENCY cfg) 0) as [|Hpos]; [done|].
  simpl. intros [= <-]. unfold pool_invariant, Fanout.in_flight. simpl.
  split; [|split; [done|]].
  - induction (length calls) as [|n IH]; simpl; [lia|].
    rewrite filter_cons. simpl. exact IH.
  - induction calls as [|c calls IH]; simpl; [constructor|].
    constructor; [done|exact IH].
Qed.

Lemma pool_invariant_step cfg has_client calls p p' :
  Fanout.step has_client calls p p' ->
  pool_invariant cfg calls p -> pool_invariant cfg calls p'.
Proof.
  intros Hstep (Hsum & Hpos & Hres).
  assert (Hset : forall i s r,
            Fanout.statuses p !! i = Some s ->
            calls !! i ≫= Fanout.settle = Some r ->
            Forall2 (fun s call =>
                       forall r, s = Fanout.Done r -> Fanout.settle call = Some r)
                    (<[i:=Fanout.Done r]> (Fanout.statuses p)) calls).
  { intros i s r Hs Hc.
    destruct (calls !! i) as [c|] eqn:Ec; [|done]. simpl in Hc.
    rewrite <- (list_insert_id calls i c Ec).
    apply Forall2_insert; [done|]. by intros ? [= <-]. }
  unfold pool_invariant, Fanout.in_flight in *.
  destruct Hstep as [p i r _ Hs Hc | p i _ Hs Hp | p i r Hs Hc]; simpl.
  - pose proof (in_flight_insert _ i _ (Fanout.Done r) Hs) as Hn. simpl in Hn.
    split; [lia|]. split; [done|]. by eapply Hset.
  - pose proof (in_flight_insert _ i _ Fanout.InFlight Hs) as Hn. simpl in Hn.
    split; [lia|]. split; [lia|].
    destruct (Forall2_lookup_l _ _ _ _ _ Hres Hs) as (c & Ec & _).
    rewrite <- (list_insert_id calls i c Ec).
    apply Forall2_insert; [done|]. by intros ?.
  - pose proof (in_flight_insert _ i _ (Fanout.Done r) Hs) as Hn. simpl in Hn.
    split; [lia|]. split; [lia|]. by eapply Hset.
Qed.

(** Once every task is over, the pool holds what [gather] returns. *)
Lemma all_done_results calls statuses :
  Forall (fun s => Fanout.is_done s) statuses ->
  Forall2 (fun s call =>
             forall r, s = Fanout.Done r -> Fanout.settle call = Some r)
          statuses calls ->
  gather calls
  = Returns (omap (fun s => match s with
                            | Fanout.Done r => Some r
                            | _ => None
                            end) statuses)
  /\ Forall (fun s => Fanout.is_in_flight s = false) statuses.
Proof.
  intros Hdone Hres. induction Hres as [|s c statuses calls Hs _ IH].
  - by split.
  - apply Forall_cons in Hdone as [Hd Hdone].
    destruct (IH Hdone) as [IHg IHf].
    destruct s as [| |r]; [done..|].
    specialize (Hs r eq_refl). split; [|by constructor].
    simpl. rewrite IHg. destruct c; simpl in *; by simplify_eq.
Qed.

(** Every state of a run satisfies the invariant of the pool; the store is
    written from a state of the run in which all the tasks are over. *)
Lemma fanout_run_invariant cfg has_client calls user_id today task_meta db
    p0 ph :
  Fanout.start cfg calls = Returns p0 ->
  rtc (Fanout.engine_step has_client calls user_id today task_meta db)
      (Fanout.Gathering p0) ph ->
  match ph with
  | Fanout.Gathering p => pool_invariant cfg calls p
  | Fanout.Committed db' =>
      exists p,
        rtc (Fanout.engine_step has_client calls user_id today task_meta db)
            (Fanout.Gathering p0) (Fanout.Gathering p)
        /\ pool_invariant cfg calls p /\ Fanout.all_done p
        /\ db' = add_all db
                   ((fun mr => fresh_row user_id today (fst mr) (snd mr))
                      <$> zip task_meta (Fanout.results p))
  end.
Proof.
  intros Hstart Hrun.
  set (R := Fanout.engine_step has_client calls user_id today task_meta db) in *.
  pose (Inv := fun ph =>
    match ph with
    | Fanout.Gathering p => pool_invariant cfg calls p
    | Fanout.Committed db' =>
        exists p, rtc R (Fanout.Gathering p0) (Fanout.Gathering p)
          /\ pool_invariant cfg calls p /\ Fanout.all_done p
          /\ db' = add_all db
                     ((fun mr => fresh_row user_id today (fst mr) (snd mr))
                        <$> zip task_meta (Fanout.results p))
    end).
  change (Inv ph). revert ph Hrun. apply (rtc_ind_r Inv).
  - by apply pool_invariant_start.
  - intros y z Hxy Hstep IH.
    destruct Hstep as [p p' Hstep | p Hdone]; simpl in *.
    + by eapply pool_invariant_step.
    + exists p. split; [done|]. split; [exact IH|]. by split.
Qed.

(** C9. From the creation of the semaphore with the configured limit on, in
    every state the fan-out can reach, under any interleaving of the tasks,
    the number of generator calls in progress is at most the limit; and the
    rows are inserted only from a state where every task is over and no call
    is in progress, with the results that [gather] returns. *)
Theorem fanout_bounded_concurrency (cfg : Config) (has_client : bool)
    (calls : list (outcome pystr)) (user_id : pystr) (today : Z)
    (task_meta : list (pystr * pystr * pystr)) (db : Db)
    (p0 : Fanout.pool) (ph : Fanout.phase) :
  Fanout.start cfg calls = Returns p0 ->
  rtc (Fanout.engine_step has_client calls user_id today task_meta db)
      (Fanout.Gathering p0) ph ->
  match ph with
  | Fanout.Gathering p =>
      Z.of_nat (Fanout.in_flight p) <= AI_MAX_CONCURRENCY cfg
  | Fanout.Committed db' =>
      exists p,
        rtc (Fanout.engine_step has_client calls user_id today task_meta db)
            (Fanout.Gathering p0) (Fanout.Gathering p)
        /\ Fanout.all_done p
        /\ Fanout.in_flight p = 0%nat
        /\ gather calls = Returns (Fanout.results p)
        /\ db' = add_all db
                   ((fun mr => fresh_row user_id today (fst mr) (snd mr))
                      <$> zip task_meta (Fanout.results p))
  end.
Proof.
  intros Hstart Hrun.
  pose proof (fanout_run_invariant _ _ _ _ _ _ _ _ _ Hstart Hrun) as Hinv.
  destruct ph as [p|db'].
  - destruct Hinv as (Hsum & Hpos & _). lia.
  - destruct Hinv as (p & Hreach & (_ & _ & Hres) & Hdone & ->).
    exists p. destruct (all_done_results _ _ Hdone Hres) as [Hg Hnone].
    split; [done|]. split; [done|]. split; [|by split].
    unfold Fanout.in_flight. rewrite filter_none; [done|].
    intros s Hs. rewrite Forall_forall in Hnone. rewrite (Hnone s Hs).
    by intros [].
Qed.

(** With a limit of 2 and 3 tasks, two calls can be in progress together,
    and no permit is left for the third. *)
Lemma fanout_bounded_concurrency_witness :
  Fanout.in_flight Sample.two_in_flight = 2%nat
  /\ Z.of_nat (Fanout.in_flight Sample.two_in_flight)
     <= AI_MAX_CONCURRENCY Sample.cfg2.
Proof.
  split; [reflexivity|].
  apply (fanout_bounded_concurrency Sample.cfg2 true Sample.three_calls
           Sample.user Sample.today [] Sample.fresh_db
           {| Fanout.permits := 2;
              Fanout.statuses := replicate 3 Fanout.Pending |}
           (Fanout.Gathering Sample.two_in_flight)); [reflexivity|].
  eapply rtc_l.
  { apply Fanout.engine_wait.
    apply (Fanout.step_acquire true Sample.three_calls _ 0%nat);
      reflexivity. }
  eapply rtc_l.
  { apply Fanout.engine_wait.
    apply (Fanout.step_acquire true Sample.three_calls _ 1%nat);
      reflexivity. }
  apply rtc_refl.
Defined.

(** *** The fan-out and the engine agree *)

Lemma remaining_steps_insert (l : list Fanout.status) i s s' :
  l !! i = Some s ->
  (sum_list_with remaining_steps (<[i:=s']> l) + remaining_steps s
   = sum_list_with remaining_steps l + remaining_steps s')%nat.
Proof.
  revert i. induction l as [|x l IH]; intros i Hi; [done|].
  destruct i as [|i]; simpl in Hi.
  - injection Hi as ->. simpl.
    generalize (sum_list_with remaining_steps l) (remaining_steps s)
               (remaining_steps s').
    intros. lia.
  - specialize (IH i Hi). simpl. revert IH.
    generalize (sum_list_with remaining_steps l)
               (sum_list_with remaining_steps (<[i:=s']> l))
               (remaining_steps s) (remaining_steps s') (remaining_steps x).
    intros. lia.
Qed.

Lemma status_cases (l : list Fanout.status) :
  Forall (fun s => Fanout.is_done s) l
  \/ (exists i, l !! i = Some Fanout.InFlight)
  \/ ((forall s, s ∈ l -> Fanout.is_in_flight s = false)
      /\ exists i, l !! i = Some Fanout.Pending).
Proof.
  induction l as [|s l IH]; [left; constructor|].
  destruct s as [| |r].
  - right. destruct IH as [Hd | [[i Hi] | [Hn _]]].
    + right. split; [|by exists 0%nat].
      intros s [->|Hs]%elem_of_cons; [done|].
      rewrite Forall_forall in Hd. specialize (Hd s Hs). by destruct s.
    + left. by exists (S i).
    + right. split; [|by exists 0%nat].
      intros s [->|Hs]%elem_of_cons; [done|by apply Hn].
  - right. left. by exists 0%nat.
  - destruct IH as [Hd | [[i Hi] | [Hn [i Hi]]]].
    + left. by constructor.
    + right. left. by exists (S i).
    + right. right. split; [|by exists (S i)].
      intros s [->|Hs]%elem_of_cons; [done|by apply Hn].
Qed.

(** No deadlock: with a positive limit (or without a client), and calls
    that all come to an end, every state of the pool leads to the insert. *)
Lemma fanout_progress cfg has_client calls user_id today task_meta db :
  (has_client = true -> 0 < AI_MAX_CONCURRENCY cfg) ->
  Forall (fun c => c <> Blocks) calls ->
  forall n p,
    (sum_list_with remaining_steps (Fanout.statuses p) <= n)%nat ->
    pool_invariant cfg calls p ->
    exists db',
      rtc (Fanout.engine_step has_client calls user_id today task_meta db)
          (Fanout.Gathering p) (Fanout.Committed db').
Proof.
  intros Hlimit Hcalls.
  assert (Hsettle : forall i s (p : Fanout.pool),
            pool_invariant cfg calls p -> Fanout.statuses p !! i = Some s ->
            exists r, calls !! i ≫= Fanout.settle = Some r).
  { intros i s p (_ & _ & Hres) Hs.
    destruct (Forall2_lookup_l _ _ _ _ _ Hres Hs) as (c & Ec & _).
    rewrite Ec. simpl. rewrite Forall_forall in Hcalls.
    apply list_elem_of_lookup_2, Hcalls in Ec. destruct c; simpl; eauto. done. }
  induction n as [|n IH]; intros p Hn Hinv.
  - eexists. apply rtc_once, Fanout.engine_commit.
    unfold Fanout.all_done. apply Forall_forall. intros s Hs.
    pose proof (sum_list_with_in s remaining_steps _ Hs) as Hle.
    destruct s; simpl in Hle; [lia..|done].
  - destruct (status_cases (Fanout.statuses p)) as [Hd | [[i Hi] | [Hnone [i Hi]]]].
    + eexists. by apply rtc_once, Fanout.engine_commit.
    + destruct (Hsettle i _ p Hinv Hi) as [r Hr].
      pose proof (Fanout.step_release has_client calls p i r Hi Hr) as Hstep.
      pose proof (remaining_steps_insert _ i _ (Fanout.Done r) Hi) as Hsum.
      simpl in Hsum.
      edestruct IH as [db' Hrun];
        [|by eapply pool_invariant_step|]; [simpl; lia|].
      exists db'. eapply rtc_l; [by apply Fanout.engine_wait|done].
    + assert (Hfree : Fanout.in_flight p = 0%nat).
      { unfold Fanout.in_flight. rewrite filter_none; [done|].
        intros s Hs. rewrite (Hnone s Hs). by intros []. }
      destruct has_client eqn:Eclient.
      * assert (Hp : 0 < Fanout.permits p).
        { destruct Hinv as (Hsum & _). specialize (Hlimit eq_refl). lia. }
        pose proof (Fanout.step_acquire true calls p i eq_refl Hi Hp) as Hstep.
        pose proof (remaining_steps_insert _ i _ Fanout.InFlight Hi) as Hsum.
        simpl in Hsum.
        edestruct IH as [db' Hrun];
          [|by eapply pool_invariant_step|]; [simpl; lia|].
        exists db'. eapply rtc_l; [by apply Fanout.engine_wait|done].
      * destruct (Hsettle i _ p Hinv Hi) as [r Hr].
        pose proof (Fanout.step_fallback false calls p i r eq_refl Hi Hr)
          as Hstep.
        pose proof (remaining_steps_insert _ i _ (Fanout.Done r) Hi) as Hsum.
        simpl in Hsum.
        edestruct IH as [db' Hrun];
          [|by eapply pool_invariant_step|]; [simpl; lia|].
        exists db'. eapply rtc_l; [by apply Fanout.engine_wait|done].
Qed.

(** Deadlock: with a client and a limit of 0 no task ever starts, and the
    engine waits in [gather] for ever. *)
Lemma fanout_without_permit cfg calls user_id today task_meta db p0 ph :
  AI_MAX_CONCURRENCY cfg = 0 -> calls <> [] ->
  Fanout.start cfg calls = Returns p0 ->
  rtc (Fanout.engine_step true calls user_id today task_meta db)
      (Fanout.Gathering p0) ph ->
  ph = Fanout.Gathering p0.
Proof.
  intros H0 Hne Hstart. unfold Fanout.start, Semaphore in Hstart.
  rewrite H0 in Hstart. simpl in Hstart. injection Hstart as <-.
  revert ph. apply rtc_ind_r; [done|].
  intros y z _ Hstep ->.
  inversion Hstep as [p p' Hs | p Hdone]; subst.
  - exfalso. inversion Hs as [? i r Hc _ _ | ? i _ _ Hp | ? i r Hi _]; subst.
    + done.
    + simpl in Hp. lia.
    + simpl in Hi. apply lookup_replicate in Hi as [Hi _]. done.
  - exfalso. unfold Fanout.all_done in Hdone. simpl in Hdone.
    destruct calls; [done|]. simpl in Hdone.
    by apply Forall_cons in Hdone as [Hd _].
Qed.

(** The store written at the end of any run of the fan-out of the engine's
    own tasks is the store that the engine returns. *)
Lemma fanout_commit_agrees cfg now client uuid4 db user_id :
  let today := effective_day cfg now in
  let pairs := pairs_to_generate (plans_lacking_fresh db user_id today) in
  let has_client := match client with Some _ => true | None => false end in
  plans_lacking_fresh db user_id today <> [] ->
  0 <= AI_MAX_CONCURRENCY cfg ->
  exists task_meta tasks,
    length tasks = length pairs
    /\ (forall i plan area, pairs !! i = Some (plan, area) ->
          exists day_index y_list,
            tasks !! i
            = Some (gen_one (AI_MAX_CONCURRENCY cfg) ((fun c => c i) <$> client)
                            plan area day_index y_list))
    /\ forall p0 db',
         Fanout.start cfg tasks = Returns p0 ->
         rtc (Fanout.engine_step has_client tasks user_id today task_meta db)
             (Fanout.Gathering p0) (Fanout.Committed db') ->
         ensure_fresh_actions_for_today cfg now client uuid4 db user_id
         = Returns db'.
Proof.
  intros today pairs has_client Hne Hlimit.
  pose proof (ensure_fresh_actions_for_today_cases cfg now client uuid4 db
                user_id) as Hcases.
  cbv zeta in Hcases. fold today in Hcases. fold pairs in Hcases.
  destruct Hcases
    as [[Hnil _] | [(_ & Hneg & _) | (_ & _ & metas & tasks & _ & Hlt & Hlk & E)]].
  - done.
  - lia.
  - exists metas, tasks. split; [done|]. split.
    + intros i plan area Hi.
      destruct (Hlk i plan area Hi) as (day_index & y_list & _ & Ht). eauto.
    + intros p0 db' Hstart Hrun.
      pose proof (fanout_run_invariant _ _ _ _ _ _ _ _ _ Hstart Hrun)
        as (p & _ & (_ & _ & Hres) & Hdone & ->).
      destruct (all_done_results _ _ Hdone Hres) as [Hg _].
      rewrite E, Hg. done.
Qed.

(** * Further properties of the code *)

(** ** Day resolver *)

Lemma local_hour_range local : 0 <= local_hour local < 24.
Proof.
  unfold local_hour, us_per_day, us_per_hour.
  pose proof (Z.mod_pos_bound local (24 * 3600000000) ltac:(lia)) as Hr.
  split.
  - apply Z.div_pos; lia.
  - apply Z.div_lt_upper_bound; lia.
Qed.

(** The logical day is the calendar date of the local time moved back by the
    rollover hour (taken between 0 and 24). *)
Lemma effective_day_shift cfg now :
  let shift := Z.max 0 (Z.min 24 (DAY_ROLLOVER_HOUR cfg)) in
  effective_day cfg now
  = local_date (astimezone cfg now - shift * us_per_hour).
Proof.
  intros shift. unfold effective_day. cbv zeta.
  set (local := astimezone cfg now).
  pose proof (local_hour_range local) as Hh.
  unfold local_date, local_hour in *. unfold us_per_day, us_per_hour in *.
  pose proof (Z.div_mod local (24 * 3600000000) ltac:(lia)) as Hdm.
  pose proof (Z.mod_pos_bound local (24 * 3600000000) ltac:(lia)) as Hr.
  set (q := local / (24 * 3600000000)) in *.
  set (r := local mod (24 * 3600000000)) in *.
  pose proof (Z.div_mod r 3600000000 ltac:(lia)) as Hdm'.
  pose proof (Z.mod_pos_bound r 3600000000 ltac:(lia)) as Hr'.
  set (h := r / 3600000000) in *. set (m := r mod 3600000000) in *.
  destruct (Z.ltb_spec h (DAY_ROLLOVER_HOUR cfg)) as [Hlt|Hge].
  - assert (E : (local - shift * 3600000000) / (24 * 3600000000) = q - 1);
      [|lia].
    symmetry.
    apply (Z.div_unique _ _ _ (r - shift * 3600000000 + 24 * 3600000000)); lia.
  - assert (E : (local - shift * 3600000000) / (24 * 3600000000) = q);
      [|lia].
    symmetry.
    apply (Z.div_unique _ _ _ (r - shift * 3600000000)); lia.
Qed.

(** X1. With a rollover hour between 0 and 24, the logical day is the
    calendar date that the local clock shows once it is put back by that
    many hours: the day boundary is moved, nothing else. *)
Theorem effective_day_is_shifted_date (cfg : Config) (now : Z) :
  0 <= DAY_ROLLOVER_HOUR cfg <= 24 ->
  effective_day cfg now
  = local_date (astimezone cfg now - DAY_ROLLOVER_HOUR cfg * us_per_hour).
Proof.
  intros HR. rewrite effective_day_shift. cbv zeta.
  by replace (Z.max 0 (Z.min 24 (DAY_ROLLOVER_HOUR cfg)))
    with (DAY_ROLLOVER_HOUR cfg) by lia.
Qed.

Lemma effective_day_is_shifted_date_witness :
  effective_day Sample.cfg Sample.at_0459
  = local_date (astimezone Sample.cfg Sample.at_0459 - 5 * us_per_hour).
Proof.
  apply (effective_day_is_shifted_date Sample.cfg Sample.at_0459).
  vm_compute. split; discriminate.
Defined.

(** X2. In a zone whose offset does not change, the logical day never goes
    back as time passes, whatever the rollover hour. *)
Theorem effective_day_monotone (cfg : Config) (offset now1 now2 : Z) :
  (forall t, LOCAL_TZ cfg t = offset) ->
  now1 <= now2 ->
  effective_day cfg now1 <= effective_day cfg now2.
Proof.
  intros Hz Hle. rewrite !effective_day_shift. cbv zeta.
  unfold astimezone, local_date. rewrite !Hz.
  apply Z.add_le_mono_r, Z.div_le_mono; [done|lia].
Qed.

Lemma effective_day_monotone_witness :
  effective_day Sample.cfg Sample.at_0459
  <= effective_day Sample.cfg Sample.at_0500.
Proof.
  apply (effective_day_monotone Sample.cfg (-6 * us_per_hour)).
  - reflexivity.
  - vm_compute. discriminate.
Defined.

(** ** Action generator *)

(** X3. Whatever the focus area holds (missing, empty or blank fields
    included) and whatever the day index (negative included), the fallback
    text is not empty and has no white space at either end. *)
Theorem fallback_next_action_clean (area : FocusArea.t) (day_index : Z) :
  fallback_next_action area day_index <> []
  /\ strip (fallback_next_action area day_index)
     = fallback_next_action area day_index.
Proof.
  split.
  - apply fallback_next_action_nonempty.
  - apply strip_fallback_next_action.
Qed.

Lemma fallback_variants_distinct name base i j v w :
  fallback_variants name base !! i = Some v ->
  fallback_variants name base !! j = Some w ->
  v = w -> i = j.
Proof.
  intros Hi Hj E. apply (f_equal (take 3)) in E.
  destruct i as [|[|[|[|[|i]]]]], j as [|[|[|[|[|j]]]]];
    simpl in Hi, Hj; try done;
    injection Hi as <-; injection Hj as <-;
    vm_compute in E; discriminate E.
Qed.

(** X4. The fallback rotates over five phrasings that differ from one
    another for every focus area: two day indices get the same text exactly
    when they are equal modulo 5, so consecutive days never repeat. *)
Theorem fallback_next_action_rotation (area : FocusArea.t) (d1 d2 : Z) :
  (fallback_next_action area d1 = fallback_next_action area d2
   <-> d1 mod 5 = d2 mod 5)
  /\ fallback_next_action area d1 <> fallback_next_action area (d1 + 1).
Proof.
  assert (Hiff : forall a b,
            fallback_next_action area a = fallback_next_action area b
            <-> a mod 5 = b mod 5).
  { intros a b. unfold fallback_next_action.
    set (name := strip _). set (base := str_or _ _).
    change (Z.of_nat (length (fallback_variants name base))) with 5.
    pose proof (Z.mod_pos_bound a 5 ltac:(lia)) as Ha.
    pose proof (Z.mod_pos_bound b 5 ltac:(lia)) as Hb.
    split; [|by intros ->].
    intros E.
    assert (Hlen : length (fallback_variants name base) = 5%nat) by done.
    destruct (fallback_variants name base !! Z.to_nat (a mod 5)) as [v|] eqn:Ev;
      [|apply lookup_ge_None in Ev; rewrite Hlen in Ev; lia].
    destruct (fallback_variants name base !! Z.to_nat (b mod 5)) as [w|] eqn:Ew;
      [|apply lookup_ge_None in Ew; rewrite Hlen in Ew; lia].
    rewrite (nth_lookup_Some _ _ _ _ Ev), (nth_lookup_Some _ _ _ _ Ew) in E.
    pose proof (fallback_variants_distinct _ _ _ _ _ _ Ev Ew E). lia. }
  split; [apply Hiff|].
  intros E. apply Hiff in E.
  pose proof (Z.mod_pos_bound d1 5 ltac:(lia)) as H1.
  rewrite Z.add_mod in E by lia.
  change (1 mod 5) with 1 in E.
  destruct (decide (d1 mod 5 = 4)) as [E4|Hne].
  - rewrite E4 in E. vm_compute in E. discriminate E.
  - rewrite (Z.mod_small (d1 mod 5 + 1)) in E by lia. lia.
Qed.

Lemma until_linebreak_no_linebreak s :
  Forall (fun c => islinebreak c = false) (until_linebreak s).
Proof.
  induction s as [|c s IH]; simpl; [constructor|].
  destruct (islinebreak c) eqn:E; by constructor.
Qed.

Lemma strip_Forall (P : N -> Prop) s : Forall P s -> Forall P (strip s).
Proof.
  assert (Hl : forall t, Forall P t -> Forall P (lstrip t)).
  { intros t Ht. destruct (lstrip_suffix t) as [pre E].
    rewrite E in Ht. by apply Forall_app in Ht as [_ Ht]. }
  intros Hs. unfold strip, rstrip.
  apply Forall_rev, Hl, Forall_rev, Hl, Hs.
Qed.

(** X5. When the service answers with a first choice that is not blank, the
    generator returns the first line of that answer, trimmed: one non-empty
    line, without any line break. *)
Theorem generate_next_action_with_ai_first_line
    (create : Request -> Reply) (plan : Plan.t) (area : FocusArea.t)
    (y_list : list DailyAction.t) (day_index : Z) (content : option pystr)
    (others : list (option pystr)) :
  (forall request, create request = Choices (content :: others)) ->
  strip (get_or content []) <> [] ->
  let text := strip (until_linebreak (strip (get_or content []))) in
  generate_next_action_with_ai (Some create) plan area y_list day_index
  = Returns text
  /\ text <> []
  /\ Forall (fun c => islinebreak c = false) text.
Proof.
  intros Hreply Hne text.
  destruct (strip_result_solid _ Hne) as [Hsolid _].
  split; [|split].
  - subst text. unfold generate_next_action_with_ai, chat_completions_create.
    rewrite Hreply. simpl.
    by destruct (strip (get_or content [])) as [|c w].
  - by apply strip_first_line_nonempty.
  - apply strip_Forall, until_linebreak_no_linebreak.
Qed.

Lemma generate_next_action_with_ai_first_line_witness :
  generate_next_action_with_ai
    (Some (Sample.flaky_client 1%nat)) Sample.plan1
    (Sample.area "Career" None None) [] 3
  = Returns (lit "Walk 20 minutes").
Proof.
  destruct (generate_next_action_with_ai_first_line
              (Sample.flaky_client 1%nat) Sample.plan1
              (Sample.area "Career" None None) [] 3
              (Some (lit "  Walk 20 minutes " ++ [10%N] ++ lit "then rest"))
              []) as (E & _ & _).
  - reflexivity.
  - by vm_compute.
  - exact E.
Defined.

(** ** Rollover engine *)

(** X6. The rollover only appends: the plans and the rows already stored are
    kept as they are, and every row it adds belongs to the user, is dated
    today, is not completed, is rescheduled from yesterday, and has the plan,
    focus area and text of an incomplete row of the user dated yesterday.
    So it never copies a completed action, an action of another day or of
    another user. *)
Theorem rollover_appends_copies (cfg : Config) (now : Z)
    (uuid4 : nat -> pystr) (db : Db) (user_id : pystr) :
  let today := effective_day cfg now in
  let db' := reschedule_incomplete_actions cfg now uuid4 db user_id in
  plans db' = plans db
  /\ exists to_add,
      daily_actions db' = daily_actions db ++ to_add
      /\ forall c, c ∈ to_add ->
           DailyAction.user_id c = user_id
           /\ DailyAction.day c = today
           /\ DailyAction.completed c = false
           /\ DailyAction.completed_at c = None
           /\ DailyAction.rescheduled_from c = Some (today - 1)
           /\ exists a, a ∈ daily_actions db
                /\ is_incomplete user_id (today - 1) a
                /\ carry_key c = carry_key a.
Proof.
  intros today db'. subst db'.
  rewrite reschedule_incomplete_actions_eq. cbv zeta. fold today.
  destruct (already_carried user_id today (today - 1) db).
  - split; [done|]. exists []. split; [by rewrite app_nil_r|].
    intros c Hc. by apply elem_of_nil in Hc.
  - split; [done|]. eexists. split; [reflexivity|].
    intros c (i & a & -> & Hi)%elem_of_lookup_imap.
    apply list_elem_of_lookup_2, list_elem_of_filter in Hi as [_ Ha].
    apply list_elem_of_filter in Ha as [Hinc Ha].
    destruct Hinc as (Hu & Hd & Hc).
    repeat split; try done. exists a. by repeat split.
Qed.

Lemma filter_all {A} (P : A -> Prop) `{forall x, Decision (P x)} (l : list A) :
  (forall x, x ∈ l -> P x) -> filter P l = l.
Proof.
  intros Hall. induction l as [|x l IH]; [done|].
  rewrite filter_cons_True by (apply Hall; left).
  f_equal. apply IH. intros y Hy. apply Hall. by right.
Qed.

(** X7. When the user has no row yet that is dated today and rescheduled
    from yesterday, the rollover appends exactly one copy per incomplete row
    of yesterday, in the order of the store, with the ids of the supply in
    order. *)
Theorem rollover_first_run_exact (cfg : Config) (now : Z)
    (uuid4 : nat -> pystr) (db : Db) (user_id : pystr) :
  let today := effective_day cfg now in
  (forall b, b ∈ daily_actions db -> ~ is_carried user_id today (today - 1) b) ->
  daily_actions (reschedule_incomplete_actions cfg now uuid4 db user_id)
  = daily_actions db
      ++ imap (fun i a => carried_copy today (today - 1) (uuid4 i) a)
              (filter (is_incomplete user_id (today - 1)) (daily_actions db)).
Proof.
  intros today Hnone.
  rewrite reschedule_incomplete_actions_eq. cbv zeta. fold today.
  assert (Hf : filter (is_carried user_id today (today - 1)) (daily_actions db)
               = []) by (by apply filter_none).
  unfold already_carried. rewrite Hf. cbn [head add_all daily_actions].
  do 2 f_equal.
  apply filter_all. intros a _. apply not_elem_of_empty.
Qed.

Lemma rollover_first_run_exact_witness :
  length
    (daily_actions
       (reschedule_incomplete_actions Sample.cfg Sample.at_0600 Sample.uuids
          Sample.rollover_db Sample.user)) = 5%nat.
Proof.
  rewrite (rollover_first_run_exact Sample.cfg Sample.at_0600 Sample.uuids
             Sample.rollover_db Sample.user).
  - reflexivity.
  - intros b Hb (_ & Hd & _). vm_compute in Hb.
    repeat (apply elem_of_cons in Hb as [-> | Hb]);
      try (vm_compute in Hd; discriminate Hd).
    by apply elem_of_nil in Hb.
Defined.

(** X8. The rollover keeps the de-duplication invariant: when no two rows
    of the store agree on user, plan, focus area, day, [rescheduled_from]
    and text all at once, and the incomplete rows of yesterday differ from
    one another in plan, focus area or text, then no two rows of the store
    after the rollover agree on these six fields either.  (Two rows that
    differ in [rescheduled_from] only, a carried copy and a fresh action
    with the same text, are not duplicates in this sense.) *)
Theorem rollover_keeps_no_duplicates (cfg : Config) (now : Z)
    (uuid4 : nat -> pystr) (db : Db) (user_id : pystr) :
  let today := effective_day cfg now in
  no_duplicate_rows db ->
  NoDup (carry_key <$> filter (is_incomplete user_id (today - 1))
                              (daily_actions db)) ->
  no_duplicate_rows (reschedule_incomplete_actions cfg now uuid4 db user_id).
Proof.
  intros today Hdb Hkeys.
  rewrite reschedule_incomplete_actions_eq. cbv zeta. fold today.
  destruct (already_carried user_id today (today - 1) db); [done|].
  set (existing_keys := list_to_set _ : gset (pystr * pystr * pystr)).
  set (rows := filter (is_incomplete user_id (today - 1)) (daily_actions db))
    in *.
  set (fresh := filter (fun a => carry_key a ∉ existing_keys) rows).
  assert (Hfresh : NoDup (carry_key <$> fresh)).
  { eapply sublist_NoDup; [exact Hkeys|].
    apply fmap_sublist, sublist_filter. }
  assert (Hnew : forall k c,
            imap (fun i a => carried_copy today (today - 1) (uuid4 i) a) fresh
              !! k = Some c ->
            exists a, fresh !! k = Some a
                      /\ c = carried_copy today (today - 1) (uuid4 k) a).
  { intros k c Hk. rewrite list_lookup_imap in Hk.
    destruct (fresh !! k) as [a|]; [|done]. injection Hk as <-. eauto. }
  assert (Hclash : forall a c k x,
            daily_actions db !! k = Some a ->
            fresh !! x = Some c ->
            DailyAction.user_id a = DailyAction.user_id c ->
            DailyAction.day a = today ->
            DailyAction.rescheduled_from a = Some (today - 1) ->
            carry_key a = carry_key c -> False).
  { intros a c k x Ha Hc Hu Hd Hr Hk.
    apply list_elem_of_lookup_2, list_elem_of_filter in Hc as [Hno Hc].
    apply list_elem_of_filter in Hc as [(Hcu & _) _].
    apply Hno. rewrite <- Hk. subst existing_keys.
    apply elem_of_list_to_set, list_elem_of_fmap. exists a. split; [done|].
    apply list_elem_of_filter. split; [|by eapply list_elem_of_lookup_2].
    split; [congruence|done]. }
  intros i j a b Hi Hj Hu Hp Hf Hd Hr Ha.
  cbn [add_all daily_actions] in Hi, Hj.
  apply lookup_app_Some in Hi as [Hi | [Hli Hi]];
    apply lookup_app_Some in Hj as [Hj | [Hlj Hj]].
  - by eapply Hdb.
  - exfalso. apply Hnew in Hj as (b' & Hb' & ->). simpl in *.
    eapply (Hclash a b'); eauto. unfold carry_key. by rewrite Hp, Hf, Ha.
  - exfalso. apply Hnew in Hi as (a' & Ha' & ->). simpl in *.
    eapply (Hclash b a'); eauto. unfold carry_key. by rewrite Hp, Hf, Ha.
  - apply Hnew in Hi as (a' & Ha' & ->). apply Hnew in Hj as (b' & Hb' & ->).
    simpl in *.
    assert (E : (i - length (daily_actions db))%nat
                = (j - length (daily_actions db))%nat).
    { eapply (NoDup_lookup _ _ _ (carry_key a') Hfresh).
      - by rewrite list_lookup_fmap, Ha'.
      - rewrite list_lookup_fmap, Hb'. simpl. unfold carry_key.
        by rewrite Hp, Hf, Ha. }
    lia.
Qed.

Lemma rollover_keeps_no_duplicates_witness :
  no_duplicate_rows
    (reschedule_incomplete_actions Sample.cfg Sample.at_0600 Sample.uuids
       Sample.rollover_db Sample.user).
Proof.
  apply (rollover_keeps_no_duplicates Sample.cfg Sample.at_0600 Sample.uuids
           Sample.rollover_db Sample.user).
  - intros i j a b Hi Hj _ _ _ _ _ Ha.
    destruct i as [|[|[|i]]], j as [|[|[|j]]]; try done;
      vm_compute in Hi, Hj; simplify_eq; vm_compute in Ha; discriminate Ha.
  - apply (bool_decide_unpack _). by vm_compute.
Defined.

(** ** Fresh-action engine *)

(** X9. When the engine returns, every active plan of the user that has at
    least one focus area has a fresh action dated today in the store. *)
Theorem ensure_fresh_actions_postcondition (cfg : Config) (now : Z)
    (client : option Client) (uuid4 : nat -> pystr) (db db1 : Db)
    (user_id : pystr) :
  ensure_fresh_actions_for_today cfg now client uuid4 db user_id = Returns db1 ->
  let today := effective_day cfg now in
  forall p, p ∈ plans db1 -> is_active_plan user_id p ->
    Plan.focus_areas p <> [] ->
    exists a, a ∈ daily_actions db1
      /\ DailyAction.user_id a = user_id
      /\ DailyAction.day a = today
      /\ DailyAction.rescheduled_from a = None
      /\ DailyAction.plan_id a = Plan.id p.
Proof.
  intros Hret today p Hp Hact Hareas.
  destruct (ensure_fresh_actions_for_today_rows cfg now client uuid4 db
              user_id db1 Hret) as (Hplans & new_rows & Hrows & Hlen & Hlk).
  fold today in Hlen, Hlk. rewrite Hplans in Hp. rewrite Hrows.
  set (active := filter (is_active_plan user_id) (plans db)).
  set (existing := (list_to_set
         (DailyAction.plan_id
            <$> filter (is_fresh_today user_id today (Plan.id <$> active))
                       (daily_actions db)) : gset pystr)).
  destruct (decide (Plan.id p ∈ existing)) as [Hin|Hout].
  - apply elem_of_list_to_set, list_elem_of_fmap in Hin as (a & Hid & Ha).
    apply list_elem_of_filter in Ha as [(Hu & Hd & Hr & _) Ha].
    exists a. split; [apply elem_of_app; by left|done].
  - assert (Hlack : p ∈ plans_lacking_fresh db user_id today).
    { unfold plans_lacking_fresh. cbv zeta. apply list_elem_of_filter.
      split; [done|]. by apply list_elem_of_filter. }
    destruct (Plan.focus_areas p) as [|area areas] eqn:Ea; [done|].
    assert (Hpair : (p, area) ∈ pairs_to_generate
                      (plans_lacking_fresh db user_id today)).
    { apply elem_of_pairs_to_generate. split; [done|]. rewrite Ea. left. }
    apply list_elem_of_lookup in Hpair as [i Hi].
    destruct (Hlk i p area Hi)
      as (r & Hr & _ & Hu & Hpid & _ & Hd & _ & _ & Hf & _).
    exists r. split; [|done].
    apply elem_of_app. right. by eapply list_elem_of_lookup_2.
Qed.

Lemma ensure_fresh_actions_postcondition_witness :
  exists a,
    DailyAction.plan_id a = lit "p1"
    /\ DailyAction.rescheduled_from a = None
    /\ DailyAction.day a = Sample.today.
Proof.
  destruct (ensure_fresh_actions_for_today Sample.cfg Sample.at_0600 None
              Sample.uuids Sample.fresh_db Sample.user) as [db1| |] eqn:E;
    [|discriminate E..].
  destruct (ensure_fresh_actions_postcondition Sample.cfg Sample.at_0600 None
              Sample.uuids Sample.fresh_db db1 Sample.user E Sample.plan1)
    as (a & _ & _ & Hd & Hr & Hp).
  - vm_compute in E. injection E as <-. left.
  - by split.
  - done.
  - exists a. by repeat split.
Defined.

(** X10. The concurrency limit at its edges.  When no active plan lacks a
    fresh action the engine returns the store untouched whatever the limit.
    Otherwise a negative limit makes it raise [ValueError] (with or without a
    client), and a limit of 0 with a configured client makes it wait for
    ever as soon as there is one focus area to generate for, while without a
    client the limit of 0 does no harm. *)
Theorem ensure_fresh_actions_limit_edges (cfg : Config) (now : Z)
    (client : option Client) (uuid4 : nat -> pystr) (db : Db)
    (user_id : pystr) :
  let today := effective_day cfg now in
  let lacking := plans_lacking_fresh db user_id today in
  let run := ensure_fresh_actions_for_today cfg now client uuid4 db user_id in
  (lacking = [] -> run = Returns db)
  /\ (lacking <> [] -> AI_MAX_CONCURRENCY cfg < 0 -> run = Raises ValueError)
  /\ (pairs_to_generate lacking <> [] -> AI_MAX_CONCURRENCY cfg = 0 ->
      is_Some client -> run = Blocks)
  /\ (AI_MAX_CONCURRENCY cfg = 0 -> client = None ->
      exists db1, run = Returns db1).
Proof.
  intros today lacking run. subst run.
  pose proof (ensure_fresh_actions_for_today_cases cfg now client uuid4 db
                user_id) as Hcases.
  cbv zeta in Hcases. fold today in Hcases. fold lacking in Hcases.
  split; [|split; [|split]].
  - intros Hnil.
    destruct Hcases as [[_ E] | [(Hne & _) | (Hne & _)]]; done.
  - intros Hne Hneg.
    destruct Hcases as [[Hnil _] | [(_ & _ & E) | (_ & Hpos & _)]];
      [done|done|lia].
  - intros Hpairs H0 [c ->].
    destruct Hcases
      as [[Hnil _] | [(_ & Hneg & _) | (_ & _ & metas & tasks & _ & Hlt & Hlk & E)]].
    + by rewrite Hnil in Hpairs.
    + lia.
    + rewrite E.
      destruct (pairs_to_generate lacking) as [|[plan area] rest] eqn:Ep;
        [done|].
      destruct (Hlk 0%nat plan area eq_refl) as (day_index & y_list & _ & Ht).
      destruct tasks as [|t tasks]; [done|]. simpl in Ht. injection Ht as ->.
      unfold gen_one. simpl. by rewrite H0.
  - intros H0 ->.
    destruct Hcases
      as [[_ E] | [(_ & Hneg & _) | (_ & _ & metas & tasks & _ & Hlt & Hlk & E)]].
    + eauto.
    + lia.
    + rewrite E. destruct (gather_returns tasks) as [results ->]; [|simpl; eauto].
      apply Forall_lookup. intros i t Ht.
      assert (Hi : (i < length tasks)%nat) by (by eapply lookup_lt_Some).
      rewrite Hlt in Hi. apply lookup_lt_is_Some in Hi as [[plan area] Hi].
      destruct (Hlk i plan area Hi) as (day_index & y_list & _ & Ht').
      rewrite Ht' in Ht. by injection Ht as <-.
Qed.

Lemma ensure_fresh_actions_limit_edges_witness :
  ensure_fresh_actions_for_today More.cfg_negative Sample.at_0600 None
    Sample.uuids Sample.fresh_db Sample.user = Raises ValueError
  /\ ensure_fresh_actions_for_today More.cfg_zero Sample.at_0600
       (Some More.steady_client) Sample.uuids Sample.fresh_db Sample.user
     = Blocks.
Proof.
  split.
  - destruct (ensure_fresh_actions_limit_edges More.cfg_negative
                Sample.at_0600 None Sample.uuids Sample.fresh_db Sample.user)
      as (_ & H & _).
    apply H; by vm_compute.
  - destruct (ensure_fresh_actions_limit_edges More.cfg_zero
                Sample.at_0600 (Some More.steady_client) Sample.uuids
                Sample.fresh_db Sample.user)
      as (_ & _ & H & _).
    apply H; [by vm_compute|reflexivity|by eexists].
Defined.

(** ** GET /daily/today *)

Lemma reschedule_added_rows cfg now uuid4 db user_id :
  let today := effective_day cfg now in
  exists to_add,
    reschedule_incomplete_actions cfg now uuid4 db user_id = add_all db to_add
    /\ forall c, c ∈ to_add ->
         DailyAction.user_id c = user_id /\ DailyAction.day c = today
         /\ DailyAction.completed c = false
         /\ DailyAction.rescheduled_from c = Some (today - 1).
Proof.
  intros today. rewrite reschedule_incomplete_actions_eq. cbv zeta. fold today.
  destruct (already_carried user_id today (today - 1) db).
  - exists []. split; [by rewrite add_all_nil|].
    intros c Hc. by apply elem_of_nil in Hc.
  - eexists. split; [reflexivity|].
    intros c (i & a & -> & Hi)%elem_of_lookup_imap.
    apply list_elem_of_lookup_2, list_elem_of_filter in Hi as [_ Ha].
    by apply list_elem_of_filter in Ha as [(Hu & _) _].
Qed.

Lemma ensure_fresh_new_rows cfg now client uuid4 db user_id db1 :
  ensure_fresh_actions_for_today cfg now client uuid4 db user_id = Returns db1 ->
  exists new_rows,
    db1 = add_all db new_rows
    /\ forall r, r ∈ new_rows ->
         DailyAction.user_id r = user_id
         /\ DailyAction.day r = effective_day cfg now
         /\ DailyAction.completed r = false
         /\ DailyAction.rescheduled_from r = None.
Proof.
  intros Hret.
  destruct (ensure_fresh_actions_for_today_rows cfg now client uuid4 db
              user_id db1 Hret) as (Hplans & new_rows & Hrows & Hlen & Hlk).
  exists new_rows. split.
  { destruct db1. unfold add_all. simpl in *. by subst. }
  intros r [i Hi]%list_elem_of_lookup.
  assert (Hlt : (i < length (pairs_to_generate
                   (plans_lacking_fresh db user_id (effective_day cfg now))))%nat).
  { rewrite <- Hlen. by eapply lookup_lt_Some. }
  apply lookup_lt_is_Some in Hlt as [[plan area] Hpair].
  destruct (Hlk i plan area Hpair)
    as (r' & Hr' & _ & Hu & _ & _ & Hd & Hc & _ & Hf & _).
  rewrite Hi in Hr'. by injection Hr' as <-.
Qed.

(** A rollover that follows a rollover of the same day, with fresh rows of
    that day added in between, finds nothing to do. *)
Lemma reschedule_after_run cfg now1 now2 uuid4 uuid4' db user_id xs :
  effective_day cfg now1 = effective_day cfg now2 ->
  (forall x, x ∈ xs -> DailyAction.day x = effective_day cfg now1
                       /\ DailyAction.rescheduled_from x = None) ->
  let db1 := reschedule_incomplete_actions cfg now1 uuid4 db user_id in
  reschedule_incomplete_actions cfg now2 uuid4' (add_all db1 xs) user_id
  = add_all db1 xs.
Proof.
  intros Hday Hxs db1.
  rewrite (reschedule_incomplete_actions_eq cfg now2). cbv zeta.
  rewrite <- Hday. set (today := effective_day cfg now1) in *.
  assert (Hcar : filter (is_carried user_id today (today - 1)) xs = []).
  { apply filter_none. intros x Hx (_ & _ & Hr).
    destruct (Hxs x Hx) as [_ Hn]. congruence. }
  assert (Hinc : filter (is_incomplete user_id (today - 1)) xs = []).
  { apply filter_none. intros x Hx (_ & Hd & _).
    destruct (Hxs x Hx) as [Hd' _]. lia. }
  assert (Hguard : already_carried user_id today (today - 1) (add_all db1 xs)
                   = already_carried user_id today (today - 1) db1).
  { unfold already_carried. cbn [add_all daily_actions].
    by rewrite filter_app, Hcar, app_nil_r. }
  rewrite Hguard.
  destruct (already_carried user_id today (today - 1) db1) eqn:Eg; [done|].
  rewrite <- (add_all_nil (add_all db1 xs)) at 3. f_equal.
  cbn [add_all daily_actions].
  rewrite !filter_app, Hcar, Hinc, !app_nil_r.
  match goal with
  | |- context [imap _ ?l] => assert (Hnil : l = []); [|by rewrite Hnil]
  end.
  apply filter_none. intros a Ha Hk. apply Hk. clear Hk.
  pose proof (reschedule_incomplete_actions_eq cfg now1 uuid4 db user_id)
    as Honce.
  cbv zeta in Honce. fold today in Honce. fold db1 in Honce.
  clearbody db1.
  destruct (already_carried user_id today (today - 1) db) eqn:Eg1.
  - subst db1. rewrite Eg1 in Eg. discriminate Eg.
  - subst db1. revert Ha. cbn [add_all daily_actions].
    apply reschedule_covers_keys.
Qed.

(** A run of the engine that follows a run of the same day finds nothing to
    generate. *)
Lemma ensure_fresh_second_run cfg now1 now2 client1 client2 uuid4 uuid4'
    db db1 user_id :
  effective_day cfg now1 = effective_day cfg now2 ->
  ensure_fresh_actions_for_today cfg now1 client1 uuid4 db user_id
  = Returns db1 ->
  ensure_fresh_actions_for_today cfg now2 client2 uuid4' db1 user_id
  = Returns db1.
Proof.
  intros Hday Hret. set (today := effective_day cfg now1) in *.
  destruct (ensure_fresh_actions_for_today_rows cfg now1 client1 uuid4 db
              user_id db1 Hret) as (Hplans & new_rows & Hrows & Hlen & Hlk).
  fold today in Hlen, Hlk.
  assert (Hsub : forall p, p ∈ plans_lacking_fresh db1 user_id today ->
                   p ∈ plans_lacking_fresh db user_id today
                   /\ Plan.focus_areas p = []).
  { intros p (Hin & Hact & Hno)%plans_lacking_fresh_elem.
    rewrite Hplans in Hin.
    assert (Hp : p ∈ plans_lacking_fresh db user_id today).
    { apply plans_lacking_fresh_elem. split; [done|]. split; [done|].
      intros (a & Ha & Hrest). apply Hno. exists a. split; [|done].
      rewrite Hrows. apply elem_of_app. by left. }
    split; [done|].
    destruct (Plan.focus_areas p) as [|area areas] eqn:Ea; [done|].
    exfalso. apply Hno.
    assert (Hpair : (p, area) ∈ pairs_to_generate
                      (plans_lacking_fresh db user_id today)).
    { apply elem_of_pairs_to_generate. split; [done|]. rewrite Ea. left. }
    apply list_elem_of_lookup in Hpair as [i Hi].
    destruct (Hlk i p area Hi)
      as (r & Hr & _ & Hu & Hpid & _ & Hd & _ & _ & Hf & _).
    exists r. split; [|done]. rewrite Hrows. apply elem_of_app. right.
    by eapply list_elem_of_lookup_2. }
  assert (Hnil : pairs_to_generate (plans_lacking_fresh db1 user_id today) = []).
  { destruct (pairs_to_generate (plans_lacking_fresh db1 user_id today))
      as [|[plan area] rest] eqn:E; [done|].
    assert (Hin : (plan, area) ∈ pairs_to_generate
                    (plans_lacking_fresh db1 user_id today))
      by (rewrite E; left).
    apply elem_of_pairs_to_generate in Hin as [Hp Ha].
    apply Hsub in Hp as [_ Hp]. rewrite Hp in Ha. by apply elem_of_nil in Ha. }
  pose proof (ensure_fresh_actions_for_today_cases cfg now2 client2 uuid4'
                db1 user_id) as Hcases.
  cbv zeta in Hcases. rewrite <- Hday in Hcases. fold today in Hcases.
  rewrite Hnil in Hcases.
  destruct Hcases
    as [[_ E] | [(Hne & Hneg & _) | (_ & _ & metas & tasks & Hlm & Hlt & _ & E)]].
  - done.
  - exfalso.
    assert (Hp : exists p, p ∈ plans_lacking_fresh db1 user_id today).
    { destruct (plans_lacking_fresh db1 user_id today) as [|p ps]; [done|].
      exists p. left. }
    destruct Hp as [p [Hp _]%Hsub].
    pose proof (ensure_fresh_actions_for_today_cases cfg now1 client1 uuid4
                  db user_id) as Hfirst.
    cbv zeta in Hfirst. fold today in Hfirst.
    destruct Hfirst as [[Hn _] | [(_ & _ & E) | (_ & Hpos & _)]].
    + rewrite Hn in Hp. by apply elem_of_nil in Hp.
    + rewrite E in Hret. discriminate Hret.
    + lia.
  - rewrite E. apply length_zero_iff_nil in Hlt, Hlm. subst tasks metas.
    simpl. by rewrite add_all_nil.
Qed.

(** X11. Viewing today twice gives the same answer and leaves the store of
    the first view: when a first call returns, a second call on the same
    logical day returns the same store and the same rows, whatever the
    service answers and whichever ids are drawn.  The rows returned are the
    rows of the user dated today in that store. *)
Theorem today_actions_idempotent (cfg : Config)
    (now now_r now_f now' now_r' now_f' : Z) (client client' : option Client)
    (ur uf ur' uf' : nat -> pystr) (db db2 : Db) (user_id : pystr)
    (rows : list DailyAction.t) :
  effective_day cfg now_r = effective_day cfg now ->
  effective_day cfg now_f = effective_day cfg now ->
  effective_day cfg now' = effective_day cfg now ->
  effective_day cfg now_r' = effective_day cfg now ->
  effective_day cfg now_f' = effective_day cfg now ->
  today_actions cfg now now_r now_f client ur uf db user_id
  = Returns (db2, rows) ->
  today_actions cfg now' now_r' now_f' client' ur' uf' db2 user_id
  = Returns (db2, rows)
  /\ rows = filter (fun a => DailyAction.user_id a = user_id
                             ∧ DailyAction.day a = effective_day cfg now)
                   (daily_actions db2).
Proof.
  intros Hr Hf Hn' Hr' Hf' Hcall. unfold today_actions in *.
  destruct (ensure_fresh_actions_for_today cfg now_f client uf _ user_id)
    as [db2'| |] eqn:E; simpl in Hcall; [|done..].
  injection Hcall as <- <-. split; [|done].
  destruct (ensure_fresh_new_rows _ _ _ _ _ _ _ E) as (new_rows & Hdb2 & Hnew).
  assert (Hroll :
    reschedule_incomplete_actions cfg now_r' ur' db2' user_id = db2').
  { rewrite Hdb2. apply reschedule_after_run; [congruence|].
    intros x Hx. destruct (Hnew x Hx) as (_ & Hd & _ & Hn). split; congruence. }
  rewrite Hroll.
  rewrite (ensure_fresh_second_run cfg now_f now_f' client client' uf uf'
             _ db2' user_id ltac:(congruence) E).
  simpl. by rewrite Hn'.
Qed.

Lemma today_actions_idempotent_witness :
  exists db2 rows,
    today_actions Sample.cfg Sample.at_0600 Sample.at_0600 Sample.at_0600
      None Sample.uuids Sample.uuids Sample.fresh_db Sample.user
    = Returns (db2, rows)
    /\ length rows = 3%nat
    /\ today_actions Sample.cfg (Sample.at_0600 + us_per_hour)
         (Sample.at_0600 + us_per_hour) (Sample.at_0600 + us_per_hour)
         (Some Sample.flaky_client) (fun _ => lit "r") (fun _ => lit "f")
         db2 Sample.user
       = Returns (db2, rows).
Proof.
  destruct (today_actions Sample.cfg Sample.at_0600 Sample.at_0600
              Sample.at_0600 None Sample.uuids Sample.uuids Sample.fresh_db
              Sample.user) as [[db2 rows]| |] eqn:E; [|discriminate E..].
  exists db2, rows. split; [done|]. split.
  - vm_compute in E. injection E as <- <-. reflexivity.
  - by apply (today_actions_idempotent Sample.cfg Sample.at_0600
                Sample.at_0600 Sample.at_0600 _ _ _ None _ Sample.uuids
                Sample.uuids _ _ Sample.fresh_db).
Defined.

(** X12. Viewing today only appends rows of the viewer: the plans and the
    stored rows are kept as they are, every added row belongs to the user
    and is not completed, and every row of the answer is a stored row of the
    user dated on the logical day of the request. *)
Theorem today_actions_appends_own_rows (cfg : Config) (now now_r now_f : Z)
    (client : option Client) (ur uf : nat -> pystr) (db db2 : Db)
    (user_id : pystr) (rows : list DailyAction.t) :
  today_actions cfg now now_r now_f client ur uf db user_id
  = Returns (db2, rows) ->
  plans db2 = plans db
  /\ (exists added,
        daily_actions db2 = daily_actions db ++ added
        /\ forall c, c ∈ added ->
             DailyAction.user_id c = user_id
             /\ DailyAction.completed c = false)
  /\ forall r, r ∈ rows ->
       r ∈ daily_actions db2 /\ DailyAction.user_id r = user_id
       /\ DailyAction.day r = effective_day cfg now.
Proof.
  intros Hcall. unfold today_actions in Hcall.
  destruct (ensure_fresh_actions_for_today cfg now_f client uf _ user_id)
    as [db2'| |] eqn:E; simpl in Hcall; [|done..].
  injection Hcall as <- <-.
  destruct (ensure_fresh_new_rows _ _ _ _ _ _ _ E) as (new_rows & -> & Hnew).
  destruct (reschedule_added_rows cfg now_r ur db user_id)
    as (to_add & -> & Hadd).
  split; [done|]. split.
  - exists (to_add ++ new_rows).
    split; [cbn [add_all daily_actions]; by rewrite <- app_assoc|].
    intros c [Hc|Hc]%elem_of_app.
    + by destruct (Hadd c Hc) as (? & _ & ? & _).
    + by destruct (Hnew c Hc) as (? & _ & ? & _).
  - intros r [[Hu Hd] Hr]%list_elem_of_filter. done.
Qed.

Lemma today_actions_appends_own_rows_witness :
  exists db2 rows,
    today_actions Sample.cfg Sample.at_0600 Sample.at_0600 Sample.at_0600
      None Sample.uuids Sample.uuids Sample.fresh_db Sample.user
    = Returns (db2, rows)
    /\ plans db2 = plans Sample.fresh_db.
Proof.
  destruct (today_actions Sample.cfg Sample.at_0600 Sample.at_0600
              Sample.at_0600 None Sample.uuids Sample.uuids Sample.fresh_db
              Sample.user) as [[db2 rows]| |] eqn:E; [|discriminate E..].
  exists db2, rows. split; [done|].
  by destruct (today_actions_appends_own_rows _ _ _ _ _ _ _ _ _ _ _ E)
    as (H & _).
Defined.

(** ** Goal analysis *)

Lemma find_from_absent c s i : c ∉ s -> find_from c s i = -1.
Proof.
  revert i. induction s as [|x s IH]; intros i Hc; simpl; [done|].
  apply not_elem_of_cons in Hc as [Hx Hc].
  destruct (N.eqb_spec x c); [congruence|]. by apply IH.
Qed.

Lemma find_from_first c pre rest i :
  c ∉ pre -> find_from c (pre ++ c :: rest) i = i + Z.of_nat (length pre).
Proof.
  revert i. induction pre as [|x pre IH]; intros i Hc; simpl.
  - rewrite N.eqb_refl. lia.
  - apply not_elem_of_cons in Hc as [Hx Hc].
    destruct (N.eqb_spec x c); [congruence|]. rewrite IH by done. lia.
Qed.

Lemma rfind_from_absent c s i last : c ∉ s -> rfind_from c s i last = last.
Proof.
  revert i last. induction s as [|x s IH]; intros i last Hc; simpl; [done|].
  apply not_elem_of_cons in Hc as [Hx Hc].
  destruct (N.eqb_spec x c); [congruence|]. by apply IH.
Qed.

Lemma rfind_from_last c pre post i last :
  c ∉ post ->
  rfind_from c (pre ++ c :: post) i last = i + Z.of_nat (length pre).
Proof.
  revert i last. induction pre as [|x pre IH]; intros i last Hc; simpl.
  - rewrite N.eqb_refl, rfind_from_absent by done. lia.
  - rewrite IH by done. lia.
Qed.

(** X13. From the answer of the service only the text from its first opening
    brace to its last closing brace is handed to the JSON reader, whatever
    stands before and after; if the reader raises, or if the text has no
    opening brace or no closing brace, the result is the analysis with an
    empty list of focus areas.  No failure reaches the caller. *)
Theorem extract_json_object_braces (loads : pystr -> option Analysis)
    (text : pystr) :
  (forall before inner after,
     text = before ++ [123%N] ++ inner ++ [125%N] ++ after ->
     123%N ∉ before -> 125%N ∉ after ->
     extract_json_object loads text
     = default empty_analysis (loads ([123%N] ++ inner ++ [125%N])))
  /\ (123%N ∉ text \/ 125%N ∉ text ->
      extract_json_object loads text = empty_analysis).
Proof.
  split.
  - intros before inner after -> Hb Ha. unfold extract_json_object, find, rfind.
    cbv zeta.
    change (before ++ [123%N] ++ inner ++ [125%N] ++ after)
      with (before ++ 123%N :: inner ++ 125%N :: after).
    rewrite find_from_first by done.
    replace (before ++ 123%N :: inner ++ 125%N :: after)
      with ((before ++ 123%N :: inner) ++ 125%N :: after)
      by (by rewrite <- app_assoc).
    rewrite rfind_from_last by done.
    rewrite length_app. simpl length.
    destruct (Z.eqb_spec (0 + Z.of_nat (length before)) (-1)); [lia|].
    destruct (Z.leb_spec
                (0 + Z.of_nat (length before + S (length inner)) + 1)
                (0 + Z.of_nat (length before))); [lia|].
    simpl orb. cbv iota.
    assert (Hslice :
      slice ((before ++ 123%N :: inner) ++ 125%N :: after)
            (0 + Z.of_nat (length before))
            (0 + Z.of_nat (length before + S (length inner)) + 1)
      = [123%N] ++ inner ++ [125%N]).
    { unfold slice.
      replace (Z.to_nat (0 + Z.of_nat (length before))) with (length before)
        by lia.
      replace (Z.to_nat (0 + Z.of_nat (length before + S (length inner)) + 1
                         - (0 + Z.of_nat (length before))))
        with (length ([123%N] ++ inner ++ [125%N]))
        by (rewrite !length_app; simpl; lia).
      rewrite <- app_assoc, drop_app_length.
      replace ((123%N :: inner) ++ 125%N :: after)
        with (([123%N] ++ inner ++ [125%N]) ++ after)
        by (simpl; by rewrite <- app_assoc).
      apply take_app_length. }
    rewrite Hslice. by destruct (loads _).
  - intros [Hno|Hno]; unfold extract_json_object, find, rfind; cbv zeta.
    + by rewrite find_from_absent.
    + rewrite rfind_from_absent by done.
      destruct (find_from 123 text 0 =? -1) eqn:E1; [done|].
      destruct (Z.leb_spec (-1 + 1) (find_from 123 text 0)) as [|Hlt]; [done|].
      exfalso. apply Z.eqb_neq in E1.
      assert (Hge : forall s i, 0 <= i ->
                find_from 123 s i = -1 \/ i <= find_from 123 s i).
      { clear. induction s as [|x s IH]; intros i Hi; simpl; [by left|].
        destruct (x =? 123)%N; [right; lia|].
        destruct (IH (i + 1) ltac:(lia)); [by left|right; lia]. }
      destruct (Hge text 0 ltac:(lia)); lia.
Qed.

Lemma extract_json_object_braces_witness :
  extract_json_object (fun _ => None)
    (lit "Here you go: {" ++ lit "oops" ++ lit "} Enjoy")
  = empty_analysis.
Proof.
  destruct (extract_json_object_braces (fun _ => None)
              (lit "Here you go: {" ++ lit "oops" ++ lit "} Enjoy"))
    as [H _].
  rewrite (H (lit "Here you go: ") (lit "oops") (lit " Enjoy")).
  - reflexivity.
  - reflexivity.
  - by apply (bool_decide_unpack _).
  - by apply (bool_decide_unpack _).
Defined.

Lemma fallback_focus_areas_shape text timeline :
  exists members value,
    fallback_focus_areas text timeline = JObj members
    /\ members_get members (lit "focus_areas") = Some value
    /\ json_truthy value = true.
Proof.
  unfold fallback_focus_areas. eexists _, _. split; [reflexivity|].
  cbn [members_get]. rewrite decide_True by done. by split.
Qed.

Lemma analyze_goal_with_ai_shape client loads text images timeline :
  exists members value,
    analyze_goal_with_ai client loads text images timeline
    = Returns (JObj members)
    /\ members_get members (lit "focus_areas") = Some value
    /\ json_truthy value = true.
Proof.
  destruct (fallback_focus_areas_shape text timeline)
    as (fm & fv & Hfe & Hfg & Hft).
  unfold analyze_goal_with_ai. cbv zeta. rewrite Hfe.
  destruct client as [create|]; [|by exists fm, fv].
  destruct (create _) as [[|content choices]|e]; simpl;
    try (by exists fm, fv).
  destruct (extract_json_object loads (get_or content [])) as
    [ |b|n|x|s|items|members] eqn:E; simpl; try (by exists fm, fv).
  destruct (members_get members (lit "focus_areas")) as [value|] eqn:Eg;
    simpl; [|by exists fm, fv].
  destruct (json_truthy value) eqn:Et; simpl; [|by exists fm, fv].
  by exists members, value.
Qed.

(** X14. Whatever the client does (missing, failing, answering nothing or
    something the JSON reader rejects, or an analysis whose "focus_areas" is
    missing or falsy) the analysis returns, and what it returns is an object
    whose "focus_areas" value is truthy: the built-in analysis with
    "Clarity" and "Momentum", or the parsed answer as it is.  The parsed
    answer is not validated: any truthy value under "focus_areas" (a
    string, a number, a list of anything) is passed on. *)
Theorem analyze_goal_with_ai_has_focus_areas
    (client : option (GoalPrompt -> Reply)) (loads : pystr -> option Analysis)
    (text : pystr) (images : list pystr) (timeline : pystr) :
  (exists members value,
     analyze_goal_with_ai client loads text images timeline
     = Returns (JObj members)
     /\ members_get members (lit "focus_areas") = Some value
     /\ json_truthy value = true)
  /\ (analyze_goal_with_ai client loads text images timeline
      = Returns (fallback_focus_areas text timeline)
      \/ exists content,
           analyze_goal_with_ai client loads text images timeline
           = Returns (extract_json_object loads content))
  /\ (client = None ->
      analyze_goal_with_ai client loads text images timeline
      = Returns (fallback_focus_areas text timeline))
  /\ (exists clarity momentum,
        fallback_focus_areas text timeline
        = JObj [(lit "focus_areas", JArr [JObj clarity; JObj momentum])]
        /\ members_get clarity (lit "name") = Some (JStr (lit "Clarity"))
        /\ members_get momentum (lit "name") = Some (JStr (lit "Momentum")))
  /\ (forall create content others members value,
        client = Some create ->
        create {| gp_text := text;
                  gp_timeline_context := get_timeline_context timeline |}
        = Choices (content :: others) ->
        extract_json_object loads (get_or content []) = JObj members ->
        members_get members (lit "focus_areas") = Some value ->
        json_truthy value = true ->
        analyze_goal_with_ai client loads text images timeline
        = Returns (JObj members)).
Proof.
  split; [apply analyze_goal_with_ai_shape|].
  split; [|split; [|split]].
  - unfold analyze_goal_with_ai. cbv zeta.
    destruct client as [create|]; [|by left].
    destruct (create _) as [[|content choices]|e]; simpl; try (by left).
    destruct (extract_json_object loads (get_or content [])) as
      [ |b|n|x|s|items|members] eqn:E; simpl; try (by left).
    destruct (json_truthy _); simpl; [|by left].
    right. exists (get_or content []). by rewrite E.
  - by intros ->.
  - eexists _, _. split; [reflexivity|]. split; by vm_compute.
  - intros create content others members value -> Hc Hp Hg Ht.
    unfold analyze_goal_with_ai. cbv zeta. rewrite Hc.
    cbn [first_item mbind outcome_bind]. rewrite Hp.
    unfold json_get. cbn [mbind outcome_bind]. rewrite Hg.
    change (json_truthy (default JNull (Some value)))
      with (json_truthy value).
    by rewrite Ht.
Qed.

(** A service that answers with strings where focus-area objects are
    expected gets them passed on. *)
Lemma analyze_goal_with_ai_has_focus_areas_witness :
  analyze_goal_with_ai (Some More.loose_client) More.loose_loads
    (lit "Get fit") [] (lit "1_month")
  = Returns (JObj [(lit "focus_areas",
                    JArr [JStr (lit "Health"); JStr (lit "Career")])]).
Proof.
  apply (analyze_goal_with_ai_has_focus_areas (Some More.loose_client)
           More.loose_loads (lit "Get fit") [] (lit "1_month"))
    with (create := More.loose_client)
         (content := Some (lit "{focus_areas: [Health, Career]}"))
         (others := [])
         (value := JArr [JStr (lit "Health"); JStr (lit "Career")]).
  - reflexivity.
  - reflexivity.
  - reflexivity.
  - by vm_compute.
  - reflexivity.
Defined.

(** ** POST /goals/dump *)

Lemma dump_focus_areas_returns client loads request :
  exists focus_areas,
    dump_focus_areas client loads request = Returns focus_areas
    /\ json_truthy focus_areas = true.
Proof.
  unfold dump_focus_areas.
  destruct (analyze_goal_with_ai_shape client loads (dump_text request)
              (default [] (dump_images request)) (dump_timeline request))
    as (members & value & -> & Hg & Ht).
  simpl. rewrite Hg. simpl. unfold json_or. rewrite Ht, Ht. by exists value.
Qed.

Lemma mapM_outcome_cases {A B} (f : A -> outcome B) (P : Exception -> Prop)
    (l : list A) :
  (forall x, x ∈ l ->
     (exists y, f x = Returns y) \/ (exists e, f x = Raises e /\ P e)) ->
  (exists k, mapM f l = Returns k /\ Forall2 (fun x y => f x = Returns y) l k)
  \/ (exists e x, mapM f l = Raises e /\ P e /\ x ∈ l /\ f x = Raises e).
Proof.
  induction l as [|x l IH]; intros Hall.
  - left. exists []. split; [done|constructor].
  - destruct (Hall x ltac:(left)) as [[y Hy]|(e & He & HP)].
    + destruct IH as [(k & Hk & Hf)|(e & x' & He & HP & Hin & Hx')].
      * intros z Hz. apply Hall. by right.
      * left. exists (y :: k). split; [|by constructor].
        simpl. rewrite Hy. simpl. by rewrite Hk.
      * right. exists e, x'. split; [|split; [done|split; [by right|done]]].
        simpl. rewrite Hy. simpl. by rewrite He.
    + right. exists e, x. split; [|split; [done|split; [left|done]]].
      simpl. by rewrite He.
Qed.

Lemma first_action_values_cases area :
  (exists members,
     area = JObj members
     /\ first_action_values area
        = Returns (default (JStr (lit "Focus"))
                     (members_get members (lit "name")),
                   default (JStr default_action)
                     (members_get members (lit "daily_action"))))
  \/ ((forall members, area <> JObj members)
      /\ first_action_values area = Raises AttributeError).
Proof.
  destruct area; try (right; split; [by intros ?|done]).
  left. eexists. split; [done|]. reflexivity.
Qed.

Lemma first_action_cases user_id plan_id today new_id values :
  (exists focus_area action,
     values = (JStr focus_area, JStr action)
     /\ first_action user_id plan_id today new_id values
        = Returns
            {| DailyAction.id := new_id;
               DailyAction.user_id := user_id;
               DailyAction.plan_id := plan_id;
               DailyAction.focus_area := focus_area;
               DailyAction.action := action;
               DailyAction.day := today;
               DailyAction.completed := false;
               DailyAction.completed_at := None;
               DailyAction.rescheduled_from := None |})
  \/ ((forall focus_area action, values <> (JStr focus_area, JStr action))
      /\ first_action user_id plan_id today new_id values = Raises DBAPIError).
Proof.
  destruct values as [v1 v2]. unfold first_action. cbn [fst snd].
  destruct v1; try (right; split; [by intros ? ?|done]).
  destruct v2; try (right; split; [by intros ? ?|done]).
  left. by eexists _, _.
Qed.

Lemma storable_area_values area :
  storable_area area ->
  exists name action,
    first_action_values area = Returns (JStr name, JStr action).
Proof.
  intros (members & name & action & -> & Hn & Ha).
  exists name, action. unfold first_action_values, json_get_default.
  cbn [mbind outcome_bind]. congruence.
Qed.

(** The rows of the first actions, or the exception: the loop and the commit
    go through exactly when the focus areas are a list of objects whose
    names and daily actions, where present, are strings. *)
Lemma first_actions_cases user_id plan_id today uuid4 focus_areas :
  json_truthy focus_areas = true ->
  (exists areas actions,
     focus_areas = JArr areas /\ areas <> []
     /\ Forall storable_area areas
     /\ first_actions user_id plan_id today uuid4 focus_areas = Returns actions
     /\ length actions = length areas
     /\ forall i area, areas !! i = Some area ->
          exists members a,
            area = JObj members /\ actions !! i = Some a
            /\ DailyAction.id a = uuid4 (2 + i)%nat
            /\ DailyAction.user_id a = user_id
            /\ DailyAction.plan_id a = plan_id
            /\ JStr (DailyAction.focus_area a)
               = default (JStr (lit "Focus"))
                   (members_get members (lit "name"))
            /\ JStr (DailyAction.action a)
               = default (JStr default_action)
                   (members_get members (lit "daily_action"))
            /\ DailyAction.day a = today
            /\ DailyAction.completed a = false
            /\ DailyAction.completed_at a = None
            /\ DailyAction.rescheduled_from a = None)
  \/ (~ storable_areas focus_areas
      /\ exists e,
           first_actions user_id plan_id today uuid4 focus_areas = Raises e
           /\ (e = AttributeError \/ e = TypeError \/ e = DBAPIError)).
Proof.
  intros Htruthy.
  assert (Hchars : forall (items : list JSON),
            items <> [] ->
            (forall x, x ∈ items -> exists s, x = JStr s) ->
            mapM first_action_values items = Raises AttributeError).
  { intros [|x items] Hne Hstr; [done|].
    destruct (Hstr x ltac:(left)) as [s ->]. reflexivity. }
  destruct focus_areas as [ |b|n|x|s|areas|members];
    try (right; split;
         [by intros (areas & ? & _)|exists TypeError; split; [done|tauto]]).
  - (* a string: the loop meets its first character *)
    right. split; [by intros (areas & ? & _)|].
    exists AttributeError. split; [|tauto].
    unfold first_actions. cbn [json_iter mbind outcome_bind].
    rewrite Hchars; [done| |].
    + destruct s; [done|]. by rewrite fmap_cons.
    + intros y (c & -> & _)%list_elem_of_fmap. by eexists.
  - (* a list *)
    unfold first_actions. cbn [json_iter mbind outcome_bind].
    destruct (mapM_outcome_cases first_action_values
                (fun e => e = AttributeError) areas)
      as [(pending & -> & Hpending)|(e & x & -> & -> & Hx & Hraise)].
    { intros x _. destruct (first_action_values_cases x)
        as [(members & -> & ->)|[_ ->]]; [left|right]; by eexists. }
    + cbn [mbind outcome_bind].
      destruct (mapM_outcome_cases
                  (fun iv : nat * (JSON * JSON) =>
                     first_action user_id plan_id today
                       (uuid4 (2 + iv.1)%nat) iv.2)
                  (fun e => e = DBAPIError)
                  (imap (fun i values => (i, values)) pending))
        as [(actions & -> & Hactions)|(e & iv & -> & -> & Hiv & Hraise)].
      { intros [i values] _. cbn [fst snd].
        destruct (first_action_cases user_id plan_id today
                    (uuid4 (2 + i)%nat) values)
          as [(f & a & -> & ->)|[_ ->]]; [left|right]; by eexists. }
      * left. exists areas, actions.
        assert (Hlen : length actions = length areas).
        { rewrite <- (Forall2_length _ _ _ Hactions), length_imap.
          symmetry. by eapply Forall2_length. }
        assert (Hrows : forall i area, areas !! i = Some area ->
          exists members a,
            area = JObj members /\ actions !! i = Some a
            /\ DailyAction.id a = uuid4 (2 + i)%nat
            /\ DailyAction.user_id a = user_id
            /\ DailyAction.plan_id a = plan_id
            /\ JStr (DailyAction.focus_area a)
               = default (JStr (lit "Focus"))
                   (members_get members (lit "name"))
            /\ JStr (DailyAction.action a)
               = default (JStr default_action)
                   (members_get members (lit "daily_action"))
            /\ DailyAction.day a = today
            /\ DailyAction.completed a = false
            /\ DailyAction.completed_at a = None
            /\ DailyAction.rescheduled_from a = None).
        { intros i area Hi.
          destruct (Forall2_lookup_l _ _ _ _ _ Hpending Hi)
            as (values & Hvalues & Hread).
          assert (Hiv : imap (fun i values => (i, values)) pending !! i
                        = Some (i, values))
            by (by rewrite list_lookup_imap, Hvalues).
          destruct (Forall2_lookup_l _ _ _ _ _ Hactions Hiv)
            as (a & Ha & Hrow).
          cbn [fst snd] in Hrow.
          destruct (first_action_values_cases area)
            as [(members & -> & Hread')|[_ Hread']];
            [|rewrite Hread' in Hread; discriminate Hread].
          rewrite Hread' in Hread. injection Hread as <-.
          destruct (first_action_cases user_id plan_id today
                      (uuid4 (2 + i)%nat)
                      (default (JStr (lit "Focus"))
                         (members_get members (lit "name")),
                       default (JStr default_action)
                         (members_get members (lit "daily_action"))))
            as [(f & t & [= Hf Ht] & Hrow')|[_ Hrow']];
            [|rewrite Hrow' in Hrow; discriminate Hrow].
          rewrite Hrow' in Hrow. injection Hrow as <-.
          exists members. eexists. split; [done|]. split; [exact Ha|].
          cbn [DailyAction.id DailyAction.user_id DailyAction.plan_id
               DailyAction.focus_area DailyAction.action DailyAction.day
               DailyAction.completed DailyAction.completed_at
               DailyAction.rescheduled_from].
          by rewrite Hf, Ht. }
        split; [done|]. split; [by destruct areas|].
        split; [|done].
        apply Forall_lookup. intros i area Hi.
        destruct (Hrows i area Hi)
          as (members & a & -> & _ & _ & _ & _ & Hf & Ht & _).
        exists members, (DailyAction.focus_area a), (DailyAction.action a).
        by rewrite Hf, Ht.
      * right. split; [|exists DBAPIError; split; [done|tauto]].
        intros (areas' & [= <-] & Hall).
        destruct iv as [i values]. cbn [fst snd] in Hraise.
        apply elem_of_lookup_imap in Hiv as (i' & values' & [= <- <-] & Hi).
        destruct (Forall2_lookup_r _ _ _ _ _ Hpending Hi)
          as (area & Harea & Hread).
        rewrite Forall_lookup in Hall.
        destruct (storable_area_values area (Hall _ _ Harea))
          as (name & action & Hread').
        rewrite Hread' in Hread. injection Hread as <-.
        destruct (first_action_cases user_id plan_id today
                    (uuid4 (2 + i)%nat) (JStr name, JStr action))
          as [(f & t & _ & Hrow)|[Hno _]].
        -- rewrite Hrow in Hraise. discriminate Hraise.
        -- by apply (Hno name action).
    + right. split; [|exists AttributeError; split; [done|tauto]].
      intros (areas' & [= <-] & Hall).
      rewrite Forall_forall in Hall.
      destruct (storable_area_values x (Hall _ Hx)) as (name & action & Hread).
      rewrite Hread in Hraise. discriminate Hraise.
  - (* a dict: the loop meets its first key *)
    right. split; [by intros (areas & ? & _)|].
    exists AttributeError. split; [|tauto].
    unfold first_actions. cbn [json_iter mbind outcome_bind].
    rewrite Hchars; [done| |].
    + destruct members; [done|]. by rewrite fmap_cons.
    + intros y (m & -> & _)%list_elem_of_fmap. by eexists.
Qed.



(** X16. Right after a goal is submitted, the new plan is not among the
    plans for which the fresh-action engine generates on that logical day:
    its first actions count as today's fresh actions. *)
Theorem dump_goal_plan_needs_no_generation (cfg : Config)
    (goal_now plan_now now : Z) (client : option (GoalPrompt -> Reply))
    (loads : pystr -> option Analysis) (uuid4 : nat -> pystr)
    (request : GoalDumpRequest) (user_id : pystr) (site site' : Site)
    (response : GoalDumpResponse) :
  dump_goal cfg goal_now plan_now now client loads uuid4 request user_id site
  = (site', Returns response) ->
  forall p,
    p ∈ plans_lacking_fresh (site_db site') user_id (effective_day cfg now) ->
    Plan.id p <> resp_plan_id response.
Proof.
  unfold dump_goal. cbv zeta.
  destruct (dump_focus_areas_returns client loads request)
    as (focus_areas & -> & Htruthy).
  cbn [RawPlan.id].
  destruct (first_actions_cases user_id (uuid4 1%nat) (effective_day cfg now)
              uuid4 focus_areas Htruthy)
    as [(areas & actions & -> & Hne & Hall & -> & Hlen & Hrows)
       |(Hno & e & -> & He)]; [|discriminate].
  intros [= <- <-] p (_ & _ & Hfresh)%plans_lacking_fresh_elem Hid.
  destruct areas as [|area areas]; [done|].
  destruct (Hrows 0%nat area eq_refl)
    as (members & a & _ & Ha & _ & Hu & Hp & _ & _ & Hd & _ & _ & Hr).
  apply Hfresh. exists a. split.
  { cbn [site_db daily_actions site_actions].
    apply elem_of_app. right. by eapply list_elem_of_lookup_2. }
  cbn [resp_plan_id] in Hid. by rewrite Hid.
Qed.

Lemma dump_goal_plan_needs_no_generation_witness :
  exists site' response,
    dump_goal Sample.cfg 0 0 Sample.at_0600 None (fun _ => None) Sample.uuids
      More.dump_request Sample.user More.empty_site
    = (site', Returns response)
    /\ plans_lacking_fresh (site_db site') Sample.user Sample.today = [].
Proof.
  destruct (dump_goal Sample.cfg 0 0 Sample.at_0600 None (fun _ => None)
              Sample.uuids More.dump_request Sample.user More.empty_site)
    as [site' [response| |]] eqn:E; [|discriminate E..].
  exists site', response. split; [done|].
  pose proof (dump_goal_plan_needs_no_generation _ _ _ _ _ _ _ _ _ _ _ _ E)
    as Hno.
  destruct (plans_lacking_fresh (site_db site') Sample.user Sample.today)
    as [|p ps] eqn:El; [done|].
  exfalso. apply (Hno p).
  - change (effective_day Sample.cfg Sample.at_0600) with Sample.today.
    rewrite El. left.
  - assert (Hp : p ∈ plans_lacking_fresh (site_db site') Sample.user
                   Sample.today) by (rewrite El; left).
    apply plans_lacking_fresh_elem in Hp as (Hin & _).
    vm_compute in E. injection E as <- <-.
    vm_compute in Hin.
    apply list_elem_of_singleton in Hin as ->. reflexivity.
Defined.

(** ** Plans *)

Lemma later_plan_sorted (l : list Plan.t) :
  StronglySorted later_plan (merge_sort later_plan l).
Proof.
  apply StronglySorted_merge_sort.
  - intros p q r. unfold later_plan. lia.
  - intros p q. unfold later_plan. lia.
Qed.

(** X17. The current plan is absent exactly when the user has no active
    plan; otherwise it is a stored active plan of the user and no active
    plan of the user was created later. *)
Theorem get_current_plan_latest_active (db : Db) (user_id : pystr) :
  (get_current_plan db user_id = None
   <-> forall p, p ∈ plans db -> ~ is_active_plan user_id p)
  /\ forall p, get_current_plan db user_id = Some p ->
       p ∈ plans db /\ is_active_plan user_id p
       /\ forall q, q ∈ plans db -> is_active_plan user_id q ->
            Plan.created_at q <= Plan.created_at p.
Proof.
  unfold get_current_plan.
  set (active := filter (is_active_plan user_id) (plans db)).
  pose proof (merge_sort_Permutation later_plan active) as Hperm.
  pose proof (later_plan_sorted active) as Hsorted.
  split.
  - split.
    + intros Hnone p Hp Hact.
      assert (Hin : p ∈ merge_sort later_plan active).
      { rewrite Hperm. by apply list_elem_of_filter. }
      revert Hnone Hin. clear Hperm Hsorted.
      match goal with |- head ?ms = None -> _ => destruct ms end; [|done].
      intros _ Hin. by apply elem_of_nil in Hin.
    + intros Hno. revert Hperm. clear Hsorted.
      match goal with |- ?ms ≡ₚ _ -> _ => destruct ms as [|p l] end; [done|].
      intros Hperm.
      assert (Hin : p ∈ active) by (rewrite <- Hperm; left).
      apply list_elem_of_filter in Hin as [Hact Hin]. by destruct (Hno p).
  - intros p Hhead. revert Hperm Hsorted Hhead.
    match goal with |- ?ms ≡ₚ _ -> _ => destruct ms as [|p' l] end; [done|].
    intros Hperm Hsorted Hhead.
    injection Hhead as ->.
    assert (Hin : p ∈ active) by (rewrite <- Hperm; left).
    apply list_elem_of_filter in Hin as [Hact Hin].
    split; [done|]. split; [done|].
    intros q Hq Hqa.
    assert (Hq' : q ∈ p :: l).
    { rewrite Hperm. by apply list_elem_of_filter. }
    apply StronglySorted_inv in Hsorted as [_ Hall].
    apply elem_of_cons in Hq' as [->|Hq']; [lia|].
    rewrite Forall_forall in Hall. by apply Hall.
Qed.

Lemma get_current_plan_latest_active_witness :
  get_current_plan Sample.fresh_db Sample.user = Some Sample.plan1.
Proof.
  destruct (get_current_plan Sample.fresh_db Sample.user) as [p|] eqn:E.
  - destruct (get_current_plan_latest_active Sample.fresh_db Sample.user)
      as [_ H].
    destruct (H p E) as (Hin & _).
    by apply list_elem_of_singleton in Hin as ->.
  - destruct (get_current_plan_latest_active Sample.fresh_db Sample.user)
      as [[H _] _].
    exfalso. apply (H E Sample.plan1); [left|by split].
Defined.

(** ** POST /plans/start-fresh *)

Lemma archived_not_active : lit "archived" <> lit "active".
Proof. by vm_compute. Qed.

(** X18. Starting fresh leaves the user without any action and without any
    plan that is not archived; it keeps every plan in place with all its
    other fields, and it keeps the actions of the other users, in order, and
    their plans; doing it twice is doing it once. *)
Theorem start_fresh_clears_user (db : Db) (user_id : pystr) :
  let db' := start_fresh db user_id in
  (forall a, a ∈ daily_actions db' -> DailyAction.user_id a <> user_id)
  /\ (forall other, other <> user_id ->
        filter (fun a => DailyAction.user_id a = other) (daily_actions db')
        = filter (fun a => DailyAction.user_id a = other) (daily_actions db))
  /\ (forall p, p ∈ plans db' -> Plan.user_id p = user_id ->
        Plan.status p = lit "archived")
  /\ length (plans db') = length (plans db)
  /\ (forall i p, plans db !! i = Some p ->
        exists p', plans db' !! i = Some p'
          /\ Plan.id p' = Plan.id p /\ Plan.user_id p' = Plan.user_id p
          /\ Plan.goal_id p' = Plan.goal_id p
          /\ Plan.focus_areas p' = Plan.focus_areas p
          /\ Plan.timeline p' = Plan.timeline p
          /\ Plan.created_at p' = Plan.created_at p
          /\ (Plan.user_id p <> user_id -> p' = p))
  /\ start_fresh db' user_id = db'.
Proof.
  intros db'. subst db'. unfold start_fresh. cbn [plans daily_actions].
  split; [|split; [|split; [|split; [|split]]]].
  - by intros a [Hu _]%list_elem_of_filter.
  - intros other Hne. rewrite list_filter_filter.
    apply list_filter_iff. intros a. split; [tauto|].
    intros Hu. split; [done|congruence].
  - intros p (q & -> & Hq)%list_elem_of_fmap Hu.
    destruct (decide _) as [|Hn]; [done|].
    destruct (decide (Plan.status q = lit "archived")); [done|].
    exfalso. by apply Hn.
  - by rewrite length_fmap.
  - intros i p Hi. rewrite list_lookup_fmap, Hi. simpl.
    destruct (decide _) as [[Hu _]|Hn]; eexists; (split; [reflexivity|]);
      by repeat split.
  - f_equal.
    + rewrite <- list_fmap_compose. apply list_fmap_ext. intros i p _. simpl.
      destruct (decide (Plan.user_id p = user_id ∧ Plan.status p <> lit "archived"))
        as [[Hu Hs]|Hn].
      * rewrite decide_False; [done|]. simpl. by intros [_ ?].
      * by rewrite decide_False.
    + apply filter_all. by intros a [Hu _]%list_elem_of_filter.
Qed.

(** X19. After starting fresh the user has a clean slate, whatever the
    configuration: viewing today returns no row and leaves the store as it
    is, there is no current plan, and the streak is the zero state. *)
Theorem start_fresh_clean_slate (cfg : Config) (now now_r now_f : Z)
    (client : option Client) (ur uf : nat -> pystr) (db : Db)
    (user_id : pystr) :
  let db' := start_fresh db user_id in
  today_actions cfg now now_r now_f client ur uf db' user_id
  = Returns (db', [])
  /\ get_current_plan db' user_id = None
  /\ calculate_streak cfg now db' user_id
     = {| current_streak := 0;
          longest_streak := 0;
          total_completed := 0;
          message := lit "Start your first action to begin your journey!" |}.
Proof.
  intros db'.
  assert (Hrows : forall a, a ∈ daily_actions db' ->
                            DailyAction.user_id a <> user_id).
  { subst db'. unfold start_fresh. cbn [daily_actions].
    by intros a [Hu _]%list_elem_of_filter. }
  assert (Hplans : forall p, p ∈ plans db' -> ~ is_active_plan user_id p).
  { subst db'. unfold start_fresh. cbn [plans].
    intros p (q & -> & Hq)%list_elem_of_fmap [Hu Hs].
    destruct (decide _) as [|Hn].
    - simpl in Hs. by apply archived_not_active.
    - apply Hn. split; [done|]. rewrite Hs. intros E.
      symmetry in E. by apply archived_not_active. }
  clearbody db'.
  assert (Hroll : forall t u,
            reschedule_incomplete_actions cfg t u db' user_id = db').
  { intros t u. rewrite reschedule_incomplete_actions_eq. cbv zeta.
    unfold already_carried.
    rewrite (filter_none (is_carried _ _ _)) by (intros a Ha [Hu _]; by eapply Hrows).
    rewrite (filter_none (is_incomplete _ _)) by (intros a Ha [Hu _]; by eapply Hrows).
    simpl. apply add_all_nil. }
  assert (Hlack : forall d, plans_lacking_fresh db' user_id d = []).
  { intros d. destruct (plans_lacking_fresh db' user_id d) as [|p ps] eqn:E;
      [done|].
    assert (Hp : p ∈ plans_lacking_fresh db' user_id d) by (rewrite E; left).
    apply plans_lacking_fresh_elem in Hp as (Hin & Hact & _).
    by destruct (Hplans p Hin). }
  split; [|split].
  - unfold today_actions. rewrite Hroll.
    pose proof (ensure_fresh_actions_for_today_cases cfg now_f client uf db'
                  user_id) as Hcases.
    cbv zeta in Hcases. rewrite Hlack in Hcases.
    destruct Hcases as [[_ ->] | [(Hne & _) | (Hne & _)]]; [|done..].
    simpl. do 2 f_equal.
    apply filter_none. intros a Ha [Hu _]. by eapply Hrows.
  - unfold get_current_plan. by rewrite (filter_none _ _ Hplans).
  - unfold calculate_streak, completed_days.
    rewrite (filter_none (is_completed_of _))
      by (intros a Ha [Hu _]; by eapply Hrows).
    reflexivity.
Qed.

(** ** Check-in, again *)

Lemma length_filter_fmap_iff {A} (P : A -> Prop) `{forall x, Decision (P x)}
    (f : A -> A) (l : list A) :
  (forall x, P (f x) <-> P x) ->
  length (filter P (f <$> l)) = length (filter P l).
Proof.
  intros Hf. induction l as [|x l IH]; [done|].
  rewrite fmap_cons, !filter_cons.
  destruct (decide (P (f x))) as [Hy|Hn], (decide (P x)) as [Hy'|Hn'];
    simpl; try (by rewrite IH).
  - destruct Hn'. by apply Hf.
  - destruct Hn. by apply Hf.
Qed.

(** X20. Of two check-ins on the same action the last one wins: the store
    and the response are those of the last check-in alone.  In particular
    un-checking after checking leaves the action not completed with no
    completion time. *)
Theorem check_in_last_write_wins (now1 now2 : Z) (r1 r2 : CheckInRequest)
    (user_id : pystr) (db : Db) :
  action_id r1 = action_id r2 ->
  check_in now2 r2 user_id (check_in now1 r1 user_id db).1
  = check_in now2 r2 user_id db.
Proof.
  intros Hid. unfold check_in. cbn [fst plans daily_actions].
  assert (Ht : forall a, is_target r1 user_id a <-> is_target r2 user_id a).
  { intros a. unfold is_target. by rewrite Hid. }
  f_equal.
  - f_equal. rewrite <- list_fmap_compose. apply list_fmap_ext.
    intros i a _. simpl.
    destruct (decide (is_target r1 user_id a)) as [H1|H1].
    + assert (H2 : is_target r2 user_id a) by (by apply Ht).
      rewrite (decide_True (P := is_target r2 user_id a)) by done.
      by rewrite decide_True by exact H2.
    + assert (H2 : ~ is_target r2 user_id a) by (by rewrite <- Ht).
      by rewrite !decide_False by done.
  - rewrite length_filter_fmap_iff; [done|].
    intros a. destruct (decide (is_target r1 user_id a)); done.
Qed.

Lemma check_in_last_write_wins_witness :
  check_in Sample.at_0600 Sample.uncheck_a1 Sample.user
    (check_in Sample.at_0500
       {| action_id := lit "a1"; req_completed := true |}
       Sample.user Sample.checked_db).1
  = check_in Sample.at_0600 Sample.uncheck_a1 Sample.user Sample.checked_db.
Proof.
  by apply (check_in_last_write_wins Sample.at_0500 Sample.at_0600
              {| action_id := lit "a1"; req_completed := true |}
              Sample.uncheck_a1 Sample.user Sample.checked_db).
Defined.

(** X21. A check-in that names no action of the caller (an unknown id, or
    the id of an action of somebody else) is answered with 404 "Action not
    found" and changes nothing in the store. *)
Theorem check_in_not_found (now : Z) (request : CheckInRequest)
    (user_id : pystr) (db : Db) :
  (forall a, a ∈ daily_actions db -> ~ is_target request user_id a) ->
  check_in now request user_id db
  = (db, Raises (HTTPException 404 (lit "Action not found"))).
Proof.
  intros Hno. unfold check_in. f_equal.
  - destruct db as [ps rows]. cbn [plans daily_actions] in *. f_equal.
    rewrite <- (list_fmap_id rows) at 2. apply list_fmap_ext.
    intros i a Hi. rewrite decide_False; [done|].
    apply Hno. by eapply list_elem_of_lookup_2.
  - by rewrite (filter_none _ _ Hno).
Qed.

Lemma check_in_not_found_witness :
  check_in Sample.at_0600 {| action_id := lit "x1"; req_completed := true |}
    Sample.user More.shared_db
  = (More.shared_db, Raises (HTTPException 404 (lit "Action not found"))).
Proof.
  apply (check_in_not_found Sample.at_0600
           {| action_id := lit "x1"; req_completed := true |}
           Sample.user More.shared_db).
  intros a Ha [Hi Hu]. vm_compute in Ha.
  repeat (apply elem_of_cons in Ha as [-> | Ha]);
    try (vm_compute in Hi; discriminate Hi);
    try (vm_compute in Hu; discriminate Hu).
  by apply elem_of_nil in Ha.
Defined.

Lemma ge_sorted (l : list Z) : StronglySorted Z.ge (merge_sort Z.ge l).
Proof.
  apply StronglySorted_merge_sort.
  - intros x y z. lia.
  - intros x y. lia.
Qed.

(** X22. Completing an action dated today starts or keeps the streak: when
    the user has no action dated after today, the current streak after the
    check-in is at least 1. *)
Theorem check_in_today_gives_streak (cfg : Config) (now t : Z)
    (request : CheckInRequest) (user_id : pystr) (db : Db)
    (a : DailyAction.t) :
  a ∈ daily_actions db ->
  is_target request user_id a ->
  req_completed request = true ->
  DailyAction.day a = effective_day cfg now ->
  (forall b, b ∈ daily_actions db -> DailyAction.user_id b = user_id ->
             DailyAction.day b <= effective_day cfg now) ->
  1 <= current_streak
         (calculate_streak cfg now (check_in t request user_id db).1 user_id).
Proof.
  intros Ha Ht Hc Hd Hle.
  set (today := effective_day cfg now) in *.
  set (db' := (check_in t request user_id db).1).
  assert (Hday : forall d, d ∈ DailyAction.day
                    <$> filter (is_completed_of user_id) (daily_actions db') ->
                  d <= today).
  { intros d (b & -> & Hb)%list_elem_of_fmap.
    apply list_elem_of_filter in Hb as [[Hu _] Hb].
    subst db'. unfold check_in in Hb. cbn [fst daily_actions] in Hb.
    apply list_elem_of_fmap in Hb as (b0 & -> & Hb0).
    destruct (decide _); simpl in *; by apply Hle. }
  assert (Htoday : today ∈ DailyAction.day
                     <$> filter (is_completed_of user_id) (daily_actions db')).
  { apply list_elem_of_fmap. exists (set_completion t true a). split; [done|].
    apply list_elem_of_filter. split.
    - split; [apply Ht|done].
    - subst db'. unfold check_in. cbn [fst daily_actions].
      apply list_elem_of_fmap. exists a. split; [|done].
      by rewrite decide_True, Hc. }
  unfold calculate_streak, completed_days. fold db'.
  destruct (sorted_head_is_max
              (merge_sort Z.ge
                 (DailyAction.day
                    <$> filter (is_completed_of user_id) (daily_actions db')))
              today) as [rest Hsorted].
  { apply ge_sorted. }
  { by rewrite merge_sort_Permutation. }
  { intros y Hy. rewrite merge_sort_Permutation in Hy. by apply Hday. }
  rewrite Hsorted. cbn [take]. cbv zeta. cbn [current_streak]. fold today.
  set (days := today :: take 1999 rest).
  destruct (sorted_head_is_max
              (merge_sort Z.ge (elements (list_to_set days : gset Z))) today)
    as [rest' ->].
  { apply ge_sorted. }
  { apply unique_days_elem. left. }
  { intros y Hy. apply (proj1 (unique_days_elem days y)) in Hy.
    assert (Hy' : y ∈ today :: rest).
    { subst days. apply elem_of_cons in Hy as [->|Hy]; [left|right].
      by apply (subseteq_take 1999). }
    rewrite <- Hsorted, merge_sort_Permutation in Hy'. by apply Hday. }
  simpl. rewrite Z.sub_0_r, Z.eqb_refl.
  pose proof (streak_from_nonneg today (0 + 1) rest'). lia.
Qed.

Lemma check_in_today_gives_streak_witness :
  1 <= current_streak
         (calculate_streak Sample.cfg Sample.at_0600
            (check_in Sample.at_0600
               {| action_id := lit "a2"; req_completed := true |}
               Sample.user More.shared_db).1 Sample.user).
Proof.
  apply (check_in_today_gives_streak Sample.cfg Sample.at_0600 Sample.at_0600
           {| action_id := lit "a2"; req_completed := true |} Sample.user
           More.shared_db
           (Sample.row "a2" "p1" "Fitness" "Run" Sample.today false None)).
  - do 2 right. left.
  - by split.
  - reflexivity.
  - reflexivity.
  - intros b Hb _. vm_compute in Hb.
    repeat (apply elem_of_cons in Hb as [-> | Hb]);
      try (vm_compute; discriminate).
    by apply elem_of_nil in Hb.
Defined.

(** ** Streaks, again *)

Lemma streak_from_le_length today l :
  forall i, streak_from today i l <= Z.of_nat (length l).
Proof.
  induction l as [|d l IH]; intros i; simpl length; simpl streak_from; [lia|].
  destruct (d =? today - i); [|lia]. specialize (IH (i + 1)). lia.
Qed.

Lemma longest_from_le_length l :
  forall longest run, l <> [] -> 1 <= run ->
    longest_from l longest run
    <= Z.max longest (run + Z.of_nat (length l) - 1).
Proof.
  induction l as [|d l IH]; intros longest run Hne Hrun; [done|].
  destruct l as [|d' rest]; [cbn [longest_from length]; lia|].
  change (longest_from (d :: d' :: rest) longest run)
    with (if d - d' =? 1
          then longest_from (d' :: rest) (Z.max longest (run + 1)) (run + 1)
          else longest_from (d' :: rest) longest 1).
  assert (Hlen : Z.of_nat (length (d :: d' :: rest))
                 = Z.of_nat (length (d' :: rest)) + 1)
    by (cbn [length]; lia).
  rewrite Hlen. clear Hlen.
  assert (Hpos : 1 <= Z.of_nat (length (d' :: rest))) by (cbn [length]; lia).
  revert Hpos.
  destruct (d - d' =? 1).
  - specialize (IH (Z.max longest (run + 1)) (run + 1) ltac:(done) ltac:(lia)).
    revert IH. generalize (Z.of_nat (length (d' :: rest))).
    generalize (longest_from (d' :: rest) (Z.max longest (run + 1)) (run + 1)).
    intros. lia.
  - specialize (IH longest 1 ltac:(done) ltac:(lia)).
    revert IH. generalize (Z.of_nat (length (d' :: rest))).
    generalize (longest_from (d' :: rest) longest 1).
    intros. lia.
Qed.

Lemma unique_days_length (days : list Z) :
  (length (merge_sort Z.ge (elements (list_to_set days : gset Z)))
   <= length days)%nat.
Proof.
  apply submseteq_length, NoDup_submseteq.
  - apply unique_days_sorted.
  - intros d. apply unique_days_elem.
Qed.

(** X23. The three counters of the streak answer are ordered and bounded:
    0 <= current streak <= longest streak <= total completed <= 2000 (the
    query fetches at most 2000 completed rows, so the total is capped). *)
Theorem calculate_streak_bounds (cfg : Config) (now : Z) (db : Db)
    (user_id : pystr) :
  let r := calculate_streak cfg now db user_id in
  0 <= current_streak r
  /\ current_streak r <= longest_streak r
  /\ longest_streak r <= total_completed r
  /\ total_completed r <= 2000.
Proof.
  cbv zeta. unfold calculate_streak.
  assert (Hcap : (length (completed_days db user_id) <= 2000)%nat).
  { unfold completed_days. rewrite length_take. lia. }
  destruct (completed_days db user_id) as [|d0 days0] eqn:Hdays;
    [simpl; lia|].
  cbv zeta. cbn [current_streak longest_streak total_completed].
  set (days := d0 :: days0) in *.
  set (unique_days := merge_sort Z.ge (elements (list_to_set days : gset Z))).
  pose proof (unique_days_length days) as Hlen. fold unique_days in Hlen.
  pose proof (streak_from_nonneg (effective_day cfg now) 0 unique_days).
  pose proof (streak_from_le_length (effective_day cfg now) unique_days 0).
  assert (Hne : unique_days <> []).
  { intros E. assert (Hin : d0 ∈ unique_days)
      by (apply unique_days_elem; left).
    rewrite E in Hin. by apply elem_of_nil in Hin. }
  pose proof (longest_from_le_length unique_days 1 1 Hne ltac:(lia)).
  assert (1 <= length unique_days)%nat.
  { destruct unique_days; [done|simpl; lia]. }
  lia.
Qed.

Lemma longest_from_has_run (S : list Z) l :
  forall longest run d rest,
    l = d :: rest -> l ⊆ S ->
    (forall j, 0 <= j < run -> d + j ∈ S) ->
    has_run S longest ->
    has_run S (longest_from l longest run).
Proof.
  induction l as [|d0 l IH]; intros longest run d rest E Hsub Hrun Hlong;
    [done|].
  injection E as -> ->.
  destruct rest as [|d' rest]; [done|].
  change (longest_from (d :: d' :: rest) longest run)
    with (if d - d' =? 1
          then longest_from (d' :: rest) (Z.max longest (run + 1)) (run + 1)
          else longest_from (d' :: rest) longest 1).
  assert (Hsub' : d' :: rest ⊆ S).
  { intros x Hx. apply Hsub. by right. }
  assert (Hd' : d' ∈ S) by (apply Hsub'; left).
  destruct (Z.eqb_spec (d - d') 1) as [Hstep|Hstep].
  - assert (Hrun' : forall j, 0 <= j < run + 1 -> d' + j ∈ S).
    { intros j Hj. destruct (decide (j = 0)) as [->|Hj0].
      - by rewrite Z.add_0_r.
      - replace (d' + j) with (d + (j - 1)) by lia. apply Hrun. lia. }
    apply (IH _ _ d' rest); [done|done|done|].
    destruct (Z.max_spec longest (run + 1)) as [[_ ->]|[_ ->]]; [|done].
    exists (d' + run). intros j Hj.
    replace (d' + run - j) with (d' + (run - j)) by lia. apply Hrun'. lia.
  - apply (IH _ _ d' rest); [done|done| |done].
    intros j Hj. assert (j = 0) as -> by lia. by rewrite Z.add_0_r.
Qed.

(** X24. The longest streak is realised: when the answer reports a longest
    streak of n, there is a day d such that the user has a completed action
    on each of the n consecutive days d, d-1, ..., d-(n-1). *)
Theorem calculate_streak_longest_realised (cfg : Config) (now : Z) (db : Db)
    (user_id : pystr) :
  exists d, forall j,
    0 <= j < longest_streak (calculate_streak cfg now db user_id) ->
    completed_on db user_id (d - j).
Proof.
  unfold calculate_streak.
  destruct (completed_days db user_id) as [|d0 days0] eqn:Hdays.
  { exists 0. simpl. intros j Hj. lia. }
  cbv zeta. cbn [longest_streak].
  set (days := d0 :: days0) in *.
  set (unique_days := merge_sort Z.ge (elements (list_to_set days : gset Z))).
  set (today := effective_day cfg now).
  assert (Hon : forall d, d ∈ unique_days -> completed_on db user_id d).
  { intros d Hd. apply completed_days_elem. rewrite Hdays.
    by apply unique_days_elem. }
  assert (Hrun : has_run unique_days
                   (Z.max (longest_from unique_days 1 1)
                          (streak_from today 0 unique_days))).
  { destruct (Z.max_spec (longest_from unique_days 1 1)
                         (streak_from today 0 unique_days))
      as [[_ ->]|[_ ->]].
    - exists today. intros j Hj.
      replace (today - j) with (today - 0 - j) by lia.
      by apply streak_from_elem.
    - assert (Hin : d0 ∈ unique_days) by (apply unique_days_elem; left).
      destruct unique_days as [|u us] eqn:Hu;
        [by apply elem_of_nil in Hin|].
      apply (longest_from_has_run _ _ 1 1 u us); [done|done| |].
      + intros j Hj. assert (j = 0) as -> by lia. rewrite Z.add_0_r. left.
      + exists u. intros j Hj. assert (j = 0) as -> by lia.
        rewrite Z.sub_0_r. left. }
  destruct Hrun as [d Hd]. exists d. intros j Hj. by apply Hon, Hd.
Qed.

(** ** The weekly summary, again *)

Lemma progress_step_keys progress focus_area completed :
  (progress_step progress focus_area completed).*1
  = if decide (focus_area ∈ progress.*1) then progress.*1
    else progress.*1 ++ [focus_area].
Proof.
  induction progress as [|[k [t d]] rest IH].
  - cbn [progress_step fmap list_fmap fst app].
    destruct (decide (focus_area ∈ [])) as [Hin|_]; [|done].
    by apply elem_of_nil in Hin.
  - cbn [progress_step].
    destruct (decide (k = focus_area)) as [->|Hne].
    + rewrite !fmap_cons. cbn [fst].
      destruct (decide (focus_area ∈ focus_area :: rest.*1)) as [_|Hnin];
        [done|].
      destruct Hnin. left.
    + rewrite !fmap_cons, IH. cbn [fst].
      destruct (decide (focus_area ∈ rest.*1)) as [Hin|Hnin];
        destruct (decide (focus_area ∈ k :: rest.*1)) as [Hin'|Hnin'];
        try done.
      * destruct Hnin'. by right.
      * apply elem_of_cons in Hin' as [E|Hin']; [by subst|done].
Qed.

Lemma progress_step_elem progress focus_area completed k t d :
  NoDup progress.*1 ->
  (k, (t, d)) ∈ progress_step progress focus_area completed ->
  (k <> focus_area /\ (k, (t, d)) ∈ progress)
  \/ (k = focus_area
      /\ exists t0 d0,
           ((focus_area, (t0, d0)) ∈ progress
            \/ ((focus_area ∉ progress.*1) /\ t0 = 0 /\ d0 = 0))
           /\ t = t0 + 1 /\ d = if completed then d0 + 1 else d0).
Proof.
  induction progress as [|[k0 [t0 d0]] rest IH]; simpl; intros Hnd Hin.
  - apply list_elem_of_singleton in Hin. injection Hin as -> -> ->.
    right. split; [done|]. exists 0, 0. split; [|by destruct completed].
    right. split; [apply not_elem_of_nil|done].
  - apply NoDup_cons in Hnd as [Hk0 Hnd].
    destruct (decide (k0 = focus_area)) as [->|Hne].
    + apply elem_of_cons in Hin as [E|Hin].
      * injection E as -> -> ->. right. split; [done|].
        exists t0, d0. split; [left; left|done].
      * left. split; [|by right].
        intros ->. apply Hk0. apply list_elem_of_fmap.
        by exists (focus_area, (t, d)).
    + apply elem_of_cons in Hin as [E|Hin].
      * injection E as -> -> ->. left. split; [done|left].
      * destruct (IH Hnd Hin) as [[Hk Hin']|[-> (t1 & d1 & Hsrc & Ht & Hd)]].
        -- left. split; [done|by right].
        -- right. split; [done|]. exists t1, d1. split; [|done].
           destruct Hsrc as [Hsrc|(Hnin & -> & ->)]; [left; by right|].
           right. split; [|done].
           intros [E|Hin']%elem_of_cons; [by subst|done].
Qed.

Lemma counted_step progress seen a :
  counted progress seen ->
  counted (progress_step progress (DailyAction.focus_area a)
             (DailyAction.completed a))
          (seen ++ [a]).
Proof.
  intros (Hnd & Hcov & Hcnt). split; [|split].
  - rewrite progress_step_keys. destruct (decide _) as [Hin|Hnin]; [done|].
    apply NoDup_app. split; [done|]. split; [|apply NoDup_singleton].
    intros x Hx ->%list_elem_of_singleton. done.
  - intros b Hb. rewrite progress_step_keys.
    apply elem_of_app in Hb as [Hb|Hb].
    + specialize (Hcov b Hb). destruct (decide _); [done|].
      apply elem_of_app. by left.
    + apply list_elem_of_singleton in Hb as ->. destruct (decide _) as [Hin|Hnin]; [done|].
      apply elem_of_app. right. left.
  - intros k t d Hin. rewrite !filter_app, !length_app, !filter_cons, !filter_nil.
    apply progress_step_elem in Hin
      as [[Hk Hin]|[-> (t0 & d0 & Hsrc & -> & ->)]]; [| |done].
    + destruct (Hcnt k t d Hin) as (H1 & H2 & H3).
      case_decide as E1; [by destruct Hk|].
      case_decide as E2; [by destruct Hk; destruct E2|].
      simpl. rewrite !Nat.add_0_r. done.
    + assert (Hold : 0 <= t0
                /\ t0 = Z.of_nat (length (filter
                    (fun b => DailyAction.focus_area b
                              = DailyAction.focus_area a) seen))
                /\ d0 = Z.of_nat (length (filter
                    (fun b => DailyAction.focus_area b
                              = DailyAction.focus_area a
                              /\ DailyAction.completed b = true) seen))).
      { destruct Hsrc as [Hsrc|(Hnin & -> & ->)].
        - destruct (Hcnt _ _ _ Hsrc) as (H1 & H2 & H3).
          split; [lia|done].
        - split; [done|].
          rewrite !filter_none; [done| |].
          + intros b Hb [E _]. apply Hnin. rewrite <- E. by apply Hcov.
          + intros b Hb E. apply Hnin. rewrite <- E. by apply Hcov. }
      destruct Hold as (H0 & Ht0 & Hd0).
      case_decide as E1; [|done].
      destruct (DailyAction.completed a) eqn:Hc.
      * case_decide as E2; [|by destruct E2].
        simpl. split; [lia|]. split; lia.
      * case_decide as E2; [by destruct E2|].
        simpl. split; [lia|]. split; lia.
Qed.

Lemma counted_loop actions :
  forall progress seen,
    counted progress seen ->
    counted
      (foldl (fun p a =>
                progress_step p (DailyAction.focus_area a)
                  (DailyAction.completed a))
             progress actions)
      (seen ++ actions).
Proof.
  induction actions as [|a actions IH]; intros progress seen Hc; simpl.
  - by rewrite app_nil_r.
  - replace (seen ++ a :: actions) with ((seen ++ [a]) ++ actions)
      by (by rewrite <- app_assoc).
    apply IH. by apply counted_step.
Qed.


(** X25. The per-area part of the weekly summary: each focus area that has
    an action of the user in the week is listed exactly once, with the
    number of these actions (at least 1) as its total and the number of the
    completed ones among them as its completed count. *)
Theorem weekly_summary_per_area (cfg : Config) (now : Z) (db : Db)
    (user_id : pystr) :
  let s := generate_weekly_summary cfg now db user_id in
  let actions :=
    filter (in_week user_id (week_start s) (week_end s)) (daily_actions db) in
  NoDup (area_name <$> focus_areas_progress s)
  /\ (forall a, a ∈ actions ->
        DailyAction.focus_area a ∈ area_name <$> focus_areas_progress s)
  /\ (forall p, p ∈ focus_areas_progress s ->
        1 <= area_total p
        /\ area_total p
           = Z.of_nat (length (filter
               (fun a => DailyAction.focus_area a = area_name p) actions))
        /\ area_completed p
           = Z.of_nat (length (filter
               (fun a => DailyAction.focus_area a = area_name p
                         /\ DailyAction.completed a = true) actions))).
Proof.
  cbv zeta. unfold generate_weekly_summary.
  cbn [week_start week_end focus_areas_progress].
  set (today := effective_day cfg now).
  set (actions := filter (in_week user_id (today - weekday today)
                            (today - weekday today + 6)) (daily_actions db)).
  set (progress := foldl _ [] actions).
  assert (Hc : counted progress actions).
  { subst progress. change actions with ([] ++ actions) at 2.
    apply counted_loop. split; [apply NoDup_nil_2|].
    split; [by intros a Ha%elem_of_nil|by intros k t d Hin%elem_of_nil]. }
  destruct Hc as (Hnd & Hcov & Hcnt).
  assert (Hnames :
    area_name <$> ((fun '(name, (total, done)) =>
                      {| area_name := name;
                         area_completed := done;
                         area_total := total;
                         area_rate := PyFloat.round1 (rate_of done total) |})
                   <$> progress) = progress.*1).
  { rewrite <- list_fmap_compose. apply list_fmap_ext.
    by intros i [k [t d]] _. }
  rewrite Hnames. split; [done|]. split; [done|].
  intros p (kv & -> & Hin)%list_elem_of_fmap.
  destruct kv as [k [t d]]. cbn [area_total area_completed area_name].
  by apply Hcnt.
Qed.

(** ** GET /progress and GET /plans *)

Lemma earlier_action_sorted (l : list DailyAction.t) :
  StronglySorted earlier_action (merge_sort earlier_action l).
Proof.
  apply StronglySorted_merge_sort.
  - intros a b c. unfold earlier_action. lia.
  - intros a b. unfold earlier_action. lia.
Qed.

(** X26. The progress report lists exactly the user's actions dated from 30
    logical days ago on (those of later days included), each as often as it
    is stored, oldest day first; it never shows an action of another user,
    and its two counters are the length of the list and the number of its
    completed actions, the second never above the first. *)
Theorem progress_report_window (cfg : Config) (now : Z) (db : Db)
    (user_id : pystr) :
  let r := progress_report cfg now db user_id in
  let cutoff := effective_day cfg now - 30 in
  StronglySorted earlier_action (progress_actions r)
  /\ progress_actions r
     ≡ₚ filter (fun a => DailyAction.user_id a = user_id
                         /\ cutoff <= DailyAction.day a) (daily_actions db)
  /\ (forall a, a ∈ progress_actions r ->
        DailyAction.user_id a = user_id /\ cutoff <= DailyAction.day a)
  /\ progress_total_actions r = Z.of_nat (length (progress_actions r))
  /\ progress_completed_actions r
     = Z.of_nat (length (filter (fun a => DailyAction.completed a = true)
                           (progress_actions r)))
  /\ 0 <= progress_completed_actions r <= progress_total_actions r.
Proof.
  cbv zeta. unfold progress_report.
  cbn [progress_actions progress_total_actions progress_completed_actions].
  split; [apply earlier_action_sorted|].
  split; [apply merge_sort_Permutation|].
  split.
  { intros a Ha. rewrite merge_sort_Permutation in Ha.
    by apply list_elem_of_filter in Ha as [Hp _]. }
  split; [done|]. split; [done|].
  match goal with
  | |- context [length (filter ?P ?l)] =>
    pose proof (length_filter P l)
  end.
  lia.
Qed.

Lemma filter_fmap_fixed {A} (P : A -> Prop) `{forall x, Decision (P x)}
    (f : A -> A) (l : list A) :
  (forall x, P (f x) <-> P x) -> (forall x, P x -> f x = x) ->
  filter P (f <$> l) = filter P l.
Proof.
  intros Hiff Hfix. induction l as [|x l IH]; [done|].
  rewrite fmap_cons, !filter_cons.
  destruct (decide (P (f x))) as [Hy|Hn], (decide (P x)) as [Hy'|Hn'].
  - by rewrite IH, Hfix.
  - destruct Hn'. by apply Hiff.
  - destruct Hn. by apply Hiff.
  - done.
Qed.

(** X27. The plan list has at most 100 entries, all of them stored plans of
    the user, latest first.  Starting fresh keeps the history: the user's
    list has as many entries afterwards, all of them archived, and the list
    of any other user is the same as before. *)
Theorem list_plans_history (db : Db) (user_id : pystr) :
  let l := list_plans db user_id in
  let l' := list_plans (start_fresh db user_id) user_id in
  (length l <= 100)%nat
  /\ StronglySorted later_plan l
  /\ (forall p, p ∈ l -> p ∈ plans db /\ Plan.user_id p = user_id)
  /\ length l' = length l
  /\ (forall p, p ∈ l' -> Plan.status p = lit "archived")
  /\ (forall other, other <> user_id ->
        list_plans (start_fresh db user_id) other = list_plans db other).
Proof.
  cbv zeta. unfold list_plans, start_fresh. cbn [plans].
  split; [rewrite length_take; lia|].
  split.
  { pose proof (later_plan_sorted
                  (filter (fun p => Plan.user_id p = user_id) (plans db)))
      as Hs.
    rewrite <- (take_drop 100) in Hs. by apply StronglySorted_app_1_l in Hs. }
  split.
  { intros p Hp. apply (subseteq_take 100) in Hp.
    rewrite merge_sort_Permutation in Hp.
    apply list_elem_of_filter in Hp as [Hu Hp]. done. }
  split.
  { rewrite !length_take.
    rewrite !(Permutation_length (merge_sort_Permutation later_plan _)).
    rewrite length_filter_fmap_iff; [done|].
    intros p. by destruct (decide _). }
  split.
  { intros p Hp. apply (subseteq_take 100) in Hp.
    rewrite merge_sort_Permutation in Hp.
    apply list_elem_of_filter in Hp as [Hu Hp].
    apply list_elem_of_fmap in Hp as (q & -> & Hq).
    revert Hu. destruct (decide _) as [|Hn]; [done|]. intros Hu.
    destruct (decide (Plan.status q = lit "archived")); [done|].
    exfalso. by apply Hn. }
  intros other Hne. f_equal. f_equal.
  apply filter_fmap_fixed.
  - intros p. by destruct (decide _).
  - intros p Hp. destruct (decide _) as [[Hu _]|_]; [congruence|done].
Qed.

(** ** Middleware *)

Lemma split_no_separator c s piece : piece ∈ split c s -> c ∉ piece.
Proof.
  revert piece. induction s as [|x s IH]; intros piece Hin; simpl in Hin.
  - apply list_elem_of_singleton in Hin as ->. apply not_elem_of_nil.
  - destruct (N.eqb_spec x c) as [->|Hne].
    + apply elem_of_cons in Hin as [->|Hin]; [apply not_elem_of_nil|].
      by apply IH.
    + destruct (split c s) as [|piece0 pieces].
      * apply list_elem_of_singleton in Hin as ->.
        intros [E|Hin]%elem_of_cons; [by subst|by apply elem_of_nil in Hin].
      * apply elem_of_cons in Hin as [->|Hin].
        -- intros [E|Hin]%elem_of_cons; [by subst|].
           revert Hin. apply IH. left.
        -- apply IH. by right.
Qed.

(** X28. Every origin returned by [parse_cors_origins] is a non-empty
    string without surrounding white space and without a comma; a value
    that is absent or empty gives the wildcard alone, and a value made of
    white space only gives no origin at all. *)
Theorem parse_cors_origins_entries (value : option pystr) :
  (forall e, e ∈ parse_cors_origins value ->
     e <> [] /\ strip e = e /\ 44%N ∉ e)
  /\ (value = None \/ value = Some [] ->
      parse_cors_origins value = [[42%N]])
  /\ (forall v, value = Some v -> v <> [] -> strip v = [] ->
      parse_cors_origins value = []).
Proof.
  assert (Hstar : forall e : pystr, e ∈ [[42%N]] ->
            e <> [] /\ strip e = e /\ 44%N ∉ e).
  { intros e ->%list_elem_of_singleton. split; [done|]. split; [done|].
    intros [E|Hin]%elem_of_cons; [done|by apply elem_of_nil in Hin]. }
  split; [|split].
  - intros e. unfold parse_cors_origins.
    destruct value as [v|]; [|apply Hstar].
    destruct (truthy v); [|apply Hstar].
    destruct (decide (strip v = [42%N])); [apply Hstar|].
    intros (piece & -> & Hin)%list_elem_of_fmap.
    apply list_elem_of_filter in Hin as [Htruthy Hin].
    split; [|split].
    + intros E. by rewrite E in Htruthy.
    + apply strip_strip.
    + apply split_no_separator in Hin.
      assert (Hall : Forall (fun x => x <> 44%N) (strip piece)).
      { apply strip_Forall. apply Forall_forall. intros x Hx ->. done. }
      rewrite Forall_forall in Hall. intros H44. by apply (Hall _ H44).
  - by intros [->| ->].
  - intros v -> Hne Hblank. unfold parse_cors_origins.
    destruct v as [|c v]; [done|]. cbn [truthy]. rewrite Hblank.
    reflexivity.
Qed.

Lemma parse_cors_origins_entries_witness :
  (forall e, e ∈ parse_cors_origins (Some (lit " https://a.example , ,b ")) ->
     e <> [] /\ strip e = e /\ 44%N ∉ e)
  /\ parse_cors_origins (Some (lit " https://a.example , ,b "))
     = [lit "https://a.example"; lit "b"]
  /\ parse_cors_origins (Some (lit "  ")) = [].
Proof.
  split; [|split].
  - apply (parse_cors_origins_entries (Some (lit " https://a.example , ,b "))).
  - reflexivity.
  - apply (proj2 (proj2 (parse_cors_origins_entries (Some (lit "  "))))
             (lit "  ")); [reflexivity|discriminate|reflexivity].
Defined.
